(** * Import pipeline of the diet/exercise planner: a shallow embedding

    The development follows the Python sources under
    [backend/app/services]:

    - [excel_parser.py]   : [ExcelParser] and [convert_to_plan_items]
    - [pdf_parser.py]     : [PDFParser]
    - [data_validator.py] : [DataValidator]
    - [file_validator.py] : [FileValidator]

    Python values are modelled by an inductive type [value]; text is a
    sequence of Unicode code points; floats are IEEE binary64 numbers in
    the representation of [SpecFloat]; dictionaries are finite maps;
    exceptions are an explicit result type. *)

From Stdlib Require Import ZArith NArith List String Ascii Bool Lia Sorted.
From Stdlib Require Import Floats.SpecFloat.
From stdpp Require Import base option list strings gmap fin_maps.

Local Open Scope Z_scope.

(** ** Python text *)

Module Text.

(** A Python [str] is a sequence of code points. *)
Definition pystr := list N.

Definition byte_list (s : string) : list N :=
  List.map (fun a => N_of_ascii a) (list_ascii_of_string s).

(** Decoding of the UTF-8 bytes of a source literal. *)
Fixpoint utf8_decode (bs : list N) : pystr :=
  match bs with
  | [] => []
  | b :: r =>
    if (b <? 128)%N then b :: utf8_decode r
    else if (b <? 224)%N then
      match r with
      | b1 :: r1 => ((b - 192) * 64 + (b1 - 128))%N :: utf8_decode r1
      | _ => []
      end
    else if (b <? 240)%N then
      match r with
      | b1 :: b2 :: r2 =>
        ((b - 224) * 4096 + (b1 - 128) * 64 + (b2 - 128))%N :: utf8_decode r2
      | _ => []
      end
    else
      match r with
      | b1 :: b2 :: b3 :: r3 =>
        ((b - 240) * 262144 + (b1 - 128) * 4096 + (b2 - 128) * 64 + (b3 - 128))%N
          :: utf8_decode r3
      | _ => []
      end
  end.

Definition utf8 (s : string) : pystr := utf8_decode (byte_list s).

Definition chr_eqb (a b : N) : bool := (a =? b)%N.

Fixpoint str_eqb (a b : pystr) : bool :=
  match a, b with
  | [], [] => true
  | x :: a', y :: b' => chr_eqb x y && str_eqb a' b'
  | _, _ => false
  end.

(** [str.isspace] on one code point; the same set is used by [str.strip]
    and by the regex class [\s] on [str] patterns. *)
Definition is_space (c : N) : bool :=
  ((9 <=? c) && (c <=? 13) || (28 <=? c) && (c <=? 32)
   || (c =? 133) || (c =? 160) || (c =? 5760)
   || (8192 <=? c) && (c <=? 8202)
   || (c =? 8232) || (c =? 8233) || (c =? 8239) || (c =? 8287)
   || (c =? 12288))%N.

(** Decimal digits: the ASCII digits.  Python's [\d], [int] and [float]
    also accept the other code points of Unicode category Nd; text whose
    decimal digits are all ASCII is what this development covers. *)
Definition is_digit (c : N) : bool := ((48 <=? c) && (c <=? 57))%N.

Definition digit_val (c : N) : Z := Z.of_N c - 48.

(** [str.lower] and case-insensitive comparison, on the ASCII letters
    (the letters of every keyword and pattern of the sources). *)
Definition lower_chr (c : N) : N :=
  if ((65 <=? c) && (c <=? 90))%N then (c + 32)%N else c.

Definition lower (s : pystr) : pystr := List.map lower_chr s.

Fixpoint lstrip (s : pystr) : pystr :=
  match s with
  | c :: r => if is_space c then lstrip r else s
  | [] => []
  end.

Definition rstrip (s : pystr) : pystr := rev (lstrip (rev s)).

(** [s.strip()] *)
Definition strip (s : pystr) : pystr := rstrip (lstrip s).

Fixpoint starts_with (p s : pystr) : bool :=
  match p, s with
  | [], _ => true
  | x :: p', y :: s' => chr_eqb x y && starts_with p' s'
  | _ :: _, [] => false
  end.

(** [p in s] for two strings. *)
Fixpoint contains (p s : pystr) : bool :=
  starts_with p s ||
  match s with
  | [] => false
  | _ :: s' => contains p s'
  end.

(** [s.split(sep)] for a one-character separator. *)
Fixpoint split_on (sep : N) (s : pystr) : list pystr :=
  match s with
  | [] => [[]]
  | c :: r =>
    if chr_eqb c sep then [] :: split_on sep r
    else match split_on sep r with
         | l :: ls => (c :: l) :: ls
         | [] => [[c]]
         end
  end.

(** [sep.join(parts)] *)
Fixpoint join (sep : pystr) (parts : list pystr) : pystr :=
  match parts with
  | [] => []
  | [p] => p
  | p :: ps => p ++ sep ++ join sep ps
  end.

(** Truth value of a string: it is not empty. *)
Definition nonempty_str (s : pystr) : bool :=
  match s with [] => false | _ :: _ => true end.

(** Decimal rendering of a natural number, most significant digit first. *)
Fixpoint digits_of_pos (fuel : nat) (n : Z) (acc : pystr) : pystr :=
  match fuel with
  | O => acc
  | S fuel' =>
    let acc' := Z.to_N (48 + n mod 10) :: acc in
    if n / 10 =? 0 then acc' else digits_of_pos fuel' (n / 10) acc'
  end.

Definition str_of_nonneg (n : Z) : pystr :=
  digits_of_pos (S (Z.to_nat (Z.log2 n))) n [].

(** [str(n)] for an [int]. *)
Definition str_of_int (n : Z) : pystr :=
  if n <? 0 then 45%N :: str_of_nonneg (- n) else str_of_nonneg n.

(** Zero padding to a width, as [%02d] does. *)
Definition zero_pad (w : nat) (s : pystr) : pystr :=
  repeat 48%N (w - length s)%nat ++ s.

(** Value of a run of ASCII digits. *)
Definition int_of_digits (s : pystr) : Z :=
  fold_left (fun acc c => acc * 10 + digit_val c) s 0.

End Text.

Import Text.

(** ** Python floats: IEEE binary64 *)

Module PyFloat.

Definition prec : Z := 53.
Definition emax : Z := 1024.

(** [float(n)] for an [int] in range: rounding to nearest, ties to even. *)
Definition of_Z (z : Z) : spec_float := binary_normalize prec emax z 0 false.

(** The binary64 number nearest to [num / den] ([0 <= num], [0 < den]).
    The quotient is computed with more than 60 bits and a sticky bit
    before the final rounding. *)
Definition of_ratio (neg : bool) (num den : Z) : spec_float :=
  if num =? 0 then S754_zero neg
  else
    let s := Z.max 0 (64 + Z.log2 den - Z.log2 num) in
    let n := num * 2 ^ s in
    let m := 2 * (n / den) + (if n mod den =? 0 then 0 else 1) in
    match m with
    | Zpos p => binary_round prec emax neg p (- s - 1)
    | _ => S754_zero neg
    end.

(** The binary64 number nearest to [m * 10 ^ e] ([0 <= m]); [nd] is the
    number of digits [m] was written with.  Values too large become an
    infinity and values too small a zero, as [strtod] does. *)
Definition of_decimal (neg : bool) (m : Z) (nd : Z) (e : Z) : spec_float :=
  if m =? 0 then S754_zero neg
  else if 400 <? e then S754_infinity neg
  else if e + nd <? -400 then S754_zero neg
  else if 0 <=? e then of_ratio neg (m * 10 ^ e) 1
  else of_ratio neg m (10 ^ (- e)).

Definition is_zero (f : spec_float) : bool :=
  match f with S754_zero _ => true | _ => false end.

Definition mul (a b : spec_float) : spec_float := SFmul prec emax a b.

(** *** [float(s)] for a string *)

Fixpoint span (p : N -> bool) (s : pystr) : pystr * pystr :=
  match s with
  | c :: r => if p c then let '(a, b) := span p r in (c :: a, b) else ([], s)
  | [] => ([], [])
  end.

(** Removal of digit-group underscores; an underscore must stand between
    two digits. *)
Fixpoint drop_underscores (prev : N) (s : pystr) : option pystr :=
  match s with
  | [] => if (prev =? 95)%N then None else Some []
  | c :: r =>
    if (c =? 95)%N then
      if is_digit prev then drop_underscores c r else None
    else if (prev =? 95)%N && negb (is_digit c) then None
    else option_map (cons c) (drop_underscores c r)
  end.

Definition split_sign (s : pystr) : bool * pystr :=
  match s with
  | 45%N :: r => (true, r)
  | 43%N :: r => (false, r)
  | _ => (false, s)
  end.

(** The optional exponent part: [e], an optional sign and digits.  When
    no digit follows, the exponent is not consumed. *)
Definition parse_exponent (s : pystr) : Z * pystr :=
  match s with
  | c :: r =>
    if (lower_chr c =? 101)%N then
      let '(neg, r1) := split_sign r in
      let '(ds, rest) := span is_digit r1 in
      match ds with
      | [] => (0, s)
      | _ => ((if neg then - int_of_digits ds else int_of_digits ds), rest)
      end
    else (0, s)
  | [] => (0, s)
  end.

Definition parse_decimal (neg : bool) (s : pystr) : option spec_float :=
  let '(ip, r1) := span is_digit s in
  let '(fp, r2) :=
    match r1 with
    | 46%N :: r => span is_digit r
    | _ => ([], r1)
    end in
  match ip ++ fp with
  | [] => None
  | ds =>
    let '(e, rest) := parse_exponent r2 in
    match rest with
    | [] => Some (of_decimal neg (int_of_digits ds) (Z.of_nat (length ds))
                              (e - Z.of_nat (length fp)))
    | _ => None
    end
  end.

Definition parse_inf_nan (neg : bool) (s : pystr) : option spec_float :=
  let l := lower s in
  if str_eqb l (utf8 "inf") || str_eqb l (utf8 "infinity")
  then Some (S754_infinity neg)
  else if str_eqb l (utf8 "nan") then Some S754_nan
  else None.

(** The whitespace that [float] drops around the number: the ASCII
    whitespace of C and, being read as spaces, the whitespace beyond
    ASCII; the separators U+001C to U+001F are kept. *)
Definition is_float_space (c : N) : bool :=
  is_space c && negb ((28 <=? c) && (c <=? 31))%N.

Fixpoint lstrip_space (s : pystr) : pystr :=
  match s with
  | c :: r => if is_float_space c then lstrip_space r else s
  | [] => []
  end.

Definition strip_space (s : pystr) : pystr :=
  rev (lstrip_space (rev (lstrip_space s))).

(** [float(s)]: [None] stands for [ValueError]. *)
Definition of_str (s : pystr) : option spec_float :=
  match (if existsb (N.eqb 95) s then drop_underscores 0%N s else Some s) with
  | None => None
  | Some t =>
    let '(neg, body) := split_sign (strip_space t) in
    match parse_decimal neg body with
    | Some f => Some f
    | None => parse_inf_nan neg body
    end
  end.

(** *** [repr(x)] for a float: the shortest decimal that reads back as [x] *)

(** Number of decimal digits of a positive integer. *)
Definition num_digits (n : Z) : Z := Z.of_nat (length (str_of_nonneg n)).

(** The decimal point position [k] of a positive [num / den]:
    [10 ^ (k - 1) <= num / den < 10 ^ k]. *)
Fixpoint frac_point (fuel : nat) (num den : Z) (j : Z) : Z :=
  match fuel with
  | O => - j
  | S fuel' => if den <=? num * 10 then - j else frac_point fuel' (num * 10) den (j + 1)
  end.

Definition dec_point (num den : Z) : Z :=
  if den <=? num then num_digits (num / den) else frac_point 400 num den 0.

Definition scale10 (num den e : Z) : Z * Z :=
  if 0 <=? e then (num * 10 ^ e, den) else (num, den * 10 ^ (- e)).

(** The candidate with [n] significant digits: the nearest of the two
    [n]-digit decimals around [x] that read back as [x], if any. *)
Definition repr_candidate (x : spec_float) (num den k n : Z) : option (Z * Z) :=
  let '(a, b) := scale10 num den (n - k) in
  let lo := a / b in
  let r := a mod b in
  let back d := match of_decimal false d (num_digits d) (k - n), SFabs x with
                | S754_finite _ m e, S754_finite _ m' e' => (m =? m')%positive && (e =? e')
                | _, _ => false
                end in
  let ok_lo := back lo in
  let ok_hi := negb (r =? 0) && back (lo + 1) in
  let take_hi := (b <? 2 * r) || ((b =? 2 * r) && Z.odd lo) in
  if ok_lo && ok_hi then Some ((if take_hi then lo + 1 else lo), k - n)
  else if ok_lo then Some (lo, k - n)
  else if ok_hi then Some (lo + 1, k - n)
  else None.

Fixpoint repr_search (fuel : nat) (x : spec_float) (num den k n : Z) : Z * Z :=
  match fuel with
  | O => (0, 0)
  | S fuel' =>
    match repr_candidate x num den k n with
    | Some c => c
    | None => repr_search fuel' x num den k (n + 1)
    end
  end.

Fixpoint strip_zeros (fuel : nat) (d e : Z) : Z * Z :=
  match fuel with
  | O => (d, e)
  | S fuel' => if (d mod 10 =? 0) && negb (d =? 0) then strip_zeros fuel' (d / 10) (e + 1) else (d, e)
  end.

(** Layout of the digits, as [float_repr_style = 'short'] does: exponent
    notation when the decimal point is far from the digits. *)
Definition layout (digits : pystr) (decpt : Z) : pystr :=
  let n := Z.of_nat (length digits) in
  if (decpt <=? -4) || (16 <? decpt) then
    let e := decpt - 1 in
    let mant := match digits with
                | d :: [] => [d]
                | d :: rest => d :: 46%N :: rest
                | [] => []
                end in
    let es := str_of_nonneg (Z.abs e) in
    mant ++ [101%N; (if e <? 0 then 45%N else 43%N)] ++ zero_pad 2 es
  else if decpt <=? 0 then
    utf8 "0." ++ repeat 48%N (Z.to_nat (- decpt)) ++ digits
  else if n <=? decpt then
    digits ++ repeat 48%N (Z.to_nat (decpt - n)) ++ utf8 ".0"
  else
    firstn (Z.to_nat decpt) digits ++ 46%N :: skipn (Z.to_nat decpt) digits.

Definition repr (x : spec_float) : pystr :=
  match x with
  | S754_nan => utf8 "nan"
  | S754_infinity s => if s then utf8 "-inf" else utf8 "inf"
  | S754_zero s => if s then utf8 "-0.0" else utf8 "0.0"
  | S754_finite s m e =>
    let '(num, den) := if 0 <=? e then (Zpos m * 2 ^ e, 1) else (Zpos m, 2 ^ (- e)) in
    let k := dec_point num den in
    let '(d0, e0) := repr_search 17 x num den k 1 in
    let '(d, e1) := strip_zeros 20 d0 e0 in
    let digits := str_of_nonneg d in
    (if s then [45%N] else []) ++ layout digits (e1 + Z.of_nat (length digits))
  end.

End PyFloat.

(** ** Python values, exceptions and dictionaries *)

Module Py.

Inductive exn :=
| AttributeError
| TypeError
| ValueError
| OverflowError
| ExcelParseError
| PDFParseError.

(** The outcome of a call: a returned value or a raised exception. *)
Inductive result (A : Type) :=
| Ok (a : A)
| Raise (e : exn).
Arguments Ok {A} a.
Arguments Raise {A} e.

Definition bind {A B} (m : result A) (f : A -> result B) : result B :=
  match m with
  | Ok a => f a
  | Raise e => Raise e
  end.

Record date := Date { year : Z; month : Z; day : Z }.
Record time := Time { hour : Z; minute : Z; second : Z; microsecond : Z }.

(** The values a cell or a row field can hold. *)
Inductive value :=
| VNone
| VBool (b : bool)
| VInt (z : Z)
| VFloat (f : spec_float)
| VStr (s : pystr)
| VDate (d : date)
| VDateTime (d : date) (t : time).

(** Truth value of an object, as [if x:] and [not x] test it. *)
Definition truthy (v : value) : bool :=
  match v with
  | VNone => false
  | VBool b => b
  | VInt z => negb (z =? 0)
  | VFloat f => negb (PyFloat.is_zero f)
  | VStr s => match s with [] => false | _ => true end
  | VDate _ => true
  | VDateTime _ _ => true
  end.

Definition is_none (v : value) : bool :=
  match v with VNone => true | _ => false end.

Definition isoformat (d : date) : pystr :=
  zero_pad 4 (str_of_int (year d)) ++ utf8 "-" ++
  zero_pad 2 (str_of_int (month d)) ++ utf8 "-" ++
  zero_pad 2 (str_of_int (day d)).

(** [str(v)] *)
Definition str (v : value) : pystr :=
  match v with
  | VNone => utf8 "None"
  | VBool b => if b then utf8 "True" else utf8 "False"
  | VInt z => str_of_int z
  | VFloat f => PyFloat.repr f
  | VStr s => s
  | VDate d => isoformat d
  | VDateTime d t =>
    isoformat d ++ utf8 " " ++
    zero_pad 2 (str_of_int (hour t)) ++ utf8 ":" ++
    zero_pad 2 (str_of_int (minute t)) ++ utf8 ":" ++
    zero_pad 2 (str_of_int (second t)) ++
    (if microsecond t =? 0 then []
     else utf8 "." ++ zero_pad 6 (str_of_int (microsecond t)))
  end.

(** [float(v)]: an [int] beyond the range of binary64 raises
    [OverflowError], an unparsable string [ValueError], an object that is
    not a number or a string [TypeError]. *)
Definition float (v : value) : result spec_float :=
  match v with
  | VBool b => Ok (PyFloat.of_Z (if b then 1 else 0))
  | VInt z =>
    match PyFloat.of_Z z with
    | S754_infinity _ => Raise OverflowError
    | f => Ok f
    end
  | VFloat f => Ok f
  | VStr s =>
    match PyFloat.of_str s with
    | Some f => Ok f
    | None => Raise ValueError
    end
  | _ => Raise TypeError
  end.

Definition of_opt_str (o : option pystr) : value :=
  match o with Some s => VStr s | None => VNone end.

Definition of_opt_float (o : option spec_float) : value :=
  match o with Some f => VFloat f | None => VNone end.

(** *** The proleptic Gregorian calendar of [datetime.date] *)

Definition is_leap (y : Z) : bool :=
  (y mod 4 =? 0) && (negb (y mod 100 =? 0) || (y mod 400 =? 0)).

Definition days_in_month (y m : Z) : Z :=
  if m =? 2 then (if is_leap y then 29 else 28)
  else if (m =? 4) || (m =? 6) || (m =? 9) || (m =? 11) then 30
  else 31.

(** [date(y, m, d)]: [None] stands for [ValueError]. *)
Definition make_date (y m d : Z) : option date :=
  if (1 <=? y) && (y <=? 9999) && (1 <=? m) && (m <=? 12)
     && (1 <=? d) && (d <=? days_in_month y m)
  then Some (Date y m d) else None.

(** [d.strftime('%Y-%m-%d')].  The directives are rendered by the C
    library: two digits for the month and the day, and the year without
    padding (glibc), which has four digits from the year 1000 on. *)
Definition strftime_ymd (d : date) : pystr :=
  str_of_int (year d) ++ utf8 "-" ++
  zero_pad 2 (str_of_int (month d)) ++ utf8 "-" ++
  zero_pad 2 (str_of_int (day d)).

End Py.

Import Py.

#[global] Instance result_ret : MRet result := @Ok.
#[global] Instance result_bind : MBind result := fun A B f m => Py.bind m f.
#[global] Instance result_fmap : FMap result := fun A B f m => Py.bind m (fun a => Ok (f a)).

(** A row of parsed data, [Dict[str, Any]]. *)
Abbreviation row := (gmap string value).

(** [d.get(k)] *)
Definition dict_get (d : row) (k : string) : value := default VNone (d !! k).
(** [d.get(k, dflt)] *)
Definition dict_get_or (d : row) (k : string) (dflt : value) : value := default dflt (d !! k).
(** [k in d] *)
Definition dict_has (d : row) (k : string) : bool := bool_decide (is_Some (d !! k)).
(** [any(d.values())] *)
Definition any_value (d : row) : bool :=
  existsb truthy (snd <$> map_to_list d).

(** ** Regular expressions: a backtracking matcher *)

Module Re.

Inductive re :=
| Eps
| Chr (c : N)
| Cls (p : N -> bool)
| Seq (a b : re)
| Alt (a b : re)
| Rep (a : re) (lo : nat) (hi : option nat)
| Grp (i : nat) (a : re)
| Bol.

(** Captured groups, the most recent first. *)
Definition caps := list (nat * pystr).

Record rmatch := Match {
  m_start : nat;
  m_end : nat;
  m_text : pystr;       (* [group(0)] *)
  m_groups : caps;
  m_after : pystr       (* the subject from [end()] on *)
}.

Section Matcher.
(** [re.IGNORECASE] *)
Variable icase : bool.
Variable R : Type.

Definition cont := nat -> pystr -> caps -> option R.

Definition chr_match (x y : N) : bool :=
  if icase then chr_eqb (lower_chr x) (lower_chr y) else chr_eqb x y.

(** Greedy repetition: one more iteration is tried first; an iteration
    that consumes nothing ends the loop. *)
Fixpoint rep_loop (body : nat -> pystr -> caps -> cont -> option R)
    (fuel lo : nat) (hi : option nat) (pos : nat) (s : pystr) (c : caps)
    (k : cont) : option R :=
  match fuel with
  | O => None
  | S fuel' =>
    let more :=
      match hi with
      | Some O => None
      | _ =>
        body pos s c (fun pos' s' c' =>
          if (pos' =? pos)%nat then None
          else rep_loop body fuel' (Nat.pred lo) (option_map Nat.pred hi) pos' s' c' k)
      end in
    match more with
    | Some v => Some v
    | None => match lo with O => k pos s c | _ => None end
    end
  end.

Fixpoint run (r : re) (pos : nat) (s : pystr) (c : caps) (k : cont) : option R :=
  match r with
  | Eps => k pos s c
  | Chr x =>
    match s with
    | y :: s' => if chr_match x y then k (S pos) s' c else None
    | [] => None
    end
  | Cls p =>
    match s with
    | y :: s' => if p y then k (S pos) s' c else None
    | [] => None
    end
  | Seq a b => run a pos s c (fun pos' s' c' => run b pos' s' c' k)
  | Alt a b =>
    match run a pos s c k with
    | Some v => Some v
    | None => run b pos s c k
    end
  | Rep a lo hi => rep_loop (run a) (S (length s)) lo hi pos s c k
  | Grp i a =>
    run a pos s c (fun pos' s' c' => k pos' s' ((i, firstn (pos' - pos) s) :: c'))
  | Bol => if (pos =? 0)%nat then k pos s c else None
  end.
End Matcher.

(** A match starting exactly at [pos]. *)
Definition match_at (icase : bool) (r : re) (pos : nat) (s : pystr) : option rmatch :=
  run icase rmatch r pos s []
    (fun pos' s' c' => Some (Match pos pos' (firstn (pos' - pos) s) c' s')).

(** [re.search]: the leftmost match. *)
Fixpoint search_from (icase : bool) (r : re) (pos : nat) (s : pystr) : option rmatch :=
  match match_at icase r pos s with
  | Some m => Some m
  | None =>
    match s with
    | [] => None
    | _ :: s' => search_from icase r (S pos) s'
    end
  end.

Definition search (icase : bool) (r : re) (s : pystr) : option rmatch :=
  search_from icase r 0 s.

(** [m.group(i)] for [1 <= i] *)
Fixpoint lookup_group (i : nat) (c : caps) : option pystr :=
  match c with
  | [] => None
  | (j, t) :: c' => if (i =? j)%nat then Some t else lookup_group i c'
  end.

Definition group (m : rmatch) (i : nat) : pystr :=
  default [] (lookup_group i (m_groups m)).

(** [len(m.groups())]: the number of groups of the pattern. *)
Fixpoint group_count (r : re) : nat :=
  match r with
  | Seq a b | Alt a b => Nat.max (group_count a) (group_count b)
  | Rep a _ _ => group_count a
  | Grp i a => Nat.max i (group_count a)
  | _ => O
  end.

(** [re.sub(r, repl, s)] and [re.findall(r, s)] for a pattern that has
    no empty match (every pattern used with them consumes a
    character): the non-overlapping matches, left to right. *)
Fixpoint sub_from (fuel : nat) (r : re) (repl : pystr) (pos : nat) (s : pystr) : pystr :=
  match fuel with
  | O => s
  | S fuel' =>
    match match_at false r pos s with
    | Some m =>
      if (m_start m <? m_end m)%nat
      then repl ++ sub_from fuel' r repl (m_end m) (m_after m)
      else match s with
           | [] => []
           | c :: s' => c :: sub_from fuel' r repl (S pos) s'
           end
    | None =>
      match s with
      | [] => []
      | c :: s' => c :: sub_from fuel' r repl (S pos) s'
      end
    end
  end.

Definition sub (r : re) (repl s : pystr) : pystr :=
  sub_from (S (length s)) r repl 0 s.

Fixpoint findall_from (fuel : nat) (r : re) (pos : nat) (s : pystr) : list pystr :=
  match fuel with
  | O => []
  | S fuel' =>
    match match_at false r pos s with
    | Some m =>
      if (m_start m <? m_end m)%nat
      then m_text m :: findall_from fuel' r (m_end m) (m_after m)
      else match s with
           | [] => []
           | _ :: s' => findall_from fuel' r (S pos) s'
           end
    | None =>
      match s with
      | [] => []
      | _ :: s' => findall_from fuel' r (S pos) s'
      end
    end
  end.

Definition findall (r : re) (s : pystr) : list pystr :=
  findall_from (S (length s)) r 0 s.

(** *** Pattern combinators *)

Fixpoint lit (s : pystr) : re :=
  match s with
  | [] => Eps
  | [c] => Chr c
  | c :: s' => Seq (Chr c) (lit s')
  end.

Fixpoint seq (rs : list re) : re :=
  match rs with
  | [] => Eps
  | [r] => r
  | r :: rs' => Seq r (seq rs')
  end.

Fixpoint alt (rs : list re) : re :=
  match rs with
  | [] => Eps
  | [r] => r
  | r :: rs' => Alt r (alt rs')
  end.

Definition word (s : string) : re := lit (utf8 s).
Definition words (l : list string) : re := alt (List.map word l).
Definition one_of (s : string) : re := Cls (fun c => existsb (chr_eqb c) (utf8 s)).
(** [\d], [\s], [.] *)
Definition digit : re := Cls is_digit.
Definition space : re := Cls is_space.
Definition any : re := Cls (fun c => negb (chr_eqb c 10)).
Definition plus (r : re) : re := Rep r 1 None.
Definition star (r : re) : re := Rep r 0 None.
Definition opt (r : re) : re := Rep r 0 (Some 1%nat).
Definition times (lo hi : nat) (r : re) : re := Rep r lo (Some hi).

End Re.

(** ** [excel_parser.py]: the tabular extractor *)

Module ExcelParser.

(** [COLUMN_KEYWORDS], in the order of the dictionary literal. *)
Definition COLUMN_KEYWORDS : list (string * list string) :=
  [ ("date",      ["日期"; "date"; "时间"; "time"; "日"; "day"]);
    ("type",      ["类型"; "type"; "种类"; "category"]);
    ("name",      ["名称"; "name"; "项目"; "item"]);
    ("meal_time", ["餐次"; "用餐时间"; "meal"; "餐食时间"; "早中晚"; "meal time"]);
    ("food",      ["食物"; "食品"; "food"; "菜品"; "餐食内容"; "内容"]);
    ("calories",  ["热量"; "卡路里"; "calories"; "kcal"; "能量"; "calorie"]);
    ("exercise",  ["运动"; "锻炼"; "exercise"; "训练"; "活动"]);
    ("duration",  ["时长"; "时间"; "duration"; "time"; "分钟"; "min"; "minute"]);
    ("notes",     ["备注"; "说明"; "notes"; "remark"; "描述"; "note"]) ]%string.

(** The active worksheet as [openpyxl] presents it: a grid of cell
    values, rows and columns counted from 1, a missing cell reading as
    [None]. *)
Record worksheet := Worksheet { grid : list (list value) }.

Definition max_row (ws : worksheet) : nat := Nat.max 1 (length (grid ws)).
Definition max_column (ws : worksheet) : nat :=
  Nat.max 1 (fold_right Nat.max O (List.map (@length value) (grid ws))).

(** [ws.cell(r, c).value] *)
Definition cell (ws : worksheet) (r c : nat) : value :=
  match r, c with
  | S r', S c' => nth c' (nth r' (grid ws) []) VNone
  | _, _ => VNone
  end.

(** The one row of [ws.iter_rows(min_row=r, max_row=r, values_only=True)]. *)
Definition iter_row (ws : worksheet) (r : nat) : list value :=
  List.map (cell ws r) (List.seq 1 (max_column ws)).

(** [load_workbook(file_path, data_only=True)] and its active sheet. *)
Inductive workbook :=
| LoadFails
| Workbook (active : worksheet).

(** [any(keyword.lower() in cell_str for keyword in keywords)] *)
Definition has_keyword (keywords : list string) (cell_str : pystr) : bool :=
  existsb (fun kw => contains (lower (utf8 kw)) cell_str) keywords.

Definition _is_header_row (r : list value) : bool :=
  match r with
  | [] => false
  | _ =>
    let '(keyword_count, non_empty_count) :=
      fold_left (fun '(kc, nc) c =>
          if truthy c then
            let cell_str := lower (Py.str c) in
            if existsb (fun '(_, keywords) => has_keyword keywords cell_str) COLUMN_KEYWORDS
            then (kc + 1, nc + 1)
            else (kc, nc + 1)
          else (kc, nc))
        r (0, 0) in
    (0 <? non_empty_count) &&
    SFleb (PyFloat.mul (PyFloat.of_Z non_empty_count) (PyFloat.of_decimal false 4 1 (-1)))
          (PyFloat.of_Z keyword_count)
  end.

(** The first field of [COLUMN_KEYWORDS] one of whose keywords occurs in
    the header cell. *)
Definition match_field (cell_str : pystr) : option string :=
  fst <$> List.find (fun '(_, keywords) => has_keyword keywords cell_str) COLUMN_KEYWORDS.

(** [self.column_mapping] after [_map_columns(header_row, row_idx)] *)
Definition _map_columns (header_row : list value) (row_idx : nat) : gmap string nat :=
  fold_left (fun mapping '(col_idx, c) =>
      if truthy c then
        match match_field (lower (Py.str c)) with
        | Some field => <[field := col_idx]> mapping
        | None => mapping
        end
      else mapping)
    (combine (List.seq 1 (length header_row)) header_row)
    {["header_row"%string := row_idx]}.

Definition _use_default_mapping : gmap string nat :=
  list_to_map
    [ ("header_row", 1); ("date", 1); ("meal_time", 2); ("food", 3);
      ("calories", 4); ("exercise", 5); ("duration", 6); ("notes", 7) ]%string%nat.

(** The scan of [_identify_columns] over the rows [row_idx, ...]. *)
Fixpoint scan_header (ws : worksheet) (row_idxs : list nat) : gmap string nat :=
  match row_idxs with
  | [] => ∅
  | row_idx :: rest =>
    let r := iter_row ws row_idx in
    if _is_header_row r then _map_columns r row_idx else scan_header ws rest
  end.

Definition _identify_columns (ws : worksheet) : gmap string nat :=
  let mapping := scan_header ws (List.seq 1 (Nat.min 6 (max_row ws + 1) - 1)) in
  if bool_decide (mapping = ∅) then _use_default_mapping else mapping.

(** The three date notations of [_parse_date]:
    [(\d{4})[/-](\d{1,2})[/-](\d{1,2})], [(\d{1,2})[/-](\d{1,2})[/-](\d{4})]
    and [(\d{4})年(\d{1,2})月(\d{1,2})日]. *)
Definition date_patterns : list Re.re :=
  [ Re.seq [Re.Grp 1 (Re.times 4 4 Re.digit); Re.one_of "/-";
            Re.Grp 2 (Re.times 1 2 Re.digit); Re.one_of "/-";
            Re.Grp 3 (Re.times 1 2 Re.digit)];
    Re.seq [Re.Grp 1 (Re.times 1 2 Re.digit); Re.one_of "/-";
            Re.Grp 2 (Re.times 1 2 Re.digit); Re.one_of "/-";
            Re.Grp 3 (Re.times 4 4 Re.digit)];
    Re.seq [Re.Grp 1 (Re.times 4 4 Re.digit); Re.word "年";
            Re.Grp 2 (Re.times 1 2 Re.digit); Re.word "月";
            Re.Grp 3 (Re.times 1 2 Re.digit); Re.word "日"] ].

(** The body of the loop over the patterns, for a pattern that matched:
    the groups are read as year, month, day when the first has four
    digits and as month, day, year otherwise; [None] is the [ValueError]
    of an impossible calendar date. *)
Definition date_of_groups (m : Re.rmatch) : option pystr :=
  let '(y, mo, d) :=
    if (length (Re.group m 1) =? 4)%nat
    then (Re.group m 1, Re.group m 2, Re.group m 3)
    else (Re.group m 3, Re.group m 1, Re.group m 2) in
  strftime_ymd <$> make_date (int_of_digits y) (int_of_digits mo) (int_of_digits d).

Fixpoint try_patterns (patterns : list Re.re) (s : pystr) : option pystr :=
  match patterns with
  | [] => None
  | pattern :: rest =>
    match Re.search false pattern s with
    | Some m =>
      match date_of_groups m with
      | Some iso => Some iso
      | None => try_patterns rest s
      end
    | None => try_patterns rest s
    end
  end.

Definition _parse_date (v : value) : option pystr :=
  if negb (truthy v) then None
  else
    match v with
    | VDate d | VDateTime d _ => Some (strftime_ymd d)
    | VStr s => try_patterns date_patterns s
    | _ => None
    end.

(** [[^\d.-]] *)
Definition not_numeric_char : Re.re :=
  Re.Cls (fun c => negb (is_digit c || chr_eqb c 46 || chr_eqb c 45)).

Definition _parse_number (v : value) : result (option spec_float) :=
  if negb (truthy v) then Ok None
  else
    match v with
    | VBool _ | VInt _ | VFloat _ => f ← Py.float v; Ok (Some f)
    | VStr s =>
      let cleaned := Re.sub not_numeric_char [] s in
      match Py.float (VStr cleaned) with
      | Ok f => Ok (Some f)
      | Raise ValueError => Ok None
      | Raise e => Raise e
      end
    | _ => Ok None
    end.

Definition _parse_text (v : value) : option pystr :=
  if negb (truthy v) then None else Some (strip (Py.str v)).

(** The value [_extract_row] stores under [field] for a cell. *)
Definition field_value (field : string) (cell_value : value) : result value :=
  if String.eqb field "date" then Ok (of_opt_str (_parse_date cell_value))
  else if String.eqb field "calories" then of_opt_float <$> _parse_number cell_value
  else if String.eqb field "duration" then of_opt_float <$> _parse_number cell_value
  else Ok (of_opt_str (_parse_text cell_value)).

Definition _extract_row (ws : worksheet) (column_mapping : gmap string nat)
    (row_idx : nat) : result row :=
  map_fold (fun field col_idx acc =>
      row_data ← acc;
      v ← field_value field (cell ws row_idx col_idx);
      Ok (<[field := v]> row_data))
    (Ok ∅) (delete "header_row"%string column_mapping).

Fixpoint extract_rows (ws : worksheet) (column_mapping : gmap string nat)
    (row_idxs : list nat) : result (list row) :=
  match row_idxs with
  | [] => Ok []
  | row_idx :: rest =>
    row_data ← _extract_row ws column_mapping row_idx;
    data ← extract_rows ws column_mapping rest;
    Ok (if any_value row_data then row_data :: data else data)
  end.

Definition _extract_data (ws : worksheet) (column_mapping : gmap string nat)
    : result (list row) :=
  let header_row := default 1%nat (column_mapping !! "header_row"%string) in
  extract_rows ws column_mapping (List.seq (header_row + 1) (max_row ws - header_row)).

(** [parse_file]: every exception leaves as [ExcelParseError]. *)
Definition parse_file (wb : workbook) : result (list row) :=
  match wb with
  | LoadFails => Raise ExcelParseError
  | Workbook ws =>
    match _extract_data ws (_identify_columns ws) with
    | Ok data => Ok data
    | Raise _ => Raise ExcelParseError
    end
  end.

End ExcelParser.

(** ** [pdf_parser.py]: the semi-structured extractor *)

Module PDFParser.

(** [\d+(?:\.\d+)?] *)
Definition number : Re.re :=
  Re.Seq (Re.plus Re.digit) (Re.opt (Re.Seq (Re.Chr 46) (Re.plus Re.digit))).

(** [PATTERNS] *)
Definition PATTERNS_date : list Re.re :=
  [ Re.seq [Re.Grp 1 (Re.times 4 4 Re.digit); Re.one_of "/-";
            Re.Grp 2 (Re.times 1 2 Re.digit); Re.one_of "/-";
            Re.Grp 3 (Re.times 1 2 Re.digit)];
    Re.seq [Re.Grp 1 (Re.times 1 2 Re.digit); Re.one_of "/-";
            Re.Grp 2 (Re.times 1 2 Re.digit); Re.one_of "/-";
            Re.Grp 3 (Re.times 4 4 Re.digit)];
    Re.seq [Re.Grp 1 (Re.times 4 4 Re.digit); Re.word "年";
            Re.Grp 2 (Re.times 1 2 Re.digit); Re.word "月";
            Re.Grp 3 (Re.times 1 2 Re.digit); Re.word "日"] ].

Definition PATTERNS_meal_time : list Re.re :=
  [ Re.Grp 1 (Re.words ["早餐"; "午餐"; "晚餐"; "加餐"]);
    Re.Grp 1 (Re.words ["breakfast"; "lunch"; "dinner"; "snack"]) ]%string.

(** [(\d+(?:\.\d+)?)\s*(?:卡|卡路里|kcal|cal)] *)
Definition PATTERNS_calories : list Re.re :=
  [ Re.seq [Re.Grp 1 number; Re.star Re.space;
            Re.words ["卡"; "卡路里"; "kcal"; "cal"]] ]%string.

(** [(运动|锻炼|训练)[:：]\s*(.+)] and [(跑步|游泳|瑜伽|力量训练|有氧运动)] *)
Definition PATTERNS_exercise : list Re.re :=
  [ Re.seq [Re.Grp 1 (Re.words ["运动"; "锻炼"; "训练"]); Re.one_of ":：";
            Re.star Re.space; Re.Grp 2 (Re.plus Re.any)];
    Re.Grp 1 (Re.words ["跑步"; "游泳"; "瑜伽"; "力量训练"; "有氧运动"]) ]%string.

(** [(\d+(?:\.\d+)?)\s*(?:分钟|小时|min|hour)] *)
Definition PATTERNS_duration : list Re.re :=
  [ Re.seq [Re.Grp 1 number; Re.star Re.space;
            Re.words ["分钟"; "小时"; "min"; "hour"]] ]%string.

(** [COLUMN_KEYWORDS] *)
Definition COLUMN_KEYWORDS : list (string * list string) :=
  [ ("date",      ["日期"; "date"; "时间"]);
    ("meal_time", ["餐次"; "meal"; "用餐"]);
    ("food",      ["食物"; "food"; "菜品"]);
    ("calories",  ["热量"; "calories"; "kcal"]);
    ("exercise",  ["运动"; "exercise"; "锻炼"]);
    ("duration",  ["时长"; "duration"; "分钟"]);
    ("notes",     ["备注"; "notes"; "说明"]) ]%string.

(** A table as [page.extract_tables()] returns it: rows of cells, a cell
    being a string or [None]. *)
Definition table := list (list (option pystr)).

(** What [pdfplumber] extracts from one page. *)
Record page := Page {
  extract_tables : list table;
  extract_text : option pystr
}.

(** [pdfplumber.open(file_path)] *)
Inductive document :=
| OpenFails
| Document (pages : list page).

(** Truth value of an optional string. *)
Definition nonempty (o : option pystr) : bool :=
  match o with
  | Some (_ :: _) => true
  | _ => false
  end.

Definition date_of_groups (m : Re.rmatch) : option pystr :=
  let '(y, mo, d) :=
    if (length (Re.group m 1) =? 4)%nat
    then (Re.group m 1, Re.group m 2, Re.group m 3)
    else (Re.group m 3, Re.group m 1, Re.group m 2) in
  strftime_ymd <$> make_date (int_of_digits y) (int_of_digits mo) (int_of_digits d).

Fixpoint extract_date_with (patterns : list Re.re) (s : pystr) : option pystr :=
  match patterns with
  | [] => None
  | pattern :: rest =>
    match Re.search false pattern s with
    | Some m =>
      match date_of_groups m with
      | Some iso => Some iso
      | None => extract_date_with rest s
      end
    | None => extract_date_with rest s
    end
  end.

Definition _extract_date (s : pystr) : option pystr :=
  extract_date_with PATTERNS_date s.

(** [\d+(?:\.\d+)?\s*(?:卡|卡路里|kcal|cal)] and [^[:：\s]+], the two
    patterns erased from the food text. *)
Definition calorie_mention : Re.re :=
  Re.seq [number; Re.star Re.space; Re.words ["卡"; "卡路里"; "kcal"; "cal"]%string].

Definition leading_separators : Re.re :=
  Re.Seq Re.Bol (Re.plus (Re.Cls (fun c => chr_eqb c 58 || chr_eqb c 65306 || is_space c))).

Fixpoint meal_info_with (patterns : list Re.re) (s : pystr) : option row :=
  match patterns with
  | [] => None
  | pattern :: rest =>
    match Re.search true pattern s with
    | Some m =>
      let meal_time := Re.group m 1 in
      let food_text := strip (Re.m_after m) in
      let food_text := strip (Re.sub calorie_mention [] food_text) in
      let food_text := strip (Re.sub leading_separators [] food_text) in
      match food_text with
      | _ :: _ =>
        Some (<["food"%string := VStr food_text]>
              (<["meal_time"%string := VStr meal_time]> ∅))
      | [] => meal_info_with rest s
      end
    | None => meal_info_with rest s
    end
  end.

Definition _extract_meal_info (s : pystr) : option row :=
  meal_info_with PATTERNS_meal_time s.

Fixpoint calories_with (patterns : list Re.re) (s : pystr) : option spec_float :=
  match patterns with
  | [] => None
  | pattern :: rest =>
    match Re.search false pattern s with
    | Some m =>
      match PyFloat.of_str (Re.group m 1) with
      | Some f => Some f
      | None => calories_with rest s
      end
    | None => calories_with rest s
    end
  end.

Definition _extract_calories (s : pystr) : option spec_float :=
  calories_with PATTERNS_calories s.

(** Hours are converted to minutes. *)
Fixpoint duration_with (patterns : list Re.re) (s : pystr) : option spec_float :=
  match patterns with
  | [] => None
  | pattern :: rest =>
    match Re.search false pattern s with
    | Some m =>
      match PyFloat.of_str (Re.group m 1) with
      | Some duration =>
        let unit := Re.m_text m in
        Some (if contains (utf8 "小时") unit || contains (utf8 "hour") unit
              then PyFloat.mul duration (PyFloat.of_Z 60)
              else duration)
      | None => duration_with rest s
      end
    | None => duration_with rest s
    end
  end.

Definition _extract_duration (s : pystr) : option spec_float :=
  duration_with PATTERNS_duration s.

(** Truth value of an optional float. *)
Definition nonzero (o : option spec_float) : bool :=
  match o with
  | Some f => negb (PyFloat.is_zero f)
  | None => false
  end.

Fixpoint exercise_info_with (patterns : list Re.re) (s : pystr) : option row :=
  match patterns with
  | [] => None
  | pattern :: rest =>
    match Re.search true pattern s with
    | Some m =>
      let exercise_name :=
        if (Re.group_count pattern =? 2)%nat then strip (Re.group m 2)
        else strip (Re.group m 1) in
      let duration := _extract_duration s in
      let result : row := {["exercise"%string := VStr exercise_name]} in
      Some (if nonzero duration
            then <["duration"%string := of_opt_float duration]> result
            else result)
    | None => exercise_info_with rest s
    end
  end.

Definition _extract_exercise_info (s : pystr) : option row :=
  exercise_info_with PATTERNS_exercise s.

(** The state of the loop of [_parse_text] over the lines. *)
Record text_state := TextState {
  data : list row;
  current_item : row;
  current_date : option pystr
}.

(** [any(k != 'date' for k in current_item.keys())] *)
Definition has_other_key (item : row) : bool :=
  bool_decide (delete "date"%string item ≠ ∅).

(** [if current_item and any(current_item.values())] *)
Definition worth_keeping (item : row) : bool :=
  negb (bool_decide (item = ∅)) && any_value item.

(** Start of a field group: a populated record is flushed first. *)
Definition start_group (st : text_state) (d : pystr) (info : row) : text_state :=
  if negb (bool_decide (current_item st = ∅)) && has_other_key (current_item st)
  then TextState (data st ++ [current_item st])
                 (info ∪ {["date"%string := VStr d]}) (current_date st)
  else TextState (data st) (info ∪ current_item st) (current_date st).

Definition parse_line (st : text_state) (raw : pystr) : text_state :=
  let line := strip raw in
  match line with
  | [] => st
  | _ =>
    let date_value := _extract_date line in
    if nonempty date_value then
      TextState
        (if worth_keeping (current_item st) then data st ++ [current_item st] else data st)
        {["date"%string := of_opt_str date_value]} date_value
    else
      match current_date st with
      | Some ((_ :: _) as d) =>
        match _extract_meal_info line with
        | Some meal_info => start_group st d meal_info
        | None =>
          match _extract_exercise_info line with
          | Some exercise_info => start_group st d exercise_info
          | None =>
            let calories := _extract_calories line in
            if nonzero calories && negb (dict_has (current_item st) "calories")
            then TextState (data st)
                           (<["calories"%string := of_opt_float calories]> (current_item st))
                           (current_date st)
            else st
          end
        end
      | _ => st
      end
  end.

Definition _parse_text (text : pystr) : list row :=
  let st := fold_left parse_line (split_on 10 text) (TextState [] ∅ None) in
  if worth_keeping (current_item st) then data st ++ [current_item st] else data st.

(** *** Tables *)

Definition has_keyword (keywords : list string) (header_lower : pystr) : bool :=
  existsb (fun kw => contains (utf8 kw) header_lower) keywords.

Definition _map_table_columns (headers : list (option pystr)) : gmap string nat :=
  fold_left (fun mapping '(i, header) =>
      match header with
      | Some ((_ :: _) as h) =>
        match List.find (fun '(_, keywords) => has_keyword keywords (lower h)) COLUMN_KEYWORDS with
        | Some (field, _) => <[field := i]> mapping
        | None => mapping
        end
      | _ => mapping
      end)
    (combine (List.seq 0 (length headers)) headers) ∅.

Definition _parse_date (v : option pystr) : option pystr :=
  match v with
  | Some ((_ :: _) as s) => _extract_date s
  | _ => None
  end.

Definition _parse_number (v : option pystr) : option spec_float :=
  match v with
  | Some ((_ :: _) as s) =>
    match Re.findall number s with
    | n :: _ => PyFloat.of_str n
    | [] => None
    end
  | _ => None
  end.

(** Runs of whitespace collapse to one space. *)
Definition _clean_text (v : option pystr) : option pystr :=
  match v with
  | Some ((_ :: _) as s) =>
    match strip (Re.sub (Re.plus Re.space) (utf8 " ") s) with
    | [] => None
    | cleaned => Some cleaned
    end
  | _ => None
  end.

Definition table_field_value (field : string) (cell_value : option pystr) : value :=
  if String.eqb field "date" then of_opt_str (_parse_date cell_value)
  else if String.eqb field "calories" || String.eqb field "duration"
  then of_opt_float (_parse_number cell_value)
  else of_opt_str (_clean_text cell_value).

Definition _extract_table_row (r : list (option pystr)) (column_mapping : gmap string nat)
    : row :=
  map_imap (fun field col_idx =>
      if (col_idx <? length r)%nat
      then Some (table_field_value field (nth col_idx r None))
      else None)
    column_mapping.

Definition _process_table (t : table) : list row :=
  match t with
  | headers :: ((_ :: _) as rows) =>
    let column_mapping := _map_table_columns headers in
    flat_map (fun r =>
        if forallb (fun c => negb (nonempty c)) r then []
        else
          let row_data := _extract_table_row r column_mapping in
          if worth_keeping row_data then [row_data] else [])
      rows
  | _ => []
  end.

(** The records of one page: those of its tables, then those of its
    text lines. *)
Definition parse_page (p : page) : list row :=
  (match extract_tables p with
   | [] => []
   | tables => flat_map _process_table tables
   end)
  ++
  (if nonempty (extract_text p)
   then _parse_text (default [] (extract_text p))
   else []).

(** [parse_file]: every exception leaves as [PDFParseError]. *)
Definition parse_file (doc : document) : result (list row) :=
  match doc with
  | OpenFails => Raise PDFParseError
  | Document pages => Ok (flat_map parse_page pages)
  end.

(** [PDFParser.parse]: the constructor fails when [pdfplumber] is not
    installed. *)
Definition parse (HAS_PDFPLUMBER : bool) (doc : document) : result (list row) :=
  if HAS_PDFPLUMBER then parse_file doc else Raise PDFParseError.

End PDFParser.

(** ** [excel_parser.py]: conversion of rows into plan items *)

Module PlanConverter.

Record MealEntry := Meal {
  meal_date : value;
  meal_time : value;
  food : value;
  calories : value;
  meal_notes : value
}.

Record ExerciseEntry := Exercise {
  exercise_date : value;
  name : value;
  duration : value;
  calories_burned : value;
  exercise_notes : value
}.

Record plan_items := PlanItems {
  meals : list MealEntry;
  exercises : list ExerciseEntry
}.

(** The method call [v.strip()]: only a string has the method. *)
Definition call_strip (v : value) : result pystr :=
  match v with
  | VStr s => Ok (strip s)
  | _ => Raise AttributeError
  end.

(** [x in [a, b, c]] for strings *)
Definition str_in (x : pystr) (l : list string) : bool :=
  existsb (fun y => str_eqb x (utf8 y)) l.

Definition meal_types : list string := ["餐食"; "meal"; "食物"]%string.
Definition exercise_types : list string := ["运动"; "exercise"; "锻炼"]%string.

Definition unspecified : value := VStr (utf8 "未指定").

(** One iteration of the loop of [convert_to_plan_items]. *)
Definition convert_row (acc : plan_items) (r : row) : result plan_items :=
  item_type ← call_strip (dict_get_or r "type" (VStr []));
  item_name ← call_strip (dict_get_or r "name" (VStr []));
  if nonempty_str item_type && nonempty_str item_name then
    if str_in item_type meal_types then
      Ok (PlanItems
            (meals acc ++
               [Meal (dict_get r "date") (dict_get_or r "meal_time" unspecified)
                     (VStr item_name) (dict_get_or r "calories" (VInt 0))
                     (dict_get r "notes")])
            (exercises acc))
    else if str_in item_type exercise_types then
      Ok (PlanItems
            (meals acc)
            (exercises acc ++
               [Exercise (dict_get r "date") (VStr item_name)
                         (dict_get_or r "duration" (VInt 0))
                         (dict_get_or r "calories" (VInt 0))
                         (dict_get r "notes")]))
    else Ok acc
  else
    let with_meal :=
      if truthy (dict_get r "food") then
        meals acc ++
          [Meal (dict_get r "date") (dict_get_or r "meal_time" unspecified)
                (dict_get r "food") (dict_get_or r "calories" (VInt 0))
                (dict_get r "notes")]
      else meals acc in
    let with_exercise :=
      if truthy (dict_get r "exercise") then
        exercises acc ++
          [Exercise (dict_get r "date") (dict_get r "exercise")
                    (dict_get_or r "duration" (VInt 0))
                    (dict_get_or r "calories" (VInt 0))
                    (dict_get r "notes")]
      else exercises acc in
    Ok (PlanItems with_meal with_exercise).

Fixpoint convert_from (acc : plan_items) (parsed_data : list row) : result plan_items :=
  match parsed_data with
  | [] => Ok acc
  | r :: rest => acc' ← convert_row acc r; convert_from acc' rest
  end.

Definition convert_to_plan_items (parsed_data : list row) : result plan_items :=
  convert_from (PlanItems [] []) parsed_data.

End PlanConverter.

(** ** [data_validator.py]: the record validator *)

Module DataValidator.

Inductive ValidationErrorType :=
| MISSING_REQUIRED_FIELD
| INVALID_FORMAT
| INVALID_VALUE
| OUT_OF_RANGE
| EMPTY_DATA.

Record ValidationError := Error {
  error_type : ValidationErrorType;
  field : string;
  message : pystr;
  row_index : option nat;
  value_of : value
}.

Record ValidationResult := Result {
  errors : list ValidationError;
  warnings : list pystr
}.

Definition add_error (res : ValidationResult) (t : ValidationErrorType) (f : string)
    (msg : pystr) (idx : option nat) (v : value) : ValidationResult :=
  Result (errors res ++ [Error t f msg idx v]) (warnings res).

Definition add_warning (res : ValidationResult) (msg : pystr) : ValidationResult :=
  Result (errors res) (warnings res ++ [msg]).

Definition is_valid (res : ValidationResult) : bool :=
  (length (errors res) =? 0)%nat.

Definition REQUIRED_FIELDS : list (string * list string) :=
  [ ("meal", ["date"]); ("exercise", ["date"]) ]%string.

Definition RECOMMENDED_FIELDS : list (string * list string) :=
  [ ("meal", ["meal_time"; "food"; "calories"]);
    ("exercise", ["name"; "duration"]) ]%string.

(** [table[data_type]] when [data_type in table] *)
Definition fields_for (table : list (string * list string)) (data_type : string)
    : option (list string) :=
  snd <$> List.find (fun '(k, _) => String.eqb k data_type) table.

(** The pattern [_strptime] compiles a format into: [%Y] is [\d\d\d\d],
    [%m] is [1[0-2]|0[1-9]|[1-9]], [%d] is
    [3[0-1]|[1-2]\d|0[1-9]|[1-9]| [1-9]]. *)
Definition range (lo hi : N) : Re.re := Re.Cls (fun c => (lo <=? c)%N && (c <=? hi)%N).

Definition directive_Y : Re.re := Re.Grp 1 (Re.times 4 4 Re.digit).
Definition directive_m : Re.re :=
  Re.Grp 2 (Re.alt [Re.Seq (Re.Chr 49) (range 48 50);
                    Re.Seq (Re.Chr 48) (range 49 57);
                    range 49 57]).
Definition directive_d : Re.re :=
  Re.Grp 3 (Re.alt [Re.Seq (Re.Chr 51) (range 48 49);
                    Re.Seq (range 49 50) Re.digit;
                    Re.Seq (Re.Chr 48) (range 49 57);
                    range 49 57;
                    Re.Seq (Re.Chr 32) (range 49 57)]).

(** [date_formats] of [_is_valid_date]: ['%Y-%m-%d'], ['%Y/%m/%d'],
    ['%d-%m-%Y'], ['%d/%m/%Y']. *)
Definition date_formats : list Re.re :=
  [ Re.seq [directive_Y; Re.Chr 45; directive_m; Re.Chr 45; directive_d];
    Re.seq [directive_Y; Re.Chr 47; directive_m; Re.Chr 47; directive_d];
    Re.seq [directive_d; Re.Chr 45; directive_m; Re.Chr 45; directive_Y];
    Re.seq [directive_d; Re.Chr 47; directive_m; Re.Chr 47; directive_Y] ].

(** [datetime.strptime(s, fmt)] succeeds: the format matches the whole of
    [s] and the fields form a calendar date. *)
Definition strptime_ok (fmt : Re.re) (s : pystr) : bool :=
  match Re.match_at true fmt 0 s with
  | Some m =>
    (Re.m_end m =? length s)%nat &&
    bool_decide (is_Some (make_date (int_of_digits (Re.group m 1))
                                    (int_of_digits (Re.group m 2))
                                    (int_of_digits (strip (Re.group m 3)))))
  | None => false
  end.

Definition _is_valid_date (v : value) : bool :=
  match v with
  | VDate _ | VDateTime _ _ => true
  | VStr s => existsb (fun fmt => strptime_ok fmt s) date_formats
  | _ => false
  end.

(** [_is_valid_number(value, min_value, max_value)]: [ValueError] and
    [TypeError] of the conversion are caught, another exception
    propagates. *)
Definition _is_valid_number (v : value) (min_value max_value : Z) : result bool :=
  match Py.float v with
  | Ok num =>
    if SFltb num (PyFloat.of_Z min_value) then Ok false
    else if SFltb (PyFloat.of_Z max_value) num then Ok false
    else Ok true
  | Raise ValueError | Raise TypeError => Ok false
  | Raise e => Raise e
  end.

Definition _is_valid_text (v : value) (max_length : nat) : bool :=
  match v with
  | VStr s => (length s <=? max_length)%nat
  | _ => false
  end.

Definition text_fields : list string :=
  ["food"; "meal_time"; "exercise"; "name"; "notes"]%string.

Definition check_required (r : row) (row_index : nat) (data_type : string)
    (res : ValidationResult) : ValidationResult :=
  match fields_for REQUIRED_FIELDS data_type with
  | Some fields =>
    fold_left (fun res f =>
        if negb (truthy (dict_get r f))
        then add_error res MISSING_REQUIRED_FIELD f
               (utf8 "缺少必需字段: " ++ utf8 f) (Some row_index) VNone
        else res)
      fields res
  | None => res
  end.

Definition check_recommended (r : row) (row_index : nat) (data_type : string)
    (res : ValidationResult) : ValidationResult :=
  match fields_for RECOMMENDED_FIELDS data_type with
  | Some fields =>
    let missing_recommended := List.filter (fun f => negb (truthy (dict_get r f))) fields in
    match missing_recommended with
    | [] => res
    | _ =>
      add_warning res
        (utf8 "行 " ++ str_of_int (Z.of_nat row_index) ++ utf8 " 缺少推荐字段: "
         ++ join (utf8 ", ") (List.map utf8 missing_recommended))
    end
  | None => res
  end.

Definition check_date (r : row) (row_index : nat) (res : ValidationResult)
    : ValidationResult :=
  if dict_has r "date" && truthy (dict_get r "date") then
    if negb (_is_valid_date (dict_get r "date"))
    then add_error res INVALID_FORMAT "date"
           (utf8 "日期格式无效: " ++ Py.str (dict_get r "date"))
           (Some row_index) (dict_get r "date")
    else res
  else res.

Definition check_number (f : string) (max_value : Z) (prefix : string)
    (r : row) (row_index : nat) (res : ValidationResult) : result ValidationResult :=
  if dict_has r f && negb (is_none (dict_get r f)) then
    ok ← _is_valid_number (dict_get r f) 0 max_value;
    Ok (if negb ok
        then add_error res INVALID_VALUE f
               (utf8 prefix ++ Py.str (dict_get r f)) (Some row_index) (dict_get r f)
        else res)
  else Ok res.

Definition check_texts (r : row) (row_index : nat) (res : ValidationResult)
    : ValidationResult :=
  fold_left (fun res f =>
      if dict_has r f && truthy (dict_get r f) then
        if negb (_is_valid_text (dict_get r f) 500)
        then add_error res INVALID_VALUE f
               (utf8 "文本字段过长 (最大500字符): " ++ utf8 f) (Some row_index) VNone
        else res
      else res)
    text_fields res.

Definition _validate_row (r : row) (row_index : nat) (data_type : string)
    (res : ValidationResult) : result ValidationResult :=
  let res := check_required r row_index data_type res in
  let res := check_recommended r row_index data_type res in
  let res := check_date r row_index res in
  res ← check_number "calories" 10000 "热量值无效或超出范围 (0-10000): " r row_index res;
  res ← check_number "duration" 1440 "时长值无效或超出范围 (0-1440分钟): " r row_index res;
  Ok (check_texts r row_index res).

Fixpoint validate_rows (rows : list row) (idx : nat) (data_type : string)
    (res : ValidationResult) : result ValidationResult :=
  match rows with
  | [] => Ok res
  | r :: rest =>
    res' ← _validate_row r idx data_type res;
    validate_rows rest (S idx) data_type res'
  end.

Definition validate_parsed_data (data : list row) (data_type : string)
    : result ValidationResult :=
  let res := Result [] [] in
  match data with
  | [] =>
    Ok (add_error res EMPTY_DATA "data"
          (utf8 "解析结果为空，未找到任何有效数据") None VNone)
  | _ =>
    res ← validate_rows data 1 data_type res;
    Ok (if is_valid res
        then add_warning res
               (utf8 "成功验证 " ++ str_of_int (Z.of_nat (length data)) ++ utf8 " 条数据")
        else res)
  end.

End DataValidator.

(** ** [file_validator.py]: the format sniffer *)

Module FileValidator.

Record type_config := TypeConfig {
  extensions : list string;
  mime_types : list string;
  magic_numbers : list (list N)
}.

(** [SUPPORTED_TYPES] *)
Definition SUPPORTED_TYPES : list (string * type_config) :=
  [ ("excel",
     TypeConfig [".xlsx"; ".xls"]
       ["application/vnd.openxmlformats-officedocument.spreadsheetml.sheet";
        "application/vnd.ms-excel"]
       [ [80; 75; 3; 4]%N;
         [208; 207; 17; 224; 161; 177; 26; 225]%N ]);
    ("pdf",
     TypeConfig [".pdf"] ["application/pdf"] [ [37; 80; 68; 70]%N ]) ]%string.

Definition MAX_FILE_SIZE : Z := 10 * 1024 * 1024.
Definition MIN_FILE_SIZE : Z := 100.

(** What the operating system and [python-magic] answer for the path
    under validation. *)
Record file_env := FileEnv {
  path_exists : bool;                (* [os.path.exists] *)
  path_isfile : bool;                (* [os.path.isfile] *)
  getsize : Z;                       (* [os.path.getsize] *)
  read_header : option (list N);     (* [open(..., 'rb').read(8)]; [None]: raises *)
  HAS_MAGIC : bool;                  (* [python-magic] is installed *)
  magic_from_file : option pystr;    (* [magic.from_file(..., mime=True)]; [None]: raises *)
  access_R_OK : bool;                (* [os.access(path, os.R_OK)] *)
  access_X_OK : bool                 (* [os.access(path, os.X_OK)] *)
}.

(** [Path(file_path).suffix]: the part of the final component from its
    last dot on, when that dot is neither its first nor its last
    character. *)
Definition final_component (file_path : pystr) : pystr :=
  List.last (List.filter (fun c => negb (str_eqb c [] || str_eqb c (utf8 ".")))
                         (split_on 47 file_path)) [].

Fixpoint rfind_dot (s : pystr) (i : nat) (found : option nat) : option nat :=
  match s with
  | [] => found
  | c :: s' => rfind_dot s' (S i) (if chr_eqb c 46 then Some i else found)
  end.

Definition suffix (file_path : pystr) : pystr :=
  let name := final_component file_path in
  match rfind_dot name 0 None with
  | Some i => if (0 <? i)%nat && (i <? length name - 1)%nat then skipn i name else []
  | None => []
  end.

Definition _detect_type_by_extension (extension : pystr) : option string :=
  fst <$> List.find (fun '(_, config) =>
                       existsb (fun e => str_eqb extension (utf8 e)) (extensions config))
                    SUPPORTED_TYPES.

Definition config_of (file_type : string) : option type_config :=
  snd <$> List.find (fun '(k, _) => String.eqb k file_type) SUPPORTED_TYPES.

Definition _validate_magic_number (env : file_env) (expected_type : string) : bool :=
  match read_header env, config_of expected_type with
  | Some header, Some config =>
    existsb (fun magic_num => starts_with magic_num header) (magic_numbers config)
  | _, _ => false
  end.

Definition _validate_mime_type (mime_type : pystr) (expected_type : string) : bool :=
  match config_of expected_type with
  | Some config => existsb (fun m => str_eqb mime_type (utf8 m)) (mime_types config)
  | None => false
  end.

Definition dangerous_chars : list string := [".."; "~"; "$"; "`"; "|"; ";"; "&"]%string.

Definition _security_check (env : file_env) (file_path : pystr) : bool * option pystr :=
  match List.find (fun ch => contains (utf8 ch) file_path) dangerous_chars with
  | Some ch => (false, Some (utf8 "文件路径包含危险字符: " ++ utf8 ch))
  | None =>
    if negb (access_R_OK env) then (false, Some (utf8 "文件不可读"))
    else if access_X_OK env then (false, Some (utf8 "文件具有可执行权限，可能不安全"))
    else (true, None)
  end.

(** The triple [(is_valid, file_type, error_message)]. *)
Definition verdict : Type := bool * option string * option pystr.

Definition reject (msg : pystr) : verdict := (false, None, Some msg).

Definition validate_file (max_size : Z) (env : file_env) (file_path : pystr) : verdict :=
  if negb (path_exists env) then reject (utf8 "文件不存在: " ++ file_path)
  else if negb (path_isfile env) then reject (utf8 "不是有效的文件: " ++ file_path)
  else
    let file_size := getsize env in
    if file_size <? MIN_FILE_SIZE then
      reject (utf8 "文件太小: " ++ str_of_int file_size ++ utf8 " bytes (最小 "
              ++ str_of_int MIN_FILE_SIZE ++ utf8 " bytes)")
    else if max_size <? file_size then
      reject (utf8 "文件太大: " ++ str_of_int file_size ++ utf8 " bytes (最大 "
              ++ str_of_int max_size ++ utf8 " bytes)")
    else
      let file_ext := lower (suffix file_path) in
      match _detect_type_by_extension file_ext with
      | None => reject (utf8 "不支持的文件扩展名: " ++ file_ext)
      | Some detected_type =>
        if negb (_validate_magic_number env detected_type) then
          reject (utf8 "文件内容与扩展名不匹配: " ++ file_ext)
        else
          let mime_mismatch :=
            if HAS_MAGIC env then
              match magic_from_file env with
              | Some mime_type =>
                if negb (_validate_mime_type mime_type detected_type)
                then Some mime_type else None
              | None => None
              end
            else None in
          match mime_mismatch with
          | Some mime_type => reject (utf8 "MIME 类型不匹配: " ++ mime_type)
          | None =>
            match _security_check env file_path with
            | (false, security_error) => (false, None, security_error)
            | (true, _) => (true, Some detected_type, None)
            end
          end
      end.

(** [FileValidator(max_size).validate_file]: [max_size or MAX_FILE_SIZE]. *)
Definition validate (max_size : option Z) (env : file_env) (file_path : pystr) : verdict :=
  validate_file (match max_size with
                 | Some n => if n =? 0 then MAX_FILE_SIZE else n
                 | None => MAX_FILE_SIZE
                 end) env file_path.

End FileValidator.

(** ** The statements of the specification, in its own words *)

Module Spec.

(** Numeric normalizer: what the specification announces for the four
    sample inputs. *)
Definition number_samples : Prop :=
  ExcelParser._parse_number (VStr (utf8 "1,234")) = Ok (Some (PyFloat.of_Z 1234)) /\
  ExcelParser._parse_number (VStr (utf8 "12-34")) = Ok (Some (PyFloat.of_Z (-1234))) /\
  ExcelParser._parse_number (VStr (utf8 "abc")) = Ok None.

(** The characters the numeric normalizer keeps. *)
Definition numeric_char (c : N) : bool :=
  is_digit c || chr_eqb c 46 || chr_eqb c 45.

(** One pattern of the date parser applied to a string: the regex must
    match and its groups must form a calendar date. *)
Definition date_attempt (pattern : Re.re) (s : pystr) : option pystr :=
  match Re.search false pattern s with
  | Some m => ExcelParser.date_of_groups m
  | None => None
  end.

End Spec.

(** ** The record validator, row by row

    What one row adds to the result: its errors, in the order of the
    checks, and its warning. *)

Module RowReport.

Import DataValidator.

Definition required_errors (r : row) (row_index : nat) (data_type : string)
    : list ValidationError :=
  match fields_for REQUIRED_FIELDS data_type with
  | Some fields =>
    flat_map (fun f =>
        if negb (truthy (dict_get r f))
        then [Error MISSING_REQUIRED_FIELD f (utf8 "缺少必需字段: " ++ utf8 f)
                    (Some row_index) VNone]
        else [])
      fields
  | None => []
  end.

Definition recommended_warnings (r : row) (row_index : nat) (data_type : string)
    : list pystr :=
  match fields_for RECOMMENDED_FIELDS data_type with
  | Some fields =>
    match List.filter (fun f => negb (truthy (dict_get r f))) fields with
    | [] => []
    | missing =>
      [utf8 "行 " ++ str_of_int (Z.of_nat row_index) ++ utf8 " 缺少推荐字段: "
       ++ join (utf8 ", ") (List.map utf8 missing)]
    end
  | None => []
  end.

Definition date_errors (r : row) (row_index : nat) : list ValidationError :=
  if dict_has r "date" && truthy (dict_get r "date")
     && negb (_is_valid_date (dict_get r "date"))
  then [Error INVALID_FORMAT "date" (utf8 "日期格式无效: " ++ Py.str (dict_get r "date"))
              (Some row_index) (dict_get r "date")]
  else [].

Definition number_errors (f : string) (max_value : Z) (prefix : string)
    (r : row) (row_index : nat) : result (list ValidationError) :=
  if dict_has r f && negb (is_none (dict_get r f)) then
    ok ← _is_valid_number (dict_get r f) 0 max_value;
    Ok (if negb ok
        then [Error INVALID_VALUE f (utf8 prefix ++ Py.str (dict_get r f))
                    (Some row_index) (dict_get r f)]
        else [])
  else Ok [].

Definition text_errors (r : row) (row_index : nat) : list ValidationError :=
  flat_map (fun f =>
      if dict_has r f && truthy (dict_get r f) && negb (_is_valid_text (dict_get r f) 500)
      then [Error INVALID_VALUE f (utf8 "文本字段过长 (最大500字符): " ++ utf8 f)
                  (Some row_index) VNone]
      else [])
    text_fields.

Definition calories_errors := number_errors "calories" 10000 "热量值无效或超出范围 (0-10000): ".
Definition duration_errors := number_errors "duration" 1440 "时长值无效或超出范围 (0-1440分钟): ".

Definition row_errors (r : row) (row_index : nat) (data_type : string)
    : result (list ValidationError) :=
  cal ← calories_errors r row_index;
  dur ← duration_errors r row_index;
  Ok (required_errors r row_index data_type ++ date_errors r row_index
      ++ cal ++ dur ++ text_errors r row_index).

Fixpoint batch_errors (rows : list row) (idx : nat) (data_type : string)
    : result (list ValidationError) :=
  match rows with
  | [] => Ok []
  | r :: rest =>
    e ← row_errors r idx data_type;
    es ← batch_errors rest (S idx) data_type;
    Ok (e ++ es)
  end.

Fixpoint batch_warnings (rows : list row) (idx : nat) (data_type : string)
    : list pystr :=
  match rows with
  | [] => []
  | r :: rest => recommended_warnings r idx data_type ++ batch_warnings rest (S idx) data_type
  end.

(** The error [e] is about field [f] of row [i]. *)
Definition about (f : string) (i : nat) (e : ValidationError) : bool :=
  String.eqb (field e) f && bool_decide (row_index e = Some i).

(** The closing summary of an error-free batch of [n] rows. *)
Definition summary (n : nat) : pystr :=
  utf8 "成功验证 " ++ str_of_int (Z.of_nat n) ++ utf8 " 条数据".

End RowReport.

(** ** Numeric range of a field value, in the words of the specification *)

Module Range.

(** The value converts to a float. *)
Definition numeric (v : value) : Prop := exists x, Py.float v = Ok x.

Definition below (v : value) (bound : Z) : Prop :=
  exists x, Py.float v = Ok x /\ SFltb x (PyFloat.of_Z bound) = true.

Definition above (v : value) (bound : Z) : Prop :=
  exists x, Py.float v = Ok x /\ SFltb (PyFloat.of_Z bound) x = true.

(** The error reported for a calories value out of range. *)
Definition calories_error (i : nat) (v : value) : DataValidator.ValidationError :=
  DataValidator.Error DataValidator.INVALID_VALUE "calories"
    (utf8 "热量值无效或超出范围 (0-10000): " ++ Py.str v) (Some i) v.

End Range.

(** ** Statements about the validator, in the words of the specification *)

Module ValidatorSpec.

Import DataValidator.

(** A single-row batch of kind 'meal' whose result has no error and
    exactly one warning, naming both [food] and [calories]. *)
Definition lone_warning (r : row) : Prop :=
  exists w, validate_parsed_data [r] "meal" = Ok (Result [] [w]) /\
            contains (utf8 "food") w = true /\ contains (utf8 "calories") w = true.

(** No free-text field of the row exceeds the length limit. *)
Definition text_within_limit (r : row) : Prop :=
  forall f, In f text_fields ->
    truthy (dict_get r f) = false \/ _is_valid_text (dict_get r f) 500 = true.

(** The duration is missing or within its range. *)
Definition duration_within_range (r : row) : Prop :=
  dict_get r "duration" = VNone \/
  _is_valid_number (dict_get r "duration") 0 1440 = Ok true.

(** The warning of row 1 for its missing recommended fields. *)
Definition missing_warning (fields : list string) : pystr :=
  utf8 "行 1 缺少推荐字段: " ++ join (utf8 ", ") (List.map utf8 fields).

(** A row with a date and a meal time only. *)
Definition dated_row : row :=
  <["date"%string := VStr (utf8 "2024-01-01")]>
    {["meal_time"%string := VStr (utf8 "早餐")]}.

End ValidatorSpec.

(** ** Statements about the plan converter *)

Module ConverterSpec.

Import PlanConverter.

(** *** In the words of the specification: a field is used when it is
    present and non-empty, and the three numbers are 0 when the source
    field is absent, whether the row lacks the key or binds it to
    None. *)

Definition present (r : row) (k : string) : bool := truthy (dict_get r k).

Definition or_zero (r : row) (k : string) : value :=
  match dict_get r k with VNone => VInt 0 | v => v end.

Definition stated_type (r : row) : pystr :=
  match dict_get r "type" with VStr t => t | _ => [] end.

Definition stated_meals (r : row) : list MealEntry :=
  if present r "type" && present r "name" then
    if str_in (stated_type r) meal_types
    then [Meal (dict_get r "date") (dict_get_or r "meal_time" unspecified)
               (dict_get r "name") (or_zero r "calories") (dict_get r "notes")]
    else []
  else if present r "food"
  then [Meal (dict_get r "date") (dict_get_or r "meal_time" unspecified)
             (dict_get r "food") (or_zero r "calories") (dict_get r "notes")]
  else [].

Definition stated_exercises (r : row) : list ExerciseEntry :=
  if present r "type" && present r "name" then
    if str_in (stated_type r) meal_types then []
    else if str_in (stated_type r) exercise_types
    then [Exercise (dict_get r "date") (dict_get r "name")
                   (or_zero r "duration") (or_zero r "calories") (dict_get r "notes")]
    else []
  else if present r "exercise"
  then [Exercise (dict_get r "date") (dict_get r "exercise")
                 (or_zero r "duration") (or_zero r "calories") (dict_get r "notes")]
  else [].

Definition stated (rows : list row) : plan_items :=
  PlanItems (flat_map stated_meals rows) (flat_map stated_exercises rows).

(** The field is absent or holds a string without surrounding
    whitespace, as the text of both extractors is. *)
Definition trimmed_text (r : row) (k : string) : Prop :=
  r !! k = None \/ exists s, r !! k = Some (VStr s) /\ strip s = s.

(** The key is not bound to None. *)
Definition filled (r : row) (k : string) : Prop := r !! k <> Some VNone.

(** *** As the code reads the two fields: trimmed of surrounding
    whitespace. *)

(** The field is absent or holds a string. *)
Definition textual (r : row) (k : string) : Prop :=
  r !! k = None \/ exists s, r !! k = Some (VStr s).

Definition trimmed (r : row) (k : string) : pystr :=
  match dict_get r k with VStr s => strip s | _ => [] end.

Definition explicit_layout (r : row) : bool :=
  nonempty_str (trimmed r "type") && nonempty_str (trimmed r "name").

Definition meals_of (r : row) : list MealEntry :=
  if explicit_layout r then
    if str_in (trimmed r "type") meal_types
    then [Meal (dict_get r "date") (dict_get_or r "meal_time" unspecified)
               (VStr (trimmed r "name")) (dict_get_or r "calories" (VInt 0))
               (dict_get r "notes")]
    else []
  else if truthy (dict_get r "food")
  then [Meal (dict_get r "date") (dict_get_or r "meal_time" unspecified)
             (dict_get r "food") (dict_get_or r "calories" (VInt 0))
             (dict_get r "notes")]
  else [].

Definition exercises_of (r : row) : list ExerciseEntry :=
  if explicit_layout r then
    if str_in (trimmed r "type") meal_types then []
    else if str_in (trimmed r "type") exercise_types
    then [Exercise (dict_get r "date") (VStr (trimmed r "name"))
                   (dict_get_or r "duration" (VInt 0))
                   (dict_get_or r "calories" (VInt 0)) (dict_get r "notes")]
    else []
  else if truthy (dict_get r "exercise")
  then [Exercise (dict_get r "date") (dict_get r "exercise")
                 (dict_get_or r "duration" (VInt 0))
                 (dict_get_or r "calories" (VInt 0)) (dict_get r "notes")]
  else [].

(** *** Sample rows *)

(** A sheet with a food and an exercise whose calories and duration
    cells are empty. *)
Definition sheet_with_empty_numbers : ExcelParser.worksheet :=
  ExcelParser.Worksheet
    [ [VStr (utf8 "日期"); VStr (utf8 "食物"); VStr (utf8 "热量");
       VStr (utf8 "运动"); VStr (utf8 "时长")];
      [VStr (utf8 "2024-01-01"); VStr (utf8 "米饭"); VNone;
       VStr (utf8 "跑步"); VNone] ].

Definition row_with_empty_numbers : row :=
  <["date"%string := VStr (utf8 "2024-01-01")]>
    (<["food"%string := VStr (utf8 "米饭")]>
       (<["calories"%string := VNone]>
          (<["exercise"%string := VStr (utf8 "跑步")]> {["duration"%string := VNone]}))).

(** The entries of that row as the code emits them, and with the
    numbers at 0. *)
Definition null_entries : plan_items :=
  PlanItems
    [Meal (VStr (utf8 "2024-01-01")) unspecified (VStr (utf8 "米饭")) VNone VNone]
    [Exercise (VStr (utf8 "2024-01-01")) (VStr (utf8 "跑步")) VNone VNone VNone].

Definition zero_entries : plan_items :=
  PlanItems
    [Meal (VStr (utf8 "2024-01-01")) unspecified (VStr (utf8 "米饭")) (VInt 0) VNone]
    [Exercise (VStr (utf8 "2024-01-01")) (VStr (utf8 "跑步")) (VInt 0) (VInt 0) VNone].

(** A sheet with a type and a name column whose name cell is empty. *)
Definition sheet_with_empty_name : ExcelParser.worksheet :=
  ExcelParser.Worksheet
    [ [VStr (utf8 "日期"); VStr (utf8 "类型"); VStr (utf8 "名称")];
      [VStr (utf8 "2024-01-01"); VStr (utf8 "餐食"); VNone] ].

Definition row_with_empty_name : row :=
  <["date"%string := VStr (utf8 "2024-01-01")]>
    (<["type"%string := VStr (utf8 "餐食")]> {["name"%string := VNone]}).

(** An explicit meal row and a legacy row with both a food and an
    exercise. *)
Definition sample_rows : list row :=
  [ <["type"%string := VStr (utf8 " meal ")]>
      (<["name"%string := VStr (utf8 "oats")]> {["date"%string := VStr (utf8 "2024-01-01")]});
    <["food"%string := VStr (utf8 "rice")]>
      (<["exercise"%string := VStr (utf8 "run")]> {["duration"%string := VFloat (PyFloat.of_Z 30)]}) ].

End ConverterSpec.

(** ** Statements about the format sniffer *)

Module SnifferSpec.

Import FileValidator.

(** The existence, size, extension and magic-number checks pass, the
    extension giving the type [t]. *)
Definition earlier_checks_pass (max_size : Z) (env : file_env) (file_path : pystr)
    (t : string) : Prop :=
  path_exists env = true /\ path_isfile env = true /\
  MIN_FILE_SIZE <= getsize env <= max_size /\
  _detect_type_by_extension (lower (suffix file_path)) = Some t /\
  _validate_magic_number env t = true.

Definition security_passes (env : file_env) (file_path : pystr) : Prop :=
  _security_check env file_path = (true, None).

(** In the words of the specification: once those checks pass, the
    file is accepted whatever the MIME sniff answers. *)
Definition mime_never_fatal (max_size : Z) (env : file_env) (file_path : pystr) : Prop :=
  forall t, earlier_checks_pass max_size env file_path t ->
            security_passes env file_path ->
            validate_file max_size env file_path = (true, Some t, None).

(** A workbook in the ZIP container that the MIME sniff reports as a
    ZIP archive. *)
Definition workbook_path : pystr := utf8 "/tmp/tmpq3xlsx1/plan.xlsx".

Definition sniffed_as_zip : file_env :=
  FileEnv true true 5000 (Some [80; 75; 3; 4; 20; 0; 6; 0]%N)
          true (Some (utf8 "application/zip")) true false.

(** The same file where [python-magic] is not installed. *)
Definition not_sniffed : file_env :=
  FileEnv true true 5000 (Some [80; 75; 3; 4; 20; 0; 6; 0]%N)
          false None true false.

End SnifferSpec.

(** ** Statements about the semi-structured extractor *)

Module ExtractorSpec.

Import PDFParser.

(** The records of the tables of a page and those of its text lines. *)
Definition table_records (p : page) : list row :=
  flat_map _process_table (extract_tables p).

Definition line_records (p : page) : list row :=
  match extract_text p with
  | Some ((_ :: _) as text) => _parse_text text
  | _ => []
  end.

(** In the words of the specification: when a table is detected, the
    records of the page come from table extraction alone. *)
Definition tables_exclude_lines (p : page) : Prop :=
  extract_tables p <> [] -> parse_page p = table_records p.

(** A page with one table, whose text holds a dated meal line. *)
Definition page_with_table : page :=
  Page [ [ [Some (utf8 "日期"); Some (utf8 "食物"); Some (utf8 "热量")];
           [Some (utf8 "2024-03-01"); Some (utf8 "燕麦"); Some (utf8 "300")] ] ]
       (Some (join [10%N] [utf8 "2024-03-01"; utf8 "早餐: 燕麦 300卡"])).

Definition table_record : row :=
  <["date"%string := VStr (utf8 "2024-03-01")]>
    (<["food"%string := VStr (utf8 "燕麦")]>
       {["calories"%string := VFloat (PyFloat.of_Z 300)]}).

Definition line_record : row :=
  <["date"%string := VStr (utf8 "2024-03-01")]>
    (<["meal_time"%string := VStr (utf8 "早餐")]>
       {["food"%string := VStr (utf8 "燕麦")]}).

End ExtractorSpec.

(** ** Normalized dates *)

Module DateSpec.

(** The year [y] is written with four digits that read back as [y]. *)
Definition year_ok (y : Z) : bool :=
  match str_of_int y with
  | [a; b; c; e] =>
    is_digit a && is_digit b && is_digit c && is_digit e &&
    (int_of_digits [a; b; c; e] =? y)
  | _ => false
  end.

(** The two-digit renderings of 1 to [n], each with its value. *)
Definition two_digits (n : nat) : list (Z * pystr) :=
  List.map (fun i => (Z.of_nat i, zero_pad 2 (str_of_int (Z.of_nat i)))) (List.seq 1 n).

Definition two_ok (p : Z * pystr) : bool :=
  match snd p with
  | [x; y] => is_digit x && is_digit y && (int_of_digits [x; y] =? fst p)
              && (int_of_digits (strip [x; y]) =? fst p)
  | _ => false
  end.

(** A [datetime.date] is a calendar date by construction. *)
Definition calendar_date (d : date) : Prop :=
  make_date (year d) (month d) (day d) = Some d.

(** A cell holding a date holds a calendar date. *)
Definition calendar_cell (cv : value) : Prop :=
  match cv with
  | VDate d | VDateTime d _ => calendar_date d
  | _ => True
  end.

(** The string is an ISO-8601 calendar date: four digits, two digits and
    two digits, separated by hyphens, that name a day of the calendar. *)
Definition iso_8601 (s : pystr) : bool :=
  match s with
  | [a; b; c; e; h; m1; m2; h'; d1; d2] =>
    forallb is_digit [a; b; c; e; m1; m2; d1; d2] && chr_eqb h 45 && chr_eqb h' 45 &&
    match make_date (int_of_digits [a; b; c; e]) (int_of_digits [m1; m2])
                    (int_of_digits [d1; d2]) with
    | Some _ => true
    | None => false
    end
  | _ => false
  end.

(** The normalized date [iso] comes out of one of the date normalizers:
    of the tabular extractor for a cell, of the semi-structured
    extractor for a table cell or a line of text. *)
Definition extracted (iso : pystr) : Prop :=
  (exists cv, calendar_cell cv /\ ExcelParser._parse_date cv = Some iso) \/
  (exists c, PDFParser._parse_date c = Some iso) \/
  (exists line, PDFParser._extract_date line = Some iso).

End DateSpec.

(** ** Statements about the tabular extractor *)

Module TabularSpec.

Import ExcelParser.

(** In the words of the specification: no key of a returned row is bound
    to null or to an empty string. *)
Definition never_null (rows : list row) : Prop :=
  forall r k v, In r rows -> r !! k = Some v -> v <> VNone /\ v <> VStr [].

(** Every date or datetime cell of the sheet holds a calendar date, as
    the values of [datetime] do. *)
Definition calendar_sheet (ws : worksheet) : Prop :=
  Forall (Forall DateSpec.calendar_cell) (grid ws).

Definition calendar_workbook (wb : workbook) : Prop :=
  match wb with
  | Workbook ws => calendar_sheet ws
  | LoadFails => True
  end.

(** The text of the cell holds a character other than whitespace. *)
Definition has_text (cv : value) : Prop := strip (Py.str cv) <> [].

(** What the extractor binds the field [k] to for the cell [cv]: nothing,
    or a value of the type of the field; the date is the rendering of a
    calendar date, an ISO-8601 string when the year has four digits, and
    the text of a cell that has some is not empty. *)
Definition field_typed (k : string) (cv v : value) : Prop :=
  v = VNone \/
  if String.eqb k "date" then
    exists d, DateSpec.calendar_date d /\ v = VStr (strftime_ymd d) /\
              (1000 <= year d -> DateSpec.iso_8601 (strftime_ymd d) = true)
  else if String.eqb k "calories" || String.eqb k "duration" then exists f, v = VFloat f
  else exists s, v = VStr s /\ strip s = s /\ (has_text cv -> s <> []).

(** A sheet with a header and two data rows; the second has a food cell
    of one space and a calories cell that is not a number. *)
Definition sheet : worksheet :=
  Worksheet
    [ [VStr (utf8 "日期"); VStr (utf8 "食物"); VStr (utf8 "热量")];
      [VStr (utf8 "2024-01-01"); VStr (utf8 "鸡胸肉"); VStr (utf8 "200")];
      [VStr (utf8 "2024-01-02"); VStr (utf8 " "); VStr (utf8 "abc")] ].

Definition first_row : row :=
  <["date"%string := VStr (utf8 "2024-01-01")]>
    (<["food"%string := VStr (utf8 "鸡胸肉")]>
       {["calories"%string := VFloat (PyFloat.of_Z 200)]}).

Definition second_row : row :=
  <["date"%string := VStr (utf8 "2024-01-02")]>
    (<["food"%string := VStr []]> {["calories"%string := VNone]}).

End TabularSpec.

(** ** Errors of a batch, by row and by field *)

Module BatchReport.

Import DataValidator.

(** The error belongs to row [j]; the error is about field [f]. *)
Definition at_row (j : nat) (e : ValidationError) : bool :=
  bool_decide (row_index e = Some j).

Definition on_field (f : string) (e : ValidationError) : bool :=
  String.eqb (field e) f.

(** Order of two errors by their row. *)
Definition index_le (a b : ValidationError) : Prop :=
  match row_index a, row_index b with
  | Some i, Some j => (i <= j)%nat
  | _, _ => False
  end.

(** The errors [_validate_row] builds. *)
Definition missing_error (f : string) (i : nat) : ValidationError :=
  Error MISSING_REQUIRED_FIELD f (utf8 "缺少必需字段: " ++ utf8 f) (Some i) VNone.

Definition format_error (i : nat) (v : value) : ValidationError :=
  Error INVALID_FORMAT "date" (utf8 "日期格式无效: " ++ Py.str v) (Some i) v.

Definition duration_error (i : nat) (v : value) : ValidationError :=
  Error INVALID_VALUE "duration"
    (utf8 "时长值无效或超出范围 (0-1440分钟): " ++ Py.str v) (Some i) v.

Definition text_error (f : string) (i : nat) : ValidationError :=
  Error INVALID_VALUE f (utf8 "文本字段过长 (最大500字符): " ++ utf8 f) (Some i) VNone.

(** The kinds that have required fields. *)
Definition requires_date (data_type : string) : bool :=
  String.eqb "meal" data_type || String.eqb "exercise" data_type.

(** Two rows for a batch of kind 'exercise': the first without a date and
    with a duration above a day, the second with a date that no format
    reads and a number as its name. *)
Definition sample_batch : list row :=
  [ <["duration"%string := VFloat (PyFloat.of_Z 2000)]>
      {["name"%string := VStr (utf8 "run")]};
    <["date"%string := VStr (utf8 "2024.01.02")]>
      (<["name"%string := VInt 7]> {["duration"%string := VFloat (PyFloat.of_Z 30)]}) ].

End BatchReport.

(** ** [file_validator.py]: the module-level helpers *)

Module FileHelpers.

Import FileValidator.

(** [validate_file(file_path, max_size)] *)
Definition validate_file (max_size : option Z) (env : file_env) (file_path : pystr)
    : verdict :=
  FileValidator.validate max_size env file_path.

(** [is_valid_file(file_path)] *)
Definition is_valid_file (env : file_env) (file_path : pystr) : bool :=
  let '(is_valid, _, _) := validate_file None env file_path in is_valid.

(** [get_file_type(file_path)] *)
Definition get_file_type (env : file_env) (file_path : pystr) : option string :=
  let '(is_valid, file_type, _) := validate_file None env file_path in
  if is_valid then file_type else None.

(** [FileValidator.get_supported_extensions()] *)
Definition get_supported_extensions : list string :=
  flat_map (fun '(_, config) => extensions config) SUPPORTED_TYPES.

(** [FileValidator.get_supported_types()] *)
Definition get_supported_types : list string :=
  List.map fst SUPPORTED_TYPES.

(** The checks a file has to pass, for the type [t]. *)
Definition passes_all (max_size : Z) (env : file_env) (file_path : pystr) (t : string)
    : Prop :=
  path_exists env = true /\ path_isfile env = true /\
  MIN_FILE_SIZE <= getsize env <= max_size /\
  _detect_type_by_extension (lower (suffix file_path)) = Some t /\
  _validate_magic_number env t = true /\
  (HAS_MAGIC env = false \/ magic_from_file env = None \/
   exists mime, magic_from_file env = Some mime /\ _validate_mime_type mime t = true) /\
  existsb (fun ch => contains (utf8 ch) file_path) dangerous_chars = false /\
  access_R_OK env = true /\ access_X_OK env = false.

(** A PDF of 2000 bytes, where [python-magic] is not installed. *)
Definition pdf_env : file_env :=
  FileEnv true true 2000 (Some [37; 80; 68; 70; 45; 49; 46; 55]%N)
          false None true false.

Definition pdf_path : pystr := utf8 "/tmp/upload/Plan.PDF".

End FileHelpers.

(** ** Header rows of a worksheet *)

Module HeaderSpec.

Import ExcelParser.

(** The header cell [c] selects the field [f]. *)
Definition maps_to (f : string) (c : value) : bool :=
  truthy c && bool_decide (match_field (lower (Py.str c)) = Some f).

(** The keywords that can select their field: each of the other
    keywords of [meal_time] and [duration] contains a keyword of [date]
    or a shorter keyword of its own field. *)
Definition date_keywords : list string :=
  ["日期"; "date"; "时间"; "time"; "日"; "day"]%string.
Definition live_meal_time_keywords : list string := ["餐次"; "meal"; "早中晚"]%string.
Definition live_duration_keywords : list string :=
  ["时长"; "duration"; "分钟"; "min"]%string.

(** The rows that [_identify_columns] looks at. *)
Definition scanned (ws : worksheet) : nat := Nat.min 5 (max_row ws).

(** The body of the loop of [_map_columns], for the cell [c] of the
    column [col_idx]. *)
Definition map_step (mapping : gmap string nat) (p : nat * value) : gmap string nat :=
  let '(col_idx, c) := p in
  if truthy c then
    match match_field (lower (Py.str c)) with
    | Some field => <[field := col_idx]> mapping
    | None => mapping
    end
  else mapping.

(** A sheet with a date column and one data row, and the row read
    from it. *)
Definition dated_sheet : worksheet :=
  Worksheet [ [VStr (utf8 "日期")]; [VStr (utf8 "2024-01-01")] ].

Definition dated_rows : list row := [ {["date"%string := VStr (utf8 "2024-01-01")]} ].

(** A header with two columns that select [date]. *)
Definition two_dates : list value :=
  [VStr (utf8 "日期"); VStr (utf8 "食物"); VStr (utf8 "用餐时间")].

End HeaderSpec.

(** ** Records read from the lines of a page *)

Module LineSpec.

Import PDFParser.

Definition line_keys : list string :=
  ["date"; "meal_time"; "food"; "exercise"; "duration"; "calories"]%string.

(** What a record read from lines holds under the key [k]: a non-zero
    float for calories and duration, a string for the other keys, a
    non-empty one for food. *)
Definition line_field (k : string) (v : value) : Prop :=
  In k line_keys /\
  (if String.eqb k "calories" || String.eqb k "duration"
   then exists f, v = VFloat f /\ PyFloat.is_zero f = false
   else exists s, v = VStr s) /\
  (k = "food"%string -> truthy v = true).

(** The date [iso] is read from one of the lines. *)
Definition date_of_line (lines : list pystr) (iso : pystr) : Prop :=
  exists line, In line lines /\ _extract_date (strip line) = Some iso.

(** A meal time and a food come together. *)
Definition paired (r : row) : Prop :=
  (r !! "meal_time"%string = None /\ r !! "food"%string = None) \/
  (exists mt ft, r !! "meal_time"%string = Some (VStr mt) /\
                 r !! "food"%string = Some (VStr ft) /\ ft <> []).

Definition well_formed (lines : list pystr) (r : row) : Prop :=
  (exists iso, r !! "date"%string = Some (VStr iso) /\ date_of_line lines iso) /\
  (forall k v, r !! k = Some v -> line_field k v) /\
  paired r.

(** The invariant of the loop of [_parse_text]. *)
Definition inv (lines : list pystr) (st : text_state) : Prop :=
  Forall (well_formed lines) (data st) /\
  match current_date st with
  | None => current_item st = ∅
  | Some d =>
    d <> [] /\ well_formed lines (current_item st) /\ date_of_line lines d
  end.

(** Three lines: a date, a meal with its calories, an exercise. *)
Definition sample_text : pystr :=
  utf8 "2024-01-15" ++ [10%N] ++ utf8 "早餐: 燕麦粥 300卡" ++ [10%N] ++ utf8 "跑步 30分钟".

End LineSpec.

(** ** Records read from the tables of a page *)

Module TableSpec.

Import PDFParser.

Definition table_fields : list string := List.map fst COLUMN_KEYWORDS.

(** What a record read from a table holds under the key [k]: [None], or
    a normalized date, a float, or a non-empty cleaned string. *)
Definition table_value (k : string) (v : value) : Prop :=
  v = VNone \/
  if String.eqb k "date"
  then exists d, DateSpec.calendar_date d /\ v = VStr (strftime_ymd d)
  else if String.eqb k "calories" || String.eqb k "duration"
  then exists f, v = VFloat f
  else exists s, v = VStr s /\ s <> [] /\ strip s = s.

(** The body of the loop of [_map_table_columns]. *)
Definition table_step (mapping : gmap string nat) (p : nat * option pystr)
    : gmap string nat :=
  let '(i, header) := p in
  match header with
  | Some ((_ :: _) as h) =>
    match List.find (fun '(_, keywords) => has_keyword keywords (lower h)) COLUMN_KEYWORDS with
    | Some (field, _) => <[field := i]> mapping
    | None => mapping
    end
  | _ => mapping
  end.

(** The row [r] has neither of the keys that select the explicit
    layout of the plan converter. *)
Definition legacy_keys (r : row) : Prop :=
  r !! "type"%string = None /\ r !! "name"%string = None.

(** A row is unfit for conversion when its type or its name is bound to
    a value that is not a string. *)
Definition convertible (r : row) : Prop :=
  ConverterSpec.textual r "type" /\ ConverterSpec.textual r "name".

End TableSpec.

(** ** [routers/files.py]: the upload endpoint *)

Module Upload.

(** [p.rfind(c)] *)
Fixpoint rfind_from (c : N) (s : pystr) (i found : Z) : Z :=
  match s with
  | [] => found
  | x :: s' => rfind_from c s' (i + 1) (if chr_eqb x c then i else found)
  end.

Definition rfind (c : N) (s : pystr) : Z := rfind_from c s 0 (-1).

(** [os.path.splitext(p)[1]] on a POSIX system: the part from the last
    dot on, when that dot stands in the last component of the path,
    after a character of that component which is not a dot. *)
Definition splitext_ext (p : pystr) : pystr :=
  let sepIndex := rfind 47 p in
  let dotIndex := rfind 46 p in
  if sepIndex <? dotIndex then
    let leading := firstn (Z.to_nat (dotIndex - (sepIndex + 1)))
                          (skipn (Z.to_nat (sepIndex + 1)) p) in
    if existsb (fun ch => negb (chr_eqb ch 46)) leading
    then skipn (Z.to_nat dotIndex) p
    else []
  else [].

Definition supported_extensions : list string := [".xlsx"; ".xls"; ".pdf"]%string.

Definition max_size : Z := 10 * 1024 * 1024.

Section Endpoint.

(** What [_save_plan_items] returns. *)
Variable saved_data : Type.

(** An upload and what its environment answers: the uploaded file, the
    temporary file it is copied to, what the libraries read from that
    file, and the database behind [_save_plan_items]. *)
Record request := Request {
  filename : option pystr;            (* [file.filename] *)
  open_tmp : option pystr;            (* [tmp.name]; [None]: creating the file raises *)
  read_size : option Z;               (* [len(await file.read())]; [None]: raises *)
  write_ok : bool;                    (* [tmp.write(content)] returns *)
  env : FileValidator.file_env;       (* the temporary file, as the OS sees it *)
  workbook : ExcelParser.workbook;    (* the temporary file, as [openpyxl] loads it *)
  document : PDFParser.document;      (* the temporary file, as [pdfplumber] opens it *)
  HAS_PDFPLUMBER : bool;
  save : PlanConverter.plan_items -> result saved_data
}.

(** The answer: the fields of the JSON body that depend on the upload,
    or the status and the code of the [HTTPException]. *)
Inductive response :=
| Success (name : pystr) (file_type : option string) (size : Z)
          (total_items meals_count exercises_count : nat)
          (saved : saved_data) (warnings : list pystr)
| HTTPException (status_code : Z) (code : string).

Definition file_validation_error : response := HTTPException 400 "FILE_VALIDATION_ERROR".
Definition file_parse_error : response := HTTPException 400 "FILE_PARSE_ERROR".
Definition data_validation_error : response := HTTPException 400 "DATA_VALIDATION_ERROR".
Definition internal_server_error : response := HTTPException 500 "INTERNAL_SERVER_ERROR".

(** [_parse_file(file_path, file_type)] *)
Definition _parse_file (req : request) (file_type : option string) : result (list row) :=
  match file_type with
  | Some t =>
    if String.eqb t "excel" then ExcelParser.parse_file (workbook req)
    else if String.eqb t "pdf" then
      if negb (HAS_PDFPLUMBER req) then Raise PDFParseError
      else PDFParser.parse_file (document req)
    else Raise ValueError
  | None => Raise ValueError
  end.

(** Steps 5 to 8 of [upload_file], once the data is parsed. *)
Definition store (req : request) (name : pystr) (file_type : option string) (file_size : Z)
    (parsed_data : list row) : response :=
  match DataValidator.validate_parsed_data parsed_data "general" with
  | Raise _ => internal_server_error
  | Ok validation_result =>
    if negb (DataValidator.is_valid validation_result) then data_validation_error
    else
      match PlanConverter.convert_to_plan_items parsed_data with
      | Raise _ => internal_server_error
      | Ok plan_items =>
        match save req plan_items with
        | Raise _ => internal_server_error
        | Ok saved_stats =>
          Success name file_type file_size (length parsed_data)
                  (length (PlanConverter.meals plan_items))
                  (length (PlanConverter.exercises plan_items))
                  saved_stats (DataValidator.warnings validation_result)
        end
      end
  end.

(** [upload_file(file, db)] *)
Definition upload_file (req : request) : response :=
  match filename req with
  | None | Some [] => file_validation_error
  | Some name =>
    let file_extension := lower (splitext_ext name) in
    if negb (PlanConverter.str_in file_extension supported_extensions)
    then file_validation_error
    else
      match open_tmp req with
      | None => internal_server_error
      | Some temp_file_path =>
        match read_size req with
        | None => internal_server_error
        | Some file_size =>
          if max_size <? file_size then file_validation_error
          else if negb (write_ok req) then internal_server_error
          else
            let '(is_valid, file_type, _) :=
              FileHelpers.validate_file None (env req) temp_file_path in
            if negb is_valid then file_validation_error
            else
              match _parse_file req file_type with
              | Raise ExcelParseError | Raise PDFParseError => file_parse_error
              | Raise _ => internal_server_error
              | Ok parsed_data => store req name file_type file_size parsed_data
              end
        end
      end
  end.

End Endpoint.

(** Values that the extractors bind: nothing, a string or a float. *)
Definition plain_value (v : value) : Prop :=
  match v with
  | VNone | VStr _ | VFloat _ => True
  | _ => False
  end.

Definition plain (r : row) : Prop := forall k v, r !! k = Some v -> plain_value v.

(** The rows come out of one of the two extractors. *)
Definition parsed (rows : list row) : Prop :=
  (exists wb, ExcelParser.parse_file wb = Ok rows) \/
  (exists doc, PDFParser.parse_file doc = Ok rows).

(** What makes an upload end with the status 500. *)
Definition server_error_cause {saved_data : Type} (req : request saved_data) : Prop :=
  open_tmp _ req = None \/ read_size _ req = None \/ write_ok _ req = false \/
  (exists data, ExcelParser.parse_file (workbook _ req) = Ok data /\
                Exists (fun r => ~ TableSpec.convertible r) data) \/
  (exists items e, save _ req items = Raise e).

End Upload.

(** ** [pdf_parser.py]: conversion of rows into plan items *)

Module PDFConverter.

Import PlanConverter.

(** One iteration of the loop of [convert_to_plan_items]. *)
Definition convert_row (acc : plan_items) (r : row) : plan_items :=
  let with_meal :=
    if truthy (dict_get r "food") || truthy (dict_get r "meal_time") then
      meals acc ++
        [Meal (dict_get r "date") (dict_get_or r "meal_time" unspecified)
              (dict_get r "food") (dict_get_or r "calories" (VInt 0))
              (dict_get r "notes")]
    else meals acc in
  let with_exercise :=
    if truthy (dict_get r "exercise") then
      exercises acc ++
        [Exercise (dict_get r "date") (dict_get r "exercise")
                  (dict_get_or r "duration" (VInt 0))
                  (dict_get_or r "calories" (VInt 0))
                  (dict_get r "notes")]
    else exercises acc in
  PlanItems with_meal with_exercise.

Definition convert_to_plan_items (parsed_data : list row) : plan_items :=
  fold_left convert_row parsed_data (PlanItems [] []).

(** The meal entry of a row, if any. *)
Definition meals_of (r : row) : list MealEntry :=
  if truthy (dict_get r "food") || truthy (dict_get r "meal_time")
  then [Meal (dict_get r "date") (dict_get_or r "meal_time" unspecified)
             (dict_get r "food") (dict_get_or r "calories" (VInt 0))
             (dict_get r "notes")]
  else [].

(** The meal entry has a food. *)
Definition has_food (m : MealEntry) : bool := truthy (food m).

(** A row with a meal time has a food. *)
Definition meal_has_food (r : row) : Prop :=
  truthy (dict_get r "meal_time") = true -> truthy (dict_get r "food") = true.

(** A table row with a meal time and no food. *)
Definition meal_time_only : list row :=
  [ <["date"%string := VStr (utf8 "2024-01-15")]>
      (<["meal_time"%string := VStr (utf8 "早餐")]> {["food"%string := VNone]}) ].

End PDFConverter.

(** ** [data_validator.py]: the completeness report *)

Module Completeness.

(** Rounding of [n / d] to an integer, halves to even ([0 <= n], [0 < d]). *)
Definition round_half_even (n d : Z) : Z :=
  let q := n / d in
  let r := n mod d in
  if 2 * r <? d then q
  else if d <? 2 * r then q + 1
  else if Z.even q then q else q + 1.

(** [round(x, 2)] for a float: the value of [x] is rounded exactly to two
    decimals, halves to even, and the decimal is read back as a float. *)
Definition round2 (x : spec_float) : spec_float :=
  match x with
  | S754_finite s m e =>
    let hundredths :=
      if 0 <=? e then Zpos m * 100 * 2 ^ e
      else round_half_even (Zpos m * 100) (2 ^ (- e)) in
    PyFloat.of_ratio s hundredths 100
  | _ => x
  end.

Record report := Report {
  total_rows : nat;
  complete_rows : nat;
  incomplete_rows : Z;
  completeness_rate : spec_float;
  missing_fields : gmap string nat
}.

(** [field not in row or row[field] is None or row[field] == ''] *)
Definition is_missing (r : row) (f : string) : bool :=
  match r !! f with
  | None | Some VNone | Some (VStr []) => true
  | Some _ => false
  end.

(** [all_fields]: the keys of all rows. *)
Definition all_fields (data : list row) : gset string :=
  fold_left (fun fields r => fields ∪ dom r) data ∅.

(** The body of the loop over the fields, for the row [r]. *)
Definition field_step (r : row) (st : bool * gmap string nat) (f : string)
    : bool * gmap string nat :=
  let '(is_complete, missing_fields_count) := st in
  if is_missing r f
  then (false, <[f := (default 0 (missing_fields_count !! f) + 1)%nat]> missing_fields_count)
  else st.

(** The body of the loop over the rows. *)
Definition row_step (fields : list string) (st : nat * gmap string nat) (r : row)
    : nat * gmap string nat :=
  let '(complete_rows, missing_fields_count) := st in
  let '(is_complete, missing_fields_count) :=
    fold_left (field_step r) fields (true, missing_fields_count) in
  ((if is_complete then complete_rows + 1 else complete_rows)%nat, missing_fields_count).

Definition check_data_completeness (data : list row) : report :=
  match data with
  | [] => Report 0 0 0 (S754_zero false) ∅
  | _ =>
    let total_rows := length data in
    let '(complete_rows, missing_fields_count) :=
      fold_left (row_step (elements (all_fields data))) data (O, ∅) in
    let completeness_rate :=
      PyFloat.mul (PyFloat.of_ratio false (Z.of_nat complete_rows) (Z.of_nat total_rows))
                  (PyFloat.of_Z 100) in
    Report total_rows complete_rows (Z.of_nat total_rows - Z.of_nat complete_rows)
           (round2 completeness_rate) missing_fields_count
  end.

(** The row has every field of the batch. *)
Definition is_complete (data : list row) (r : row) : bool :=
  forallb (fun f => negb (is_missing r f)) (elements (all_fields data)).

(** The number of rows in which the field is missing. *)
Definition missing_in (data : list row) (f : string) : nat :=
  length (List.filter (fun r => is_missing r f) data).

(** Two rows: the second lacks the calories of the first and has an
    empty food. *)
Definition sample : list row :=
  [ <["date"%string := VStr (utf8 "2024-01-01")]>
      (<["food"%string := VStr (utf8 "rice")]> {["calories"%string := VFloat (PyFloat.of_Z 200)]});
    <["date"%string := VStr (utf8 "2024-01-02")]> {["food"%string := VStr []]} ].

End Completeness.

(** ** The share of keyword cells that makes a header row *)

Module HeaderThreshold.

Import ExcelParser.

(** The cell is not empty and contains a keyword of some field. *)
Definition keyword_cell (c : value) : bool :=
  truthy c &&
  existsb (fun '(_, keywords) => has_keyword keywords (lower (Py.str c))) COLUMN_KEYWORDS.

Definition non_empty_count (r : list value) : nat := length (List.filter truthy r).
Definition keyword_count (r : list value) : nat := length (List.filter keyword_cell r).

(** The comparison [keyword_count >= non_empty_count * 0.4] on floats
    and the comparison [5 * keyword_count >= 2 * non_empty_count] on
    integers agree up to [n] non-empty cells. *)
Definition threshold_table (n : nat) : bool :=
  let c := PyFloat.of_decimal false 4 1 (-1) in
  forallb (fun nc =>
             let x := PyFloat.mul (PyFloat.of_Z (Z.of_nat nc)) c in
             forallb (fun kc => Bool.eqb (SFleb x (PyFloat.of_Z (Z.of_nat kc)))
                                         (2 * Z.of_nat nc <=? 5 * Z.of_nat kc))
                     (List.seq 0 (S nc)))
          (List.seq 0 (S n)).

(** Five cells, two of them with a keyword. *)
Definition two_of_five : list value :=
  [VStr (utf8 "日期"); VStr (utf8 "食物"); VStr (utf8 "a"); VStr (utf8 "b"); VStr (utf8 "c")].

End HeaderThreshold.

(** ** [data_validator.py]: validation of plan items *)

Module PlanValidation.

Import PlanConverter DataValidator.

(** The dictionaries that [convert_to_plan_items] builds. *)
Definition meal_dict (m : MealEntry) : row :=
  <["date"%string := meal_date m]>
    (<["meal_time"%string := meal_time m]>
       (<["food"%string := food m]>
          (<["calories"%string := calories m]> {["notes"%string := meal_notes m]}))).

Definition exercise_dict (e : ExerciseEntry) : row :=
  <["date"%string := exercise_date e]>
    (<["name"%string := name e]>
       (<["duration"%string := duration e]>
          (<["calories_burned"%string := calories_burned e]>
             {["notes"%string := exercise_notes e]}))).

Definition validate_meal_data (meals : list row) : result ValidationResult :=
  validate_parsed_data meals "meal".

Definition validate_exercise_data (exercises : list row) : result ValidationResult :=
  validate_parsed_data exercises "exercise".

(** [validate_plan_items(plan_items)], for the items of a conversion. *)
Definition validate_plan_items (items : plan_items)
    : result (ValidationResult * ValidationResult) :=
  meal_result ← validate_meal_data (List.map meal_dict (meals items));
  exercise_result ← validate_exercise_data (List.map exercise_dict (exercises items));
  Ok (meal_result, exercise_result).

(** The fields that [_validate_row] checks. *)
Definition checked_fields : list string :=
  ["date"; "calories"; "duration"]%string ++ text_fields.

(** The error is on a checked field that the row has, or on the date. *)
Definition on_row_field (r : row) (e : ValidationError) : Prop :=
  In (field e) checked_fields /\
  (dict_has r (field e) = true \/ field e = "date"%string).

(** [extension in supported_extensions], as the upload endpoint tests it,
    and the lists of the validator. *)
Definition endpoint_accepts (ext : pystr) : bool :=
  str_in ext Upload.supported_extensions.

(** One exercise entry whose calories are far out of the range of the
    calories check. *)
Definition burning : plan_items :=
  PlanItems []
    [Exercise (VStr (utf8 "2024-01-01")) (VStr (utf8 "run"))
              (VFloat (PyFloat.of_Z 30)) (VFloat (PyFloat.of_Z 99999)) VNone].

End PlanValidation.

(** * Properties *)

(** ** Text and regular expressions *)

Section TextFacts.

Lemma lstrip_idem (s : pystr) : lstrip (lstrip s) = lstrip s.
Proof.
  induction s as [|c s IH]; simpl; [reflexivity|].
  destruct (is_space c) eqn:E; [exact IH|].
  simpl. rewrite E. reflexivity.
Qed.

Lemma lstrip_snoc (l : pystr) (c : N) :
  is_space c = false -> lstrip (l ++ [c]) = lstrip l ++ [c].
Proof.
  intros Hc. induction l as [|x l IH]; simpl.
  - rewrite Hc. reflexivity.
  - destruct (is_space x); [exact IH | reflexivity].
Qed.

Lemma rstrip_cons (c : N) (t : pystr) :
  is_space c = false -> rstrip (c :: t) = c :: rstrip t.
Proof.
  intros Hc. unfold rstrip. simpl.
  rewrite lstrip_snoc by exact Hc.
  rewrite rev_app_distr. reflexivity.
Qed.

Lemma rstrip_idem (t : pystr) : rstrip (rstrip t) = rstrip t.
Proof.
  unfold rstrip. rewrite rev_involutive, lstrip_idem. reflexivity.
Qed.

Lemma lstrip_head (s : pystr) :
  lstrip s = [] \/ exists c t, lstrip s = c :: t /\ is_space c = false.
Proof.
  induction s as [|c s IH]; simpl; [left; reflexivity|].
  destruct (is_space c) eqn:E; [exact IH|].
  right. exists c, s. split; [reflexivity | exact E].
Qed.

(** [s.strip()] is a fixed point of [strip]: it has no whitespace left
    at either end. *)
Lemma strip_idem (s : pystr) : strip (strip s) = strip s.
Proof.
  unfold strip.
  destruct (lstrip_head s) as [E | (c & t & E & Hc)]; rewrite E.
  - reflexivity.
  - rewrite (rstrip_cons c t Hc). simpl. rewrite Hc.
    rewrite <- (rstrip_cons c t Hc). apply rstrip_idem.
Qed.

(** Erasing the matches of a one-character class keeps exactly the
    characters outside the class. *)
Lemma sub_class_from (p : N -> bool) (s : pystr) :
  forall fuel pos, (length s < fuel)%nat ->
    Re.sub_from fuel (Re.Cls p) [] pos s = List.filter (fun c => negb (p c)) s.
Proof.
  induction s as [|c s IH]; intros fuel pos Hf.
  - destruct fuel; [simpl in Hf; lia | reflexivity].
  - destruct fuel as [|fuel]; [simpl in Hf; lia|].
    simpl in Hf. simpl. unfold Re.match_at. simpl.
    destruct (p c) eqn:E; simpl.
    + replace (pos <? S pos)%nat with true by (symmetry; apply Nat.ltb_lt; lia).
      apply IH. lia.
    + f_equal. apply IH. lia.
Qed.

Lemma sub_class (p : N -> bool) (s : pystr) :
  Re.sub (Re.Cls p) [] s = List.filter (fun c => negb (p c)) s.
Proof. unfold Re.sub. apply sub_class_from. lia. Qed.

End TextFacts.

(** ** Value normalizer *)

Section Normalizer.

Import ExcelParser.

Lemma parse_number_str (s : pystr) :
  s <> [] ->
  _parse_number (VStr s) = Ok (PyFloat.of_str (List.filter Spec.numeric_char s)).
Proof.
  intros Hs. unfold _parse_number.
  destruct s as [|c s]; [congruence|]. cbn [truthy negb].
  unfold not_numeric_char. rewrite sub_class.
  replace (List.filter (fun c0 => negb (negb (is_digit c0 || chr_eqb c0 46 || chr_eqb c0 45)))
             (c :: s))
    with (List.filter Spec.numeric_char (c :: s)).
  2:{ apply List.filter_ext. intros a. unfold Spec.numeric_char.
      rewrite negb_involutive. reflexivity. }
  unfold Py.float. destruct (PyFloat.of_str _); reflexivity.
Qed.

(** The two date parsers share their pattern table and loop. *)
Lemma extract_date_with_eq (ps : list Re.re) (s : pystr) :
  PDFParser.extract_date_with ps s = try_patterns ps s.
Proof. induction ps as [|p ps IH]; simpl; [reflexivity|]. rewrite IH. reflexivity. Qed.

Lemma pdf_extract_date_eq (s : pystr) :
  PDFParser._extract_date s = try_patterns date_patterns s.
Proof. apply extract_date_with_eq. Qed.

Lemma try_patterns_first (ps : list Re.re) (s : pystr) :
  forall (i : nat) (p : Re.re) (iso : pystr),
    ps !! i = Some p ->
    Spec.date_attempt p s = Some iso ->
    (forall j q, (j < i)%nat -> ps !! j = Some q -> Spec.date_attempt q s = None) ->
    try_patterns ps s = Some iso.
Proof.
  induction ps as [|p0 ps IH]; intros i p iso Hi Hp Hprev; [discriminate|].
  destruct i as [|i]; simpl in Hi.
  - injection Hi as ->. simpl. unfold Spec.date_attempt in Hp.
    destruct (Re.search false p s); [|discriminate]. rewrite Hp. reflexivity.
  - assert (H0 : Spec.date_attempt p0 s = None) by (apply (Hprev O); [lia | reflexivity]).
    simpl. unfold Spec.date_attempt in H0.
    assert (IH' : try_patterns ps s = Some iso).
    { apply (IH i p iso Hi Hp). intros j q Hj Hq. apply (Hprev (S j)); [lia | exact Hq]. }
    destruct (Re.search false p0 s); [rewrite H0|]; exact IH'.
Qed.

Lemma try_patterns_none (ps : list Re.re) (s : pystr) :
  (forall q, In q ps -> Spec.date_attempt q s = None) -> try_patterns ps s = None.
Proof.
  induction ps as [|p ps IH]; intros H; [reflexivity|].
  simpl. pose proof (H p (or_introl eq_refl)) as Hp. unfold Spec.date_attempt in Hp.
  assert (IH' : try_patterns ps s = None) by (apply IH; intros q Hq; apply H; right; exact Hq).
  destruct (Re.search false p s); [rewrite Hp|]; exact IH'.
Qed.

End Normalizer.

(** C3: normalizing "2024-12-02", "12/02/2024" and "2024年12月2日" with the
    date parser of either extractor yields "2024-12-02"; the three
    patterns are tried in order, and the first one that matches and forms
    a valid calendar date wins, an impossible date falling through to the
    next pattern. *)
Theorem date_notations_normalize :
  (ExcelParser._parse_date (VStr (utf8 "2024-12-02")) = Some (utf8 "2024-12-02") /\
   ExcelParser._parse_date (VStr (utf8 "12/02/2024")) = Some (utf8 "2024-12-02") /\
   ExcelParser._parse_date (VStr (utf8 "2024年12月2日")) = Some (utf8 "2024-12-02") /\
   PDFParser._extract_date (utf8 "2024-12-02") = Some (utf8 "2024-12-02") /\
   PDFParser._extract_date (utf8 "12/02/2024") = Some (utf8 "2024-12-02") /\
   PDFParser._extract_date (utf8 "2024年12月2日") = Some (utf8 "2024-12-02")) /\
  (forall (s : pystr) (i : nat) (p : Re.re) (iso : pystr),
     ExcelParser.date_patterns !! i = Some p ->
     Spec.date_attempt p s = Some iso ->
     (forall j q, (j < i)%nat -> ExcelParser.date_patterns !! j = Some q ->
                  Spec.date_attempt q s = None) ->
     ExcelParser._parse_date (VStr s) = Some iso /\
     PDFParser._extract_date s = Some iso) /\
  (forall s : pystr,
     (forall q, In q ExcelParser.date_patterns -> Spec.date_attempt q s = None) ->
     ExcelParser._parse_date (VStr s) = None /\ PDFParser._extract_date s = None).
Proof.
  split; [|split].
  - repeat split; vm_compute; reflexivity.
  - intros s i p iso Hi Hp Hprev.
    assert (H : ExcelParser.try_patterns ExcelParser.date_patterns s = Some iso)
      by (apply (try_patterns_first _ s i p iso); assumption).
    split; [|rewrite pdf_extract_date_eq; exact H].
    destruct s as [|c s]; [|exact H].
    vm_compute in H. discriminate.
  - intros s Hall.
    assert (H : ExcelParser.try_patterns ExcelParser.date_patterns s = None)
      by (apply try_patterns_none; exact Hall).
    split; [|rewrite pdf_extract_date_eq; exact H].
    destruct s as [|c s]; [reflexivity | exact H].
Qed.

(** An impossible date in the first notation falls through to the
    second notation. *)
Lemma date_notations_normalize_witness :
  ExcelParser._parse_date (VStr (utf8 "2024-02-30 and 03/04/2025")) = Some (utf8 "2025-03-04") /\
  PDFParser._extract_date (utf8 "2024-02-30 and 03/04/2025") = Some (utf8 "2025-03-04").
Proof.
  destruct date_notations_normalize as [_ [H _]].
  apply (H (utf8 "2024-02-30 and 03/04/2025") 1%nat
           (Re.seq [Re.Grp 1 (Re.times 1 2 Re.digit); Re.one_of "/-";
                    Re.Grp 2 (Re.times 1 2 Re.digit); Re.one_of "/-";
                    Re.Grp 3 (Re.times 4 4 Re.digit)])
           (utf8 "2025-03-04")).
  - reflexivity.
  - vm_compute. reflexivity.
  - intros j q Hj Hq. destruct j as [|j]; [|lia].
    injection Hq as <-. vm_compute. reflexivity.
Defined.

(** The sample "12-34" keeps all five characters, which [float] does
    not read: the specification's numeric samples do not all hold. *)
Lemma number_samples_refuted : ~ Spec.number_samples.
Proof.
  intros (_ & H & _). vm_compute in H. discriminate.
Qed.

(** C9, amended: the numeric normalizer passes a non-zero native number
    through as a float and, for a non-empty string, removes every
    character that is not a digit, '.' or '-' and reads the remainder as
    a float, an unreadable remainder giving None; "1,234" gives 1234.0,
    "-12.5kg" gives -12.5, and "12-34" and "abc" give None. *)
Theorem number_normalizer :
  (forall z : Z, z <> 0 -> Py.float (VInt z) = Ok (PyFloat.of_Z z) ->
     ExcelParser._parse_number (VInt z) = Ok (Some (PyFloat.of_Z z))) /\
  (forall f : spec_float, PyFloat.is_zero f = false ->
     ExcelParser._parse_number (VFloat f) = Ok (Some f)) /\
  (forall s : pystr, s <> [] ->
     ExcelParser._parse_number (VStr s)
     = Ok (PyFloat.of_str (List.filter Spec.numeric_char s))) /\
  ExcelParser._parse_number (VStr (utf8 "1,234")) = Ok (Some (PyFloat.of_Z 1234)) /\
  ExcelParser._parse_number (VStr (utf8 "-12.5kg"))
    = Ok (Some (PyFloat.of_decimal true 125 3 (-1))) /\
  ExcelParser._parse_number (VStr (utf8 "12-34")) = Ok None /\
  ExcelParser._parse_number (VStr (utf8 "abc")) = Ok None.
Proof.
  split; [|split; [|split; [|repeat split; vm_compute; reflexivity]]].
  - intros z Hz Hf. unfold ExcelParser._parse_number. cbn [truthy].
    destruct (Z.eqb_spec z 0) as [->|_]; [congruence|]. cbn [negb].
    rewrite Hf. reflexivity.
  - intros f Hf. unfold ExcelParser._parse_number. cbn [truthy]. rewrite Hf. reflexivity.
  - intros s Hs. apply parse_number_str. exact Hs.
Qed.

Lemma number_normalizer_witness :
  ExcelParser._parse_number (VInt 200) = Ok (Some (PyFloat.of_Z 200)) /\
  ExcelParser._parse_number (VFloat (PyFloat.of_Z 200)) = Ok (Some (PyFloat.of_Z 200)) /\
  ExcelParser._parse_number (VStr (utf8 "300卡")) = Ok (PyFloat.of_str (utf8 "300")).
Proof.
  destruct number_normalizer as (Hint & Hfloat & Hstr & _).
  split; [|split].
  - apply (Hint 200); [lia | reflexivity].
  - apply (Hfloat (PyFloat.of_Z 200)). reflexivity.
  - apply (Hstr (utf8 "300卡")). discriminate.
Defined.

(** ** Record validator *)

Section Validator.

Import DataValidator RowReport.

Lemma fold_left_add_errors {A} (g : A -> list ValidationError) (l : list A) :
  forall res,
    fold_left (fun res a => Result (errors res ++ g a) (warnings res)) l res
    = Result (errors res ++ flat_map g l) (warnings res).
Proof.
  induction l as [|a l IH]; intros res; simpl.
  - rewrite app_nil_r. destruct res; reflexivity.
  - rewrite IH. simpl. rewrite <- app_assoc. reflexivity.
Qed.

Lemma fold_left_ext_res {A} (f g : ValidationResult -> A -> ValidationResult) (l : list A) :
  (forall res a, f res a = g res a) ->
  forall res, fold_left f l res = fold_left g l res.
Proof.
  intros H. induction l as [|a l IH]; intros res; simpl; [reflexivity|].
  rewrite H. apply IH.
Qed.

Lemma result_eta (res : ValidationResult) :
  Result (errors res ++ []) (warnings res) = res.
Proof. rewrite app_nil_r. destruct res; reflexivity. Qed.

Lemma check_required_spec (r : row) (i : nat) (dt : string) (res : ValidationResult) :
  check_required r i dt res
  = Result (errors res ++ required_errors r i dt) (warnings res).
Proof.
  unfold check_required, required_errors.
  destruct (fields_for REQUIRED_FIELDS dt) as [fields|]; [|symmetry; apply result_eta].
  rewrite <- fold_left_add_errors. apply fold_left_ext_res.
  intros res0 f. destruct (negb (truthy (dict_get r f))); [reflexivity|].
  symmetry; apply result_eta.
Qed.

Lemma check_recommended_spec (r : row) (i : nat) (dt : string) (res : ValidationResult) :
  check_recommended r i dt res
  = Result (errors res) (warnings res ++ recommended_warnings r i dt).
Proof.
  unfold check_recommended, recommended_warnings.
  destruct (fields_for RECOMMENDED_FIELDS dt) as [fields|].
  - destruct (List.filter _ fields); [|reflexivity].
    rewrite app_nil_r. destruct res; reflexivity.
  - rewrite app_nil_r. destruct res; reflexivity.
Qed.

Lemma check_date_spec (r : row) (i : nat) (res : ValidationResult) :
  check_date r i res = Result (errors res ++ date_errors r i) (warnings res).
Proof.
  unfold check_date, date_errors.
  destruct (dict_has r "date" && truthy (dict_get r "date")); simpl;
    [|symmetry; apply result_eta].
  destruct (_is_valid_date (dict_get r "date")); simpl;
    [symmetry; apply result_eta | reflexivity].
Qed.

Lemma check_number_spec (f : string) (mx : Z) (prefix : string) (r : row) (i : nat)
    (res : ValidationResult) :
  check_number f mx prefix r i res
  = (added ← number_errors f mx prefix r i;
     Ok (Result (errors res ++ added) (warnings res))).
Proof.
  unfold check_number, number_errors.
  destruct (dict_has r f && negb (is_none (dict_get r f))).
  - destruct (_is_valid_number (dict_get r f) 0 mx) as [ok|e]; [|reflexivity].
    destruct ok; simpl; [rewrite result_eta|]; reflexivity.
  - simpl. rewrite result_eta. reflexivity.
Qed.

Lemma check_texts_spec (r : row) (i : nat) (res : ValidationResult) :
  check_texts r i res = Result (errors res ++ text_errors r i) (warnings res).
Proof.
  unfold check_texts, text_errors.
  rewrite <- fold_left_add_errors. apply fold_left_ext_res.
  intros res0 f.
  destruct (dict_has r f && truthy (dict_get r f)); simpl; [|symmetry; apply result_eta].
  destruct (_is_valid_text (dict_get r f) 500); simpl;
    [symmetry; apply result_eta | reflexivity].
Qed.

(** One row appends its errors and its warning to the result. *)
Lemma validate_row_spec (r : row) (i : nat) (dt : string) (res : ValidationResult) :
  _validate_row r i dt res
  = (errs ← row_errors r i dt;
     Ok (Result (errors res ++ errs) (warnings res ++ recommended_warnings r i dt))).
Proof.
  unfold _validate_row, row_errors, calories_errors, duration_errors.
  rewrite check_required_spec, check_recommended_spec, check_date_spec.
  rewrite check_number_spec. simpl.
  destruct (number_errors "calories" _ _ r i) as [cal|e]; [|reflexivity].
  simpl. rewrite check_number_spec. simpl.
  destruct (number_errors "duration" _ _ r i) as [dur|e]; [|reflexivity].
  simpl. rewrite check_texts_spec. simpl.
  rewrite <- !app_assoc. reflexivity.
Qed.

Lemma validate_rows_spec (rows : list row) (dt : string) :
  forall (idx : nat) (res : ValidationResult),
    validate_rows rows idx dt res
    = (errs ← batch_errors rows idx dt;
       Ok (Result (errors res ++ errs) (warnings res ++ batch_warnings rows idx dt))).
Proof.
  induction rows as [|r rows IH]; intros idx res; simpl.
  - rewrite !app_nil_r. destruct res; reflexivity.
  - rewrite validate_row_spec.
    destruct (row_errors r idx dt) as [e|x]; [|reflexivity].
    simpl. rewrite IH.
    destruct (batch_errors rows (S idx) dt) as [es|x]; [|reflexivity].
    simpl. rewrite <- !app_assoc. reflexivity.
Qed.

(** The result of a non-empty batch: the errors of the rows, their
    warnings and, when there is no error, the closing summary. *)
Lemma validate_batch_spec (r : row) (rows : list row) (dt : string) :
  validate_parsed_data (r :: rows) dt
  = (errs ← batch_errors (r :: rows) 1 dt;
     Ok (Result errs
           (batch_warnings (r :: rows) 1 dt
            ++ match errs with [] => [summary (S (length rows))] | _ => [] end))).
Proof.
  unfold validate_parsed_data. rewrite validate_rows_spec.
  destruct (batch_errors (r :: rows) 1 dt) as [errs|x]; [|reflexivity].
  cbn [mbind result_bind Py.bind errors warnings app].
  unfold is_valid, add_warning. cbn [errors warnings app].
  destruct errs; simpl; [reflexivity | rewrite app_nil_r; reflexivity].
Qed.

End Validator.

Section ValidatorRows.

Import DataValidator RowReport.

Lemma required_fields_date (dt : string) (fields : list string) :
  fields_for REQUIRED_FIELDS dt = Some fields -> fields = ["date"%string].
Proof.
  unfold fields_for, REQUIRED_FIELDS. cbn [List.find].
  destruct (String.eqb "meal" dt); [cbv; congruence|].
  destruct (String.eqb "exercise" dt); cbv; congruence.
Qed.

Lemma number_errors_shape (f : string) (mx : Z) (prefix : string) (r : row) (i : nat)
    (errs : list ValidationError) :
  number_errors f mx prefix r i = Ok errs ->
  Forall (fun e => field e = f /\ row_index e = Some i) errs.
Proof.
  unfold number_errors.
  destruct (dict_has r f && negb (is_none (dict_get r f))).
  - destruct (_is_valid_number (dict_get r f) 0 mx) as [ok|x]; [|discriminate].
    destruct ok; simpl; intros [= <-]; repeat constructor.
  - intros [= <-]. constructor.
Qed.

Lemma flat_map_Forall {A B} (P : B -> Prop) (g : A -> list B) (l : list A) :
  (forall a, In a l -> Forall P (g a)) -> Forall P (flat_map g l).
Proof.
  induction l as [|a l IH]; intros H; simpl; [constructor|].
  apply Forall_app. split; [apply H; left; reflexivity|].
  apply IH. intros b Hb. apply H. right. exact Hb.
Qed.

Lemma required_errors_shape (r : row) (i : nat) (dt : string) :
  Forall (fun e => field e = "date"%string /\ row_index e = Some i) (required_errors r i dt).
Proof.
  unfold required_errors.
  destruct (fields_for REQUIRED_FIELDS dt) as [fields|] eqn:E; [|constructor].
  apply required_fields_date in E. subst fields. simpl.
  destruct (negb (truthy (dict_get r "date"))); repeat constructor.
Qed.

Lemma date_errors_shape (r : row) (i : nat) :
  Forall (fun e => field e = "date"%string /\ row_index e = Some i) (date_errors r i).
Proof.
  unfold date_errors. destruct (_ && _); repeat constructor.
Qed.

Lemma text_errors_shape (r : row) (i : nat) :
  Forall (fun e => In (field e) text_fields /\ row_index e = Some i) (text_errors r i).
Proof.
  unfold text_errors. apply flat_map_Forall. intros f Hf.
  destruct (_ && _); [|constructor].
  constructor; [split; [exact Hf | reflexivity] | constructor].
Qed.

Lemma filter_none {A} (p : A -> bool) (l : list A) :
  Forall (fun a => p a = false) l -> List.filter p l = [].
Proof.
  induction 1 as [|a l Ha _ IH]; simpl; [reflexivity|]. rewrite Ha. exact IH.
Qed.

Lemma filter_all {A} (p : A -> bool) (l : list A) :
  Forall (fun a => p a = true) l -> List.filter p l = l.
Proof.
  induction 1 as [|a l Ha _ IH]; simpl; [reflexivity|]. rewrite Ha, IH. reflexivity.
Qed.

Lemma about_true (f : string) (i : nat) (e : ValidationError) :
  field e = f -> row_index e = Some i -> about f i e = true.
Proof.
  intros <- Hi. unfold about. rewrite String.eqb_refl. simpl.
  apply bool_decide_eq_true. exact Hi.
Qed.

Lemma about_other_field (f g : string) (i : nat) (e : ValidationError) :
  field e = g -> g <> f -> about f i e = false.
Proof.
  intros <- Hne. unfold about.
  destruct (String.eqb_spec (field e) f); [contradiction | reflexivity].
Qed.

Lemma about_other_row (f : string) (i j : nat) (e : ValidationError) :
  row_index e = Some j -> j <> i -> about f i e = false.
Proof.
  intros Hj Hne. unfold about. apply andb_false_iff. right.
  apply bool_decide_eq_false. rewrite Hj. congruence.
Qed.

(** Among the errors of row [i], those about calories are the ones the
    calories check produced. *)
Lemma row_errors_calories (r : row) (i : nat) (dt : string) (errs : list ValidationError) :
  row_errors r i dt = Ok errs ->
  exists cal, calories_errors r i = Ok cal /\
              List.filter (about "calories" i) errs = cal /\
              Forall (fun e => row_index e = Some i) errs.
Proof.
  unfold row_errors.
  destruct (calories_errors r i) as [cal|x] eqn:Ecal; [|discriminate].
  destruct (duration_errors r i) as [dur|x] eqn:Edur; [|discriminate].
  simpl. intros [= <-]. exists cal. split; [reflexivity|].
  pose proof (required_errors_shape r i dt) as Hreq.
  pose proof (date_errors_shape r i) as Hdate.
  pose proof (number_errors_shape _ _ _ _ _ _ Ecal) as Hcal.
  pose proof (number_errors_shape _ _ _ _ _ _ Edur) as Hdur.
  pose proof (text_errors_shape r i) as Htext.
  split.
  - rewrite !List.filter_app.
    rewrite (filter_none _ (required_errors r i dt)).
    2:{ eapply List.Forall_impl; [|exact Hreq]. intros e [Hf _].
        apply (about_other_field _ "date"); [exact Hf | discriminate]. }
    rewrite (filter_none _ (date_errors r i)).
    2:{ eapply List.Forall_impl; [|exact Hdate]. intros e [Hf _].
        apply (about_other_field _ "date"); [exact Hf | discriminate]. }
    rewrite (filter_all _ cal).
    2:{ eapply List.Forall_impl; [|exact Hcal]. intros e [Hf Hi]. apply about_true; assumption. }
    rewrite (filter_none _ dur).
    2:{ eapply List.Forall_impl; [|exact Hdur]. intros e [Hf _].
        apply (about_other_field _ "duration"); [exact Hf | discriminate]. }
    rewrite (filter_none _ (text_errors r i)).
    2:{ eapply List.Forall_impl; [|exact Htext]. intros e [Hf _].
        apply (about_other_field _ (field e)); [reflexivity|].
        intros Heq. rewrite Heq in Hf. simpl in Hf.
        repeat (destruct Hf as [Hf|Hf]; [discriminate|]). exact Hf. }
    simpl. rewrite app_nil_r. reflexivity.
  - assert (Hi : forall (P : ValidationError -> Prop) l,
               Forall (fun e => P e /\ row_index e = Some i) l ->
               Forall (fun e => row_index e = Some i) l).
    { intros P l H. eapply List.Forall_impl; [|exact H]. intros e [_ He]. exact He. }
    apply List.Forall_app. split; [exact (Hi _ _ Hreq)|].
    apply List.Forall_app. split; [exact (Hi _ _ Hdate)|].
    apply List.Forall_app. split; [exact (Hi _ _ Hcal)|].
    apply List.Forall_app. split; [exact (Hi _ _ Hdur) | exact (Hi _ _ Htext)].
Qed.

Lemma batch_errors_rows (rows : list row) (dt : string) :
  forall (idx : nat) (es : list ValidationError),
    batch_errors rows idx dt = Ok es ->
    Forall (fun e => exists j, row_index e = Some j /\ (idx <= j)%nat) es.
Proof.
  induction rows as [|r rows IH]; intros idx es; simpl.
  - intros [= <-]. constructor.
  - destruct (row_errors r idx dt) as [e|x] eqn:Er; [|discriminate].
    destruct (batch_errors rows (S idx) dt) as [es'|x] eqn:Eb; [|discriminate].
    simpl. intros [= <-].
    apply List.Forall_app. split.
    + destruct (row_errors_calories _ _ _ _ Er) as (_ & _ & _ & Hidx).
      eapply List.Forall_impl; [|exact Hidx]. intros a Ha. exists idx. split; [exact Ha | lia].
    + eapply List.Forall_impl; [|exact (IH _ _ Eb)].
      intros a (j & Hj & Hle). exists j. split; [exact Hj | lia].
Qed.

(** Among the errors of a batch, those about the calories of its row
    number [idx + i] are the ones the calories check produced there. *)
Lemma batch_errors_calories (rows : list row) (dt : string) :
  forall (idx i : nat) (r : row) (es : list ValidationError),
    batch_errors rows idx dt = Ok es ->
    rows !! i = Some r ->
    exists cal, calories_errors r (idx + i) = Ok cal /\
                List.filter (about "calories" (idx + i)) es = cal.
Proof.
  induction rows as [|r0 rows IH]; intros idx i r es Hb Hi; [discriminate|].
  simpl in Hb.
  destruct (row_errors r0 idx dt) as [e|x] eqn:Er; [|discriminate].
  destruct (batch_errors rows (S idx) dt) as [es'|x] eqn:Eb; [|discriminate].
  simpl in Hb. injection Hb as <-.
  rewrite List.filter_app.
  destruct i as [|i]; simpl in Hi.
  - injection Hi as ->. rewrite Nat.add_0_r.
    destruct (row_errors_calories _ _ _ _ Er) as (cal & Hcal & Hf & _).
    exists cal. split; [exact Hcal|].
    rewrite Hf. rewrite (filter_none _ es'); [apply app_nil_r|].
    eapply List.Forall_impl; [|exact (batch_errors_rows _ _ _ _ Eb)].
    intros a (j & Hj & Hle). apply (about_other_row _ _ j); [exact Hj | lia].
  - destruct (IH (S idx) i r es' Eb Hi) as (cal & Hcal & Hf).
    replace (idx + S i)%nat with (S idx + i)%nat by lia.
    exists cal. split; [exact Hcal|].
    rewrite Hf. rewrite (filter_none _ e); [reflexivity|].
    destruct (row_errors_calories _ _ _ _ Er) as (_ & _ & _ & Hidx).
    eapply List.Forall_impl; [|exact Hidx].
    intros a Ha. apply (about_other_row _ _ idx); [exact Ha | lia].
Qed.

Lemma dict_has_some (r : row) (k : string) (v : value) :
  r !! k = Some v -> dict_has r k = true.
Proof.
  intros H. unfold dict_has. apply bool_decide_eq_true. exists v. exact H.
Qed.

Lemma dict_get_some (r : row) (k : string) (v : value) :
  r !! k = Some v -> dict_get r k = v.
Proof. intros H. unfold dict_get. rewrite H. reflexivity. Qed.

Lemma dict_has_none (r : row) (k : string) :
  r !! k = None -> dict_has r k = false.
Proof.
  intros H. unfold dict_has. apply bool_decide_eq_false. rewrite H.
  intros [x Hx]. discriminate.
Qed.

Lemma dict_get_none (r : row) (k : string) :
  r !! k = None -> dict_get r k = VNone.
Proof. intros H. unfold dict_get. rewrite H. reflexivity. Qed.

(** [_is_valid_number] rejects exactly the values that are not numeric
    or lie outside the bounds. *)
Lemma is_valid_number_false (v : value) (lo hi : Z) (ok : bool) :
  _is_valid_number v lo hi = Ok ok ->
  (ok = false <-> ~ Range.numeric v \/ Range.below v lo \/ Range.above v hi).
Proof.
  unfold _is_valid_number, Range.numeric, Range.below, Range.above.
  destruct (Py.float v) as [num|x] eqn:Ef.
  - destruct (SFltb num (PyFloat.of_Z lo)) eqn:Elo.
    + intros [= <-]. split; [|reflexivity].
      intros _. right. left. exists num. split; [reflexivity | exact Elo].
    + destruct (SFltb (PyFloat.of_Z hi) num) eqn:Ehi; intros [= <-].
      * split; [|reflexivity].
        intros _. right. right. exists num. split; [reflexivity | exact Ehi].
      * split; [discriminate|].
        intros [Hn | [(y & Hy & Hlt) | (y & Hy & Hlt)]].
        -- exfalso. apply Hn. exists num. reflexivity.
        -- injection Hy as <-. congruence.
        -- injection Hy as <-. congruence.
  - destruct x; try discriminate; intros [= <-];
      (split; [|reflexivity]); intros _; left; intros (y & Hy); discriminate.
Qed.

(** The calories check on a value that is present. *)
Lemma calories_errors_present (r : row) (i : nat) (v : value) (cal : list ValidationError) :
  r !! "calories"%string = Some v -> v <> VNone ->
  calories_errors r i = Ok cal ->
  (cal = [] \/ cal = [Range.calories_error i v]) /\
  (cal <> [] <-> ~ Range.numeric v \/ Range.below v 0 \/ Range.above v 10000).
Proof.
  intros Hv Hnn. unfold calories_errors, number_errors.
  rewrite (dict_has_some _ _ _ Hv), (dict_get_some _ _ _ Hv).
  replace (is_none v) with false by (destruct v; [congruence | reflexivity ..]).
  cbn [andb negb].
  destruct (_is_valid_number v 0 10000) as [ok|x] eqn:Eok; [|discriminate].
  pose proof (is_valid_number_false _ _ _ _ Eok) as Hiff.
  destruct ok; simpl; intros [= <-].
  - split; [left; reflexivity|]. split; [congruence|].
    intros H. apply Hiff in H. discriminate.
  - split; [right; reflexivity|]. split; [|discriminate].
    intros _. apply Hiff. reflexivity.
Qed.

End ValidatorRows.

(** C5: for every kind, validating the empty row list returns a result
    that is not valid, with exactly one error, of type EmptyData, and no
    warning; no per-row check contributes. *)
Theorem empty_batch_rejected (data_type : string) :
  exists e,
    DataValidator.validate_parsed_data [] data_type = Ok (DataValidator.Result [e] []) /\
    DataValidator.error_type e = DataValidator.EMPTY_DATA /\
    DataValidator.row_index e = None /\
    DataValidator.is_valid (DataValidator.Result [e] []) = false.
Proof.
  eexists. split; [reflexivity|]. repeat split.
Qed.

(** C4: in every validated batch, a row whose calories field is present
    yields an InvalidValue error about calories if and only if the value
    is not numeric, below 0 or above 10000, and at most one such error;
    a row with calories 15000 yields exactly that one error, its message
    stating the range 0-10000, and a row with calories 500 yields no
    error. *)
Theorem calories_range_check :
  (forall (rows : list row) (data_type : string) (res : DataValidator.ValidationResult)
          (i : nat) (r : row) (v : value),
     DataValidator.validate_parsed_data rows data_type = Ok res ->
     rows !! i = Some r ->
     r !! "calories"%string = Some v -> v <> VNone ->
     let errs := List.filter (RowReport.about "calories" (S i)) (DataValidator.errors res) in
     (errs = [] \/ errs = [Range.calories_error (S i) v]) /\
     (errs <> [] <-> ~ Range.numeric v \/ Range.below v 0 \/ Range.above v 10000)) /\
  DataValidator.validate_parsed_data [ {["calories"%string := VInt 15000]} ] "general"
  = Ok (DataValidator.Result
          [DataValidator.Error DataValidator.INVALID_VALUE "calories"
             (utf8 "热量值无效或超出范围 (0-10000): 15000") (Some 1%nat) (VInt 15000)]
          []) /\
  DataValidator.validate_parsed_data [ {["calories"%string := VInt 500]} ] "general"
  = Ok (DataValidator.Result [] [RowReport.summary 1]).
Proof.
  split; [|split; vm_compute; reflexivity].
  intros rows dt res i r v Hval Hi Hv Hnn errs. subst errs.
  destruct rows as [|r0 rows]; [discriminate|].
  rewrite validate_batch_spec in Hval.
  destruct (RowReport.batch_errors (r0 :: rows) 1 dt) as [es|x] eqn:Eb; [|discriminate].
  injection Hval as <-. cbn [DataValidator.errors].
  destruct (batch_errors_calories _ _ _ _ _ _ Eb Hi) as (cal & Hcal & Hf).
  change (1 + i)%nat with (S i) in *. rewrite Hf.
  exact (calories_errors_present r (S i) v cal Hv Hnn Hcal).
Qed.

Lemma calories_range_check_witness :
  let errs := List.filter (RowReport.about "calories" 2)
                [DataValidator.Error DataValidator.INVALID_VALUE "calories"
                   (utf8 "热量值无效或超出范围 (0-10000): 15000.0") (Some 2%nat)
                   (VFloat (PyFloat.of_Z 15000))] in
  (errs = [] \/ errs = [Range.calories_error 2 (VFloat (PyFloat.of_Z 15000))]) /\
  (errs <> [] <->
   ~ Range.numeric (VFloat (PyFloat.of_Z 15000)) \/
   Range.below (VFloat (PyFloat.of_Z 15000)) 0 \/
   Range.above (VFloat (PyFloat.of_Z 15000)) 10000).
Proof.
  destruct calories_range_check as [H _].
  apply (H [ {["calories"%string := VFloat (PyFloat.of_Z 500)]};
             {["calories"%string := VFloat (PyFloat.of_Z 15000)]} ]
           "general"%string
           (DataValidator.Result
              [DataValidator.Error DataValidator.INVALID_VALUE "calories"
                 (utf8 "热量值无效或超出范围 (0-10000): 15000.0") (Some 2%nat)
                 (VFloat (PyFloat.of_Z 15000))] [])
           1%nat
           {["calories"%string := VFloat (PyFloat.of_Z 15000)]}
           (VFloat (PyFloat.of_Z 15000))).
  - vm_compute. reflexivity.
  - reflexivity.
  - vm_compute. reflexivity.
  - discriminate.
Defined.

(** A row with a date and a meal time, without food and calories: its
    single-row batch ends with two warnings, the one of the row and the
    closing summary. *)
Lemma lone_warning_refuted :
  truthy (dict_get ValidatorSpec.dated_row "date") = true /\
  ValidatorSpec.dated_row !! "food"%string = None /\
  ValidatorSpec.dated_row !! "calories"%string = None /\
  ~ ValidatorSpec.lone_warning ValidatorSpec.dated_row.
Proof.
  repeat split; try (vm_compute; reflexivity).
  intros (w & H & _). vm_compute in H. discriminate.
Qed.

Section MealRow.

Import DataValidator RowReport ValidatorSpec.

Lemma text_errors_none (r : row) (i : nat) :
  text_within_limit r -> text_errors r i = [].
Proof.
  intros H. unfold text_errors.
  assert (G : forall l, (forall f, In f l -> In f text_fields) ->
            flat_map (fun f =>
              if dict_has r f && truthy (dict_get r f)
                 && negb (_is_valid_text (dict_get r f) 500)
              then [Error INVALID_VALUE f (utf8 "文本字段过长 (最大500字符): " ++ utf8 f)
                          (Some i) VNone]
              else []) l = []).
  { induction l as [|f l IH]; intros Hl; cbn [flat_map]; [reflexivity|].
    rewrite IH by (intros g Hg; apply Hl; right; exact Hg).
    destruct (H f (Hl f (or_introl eq_refl))) as [Ht | Hv]; [rewrite Ht | rewrite Hv];
      rewrite ?andb_false_r; reflexivity. }
  apply G. intros f Hf. exact Hf.
Qed.

Lemma duration_errors_none (r : row) (i : nat) :
  duration_within_range r -> duration_errors r i = Ok [].
Proof.
  unfold duration_errors, number_errors. intros [H | H]; rewrite H.
  - simpl. rewrite andb_false_r. reflexivity.
  - destruct (dict_has r "duration" && negb (is_none (dict_get r "duration")));
      reflexivity.
Qed.

Lemma meal_row_report (r : row) :
  truthy (dict_get r "date") = true ->
  _is_valid_date (dict_get r "date") = true ->
  r !! "food"%string = None ->
  r !! "calories"%string = None ->
  duration_within_range r ->
  text_within_limit r ->
  row_errors r 1 "meal" = Ok [] /\
  recommended_warnings r 1 "meal"
  = [missing_warning ((if truthy (dict_get r "meal_time") then [] else ["meal_time"%string])
                      ++ ["food"%string; "calories"%string])].
Proof.
  intros Hd Hvalid Hfood Hcal Hdur Htext. split.
  - unfold row_errors.
    replace (calories_errors r 1) with (Ok (@nil ValidationError)).
    2:{ unfold calories_errors, number_errors. rewrite (dict_has_none _ _ Hcal). reflexivity. }
    rewrite (duration_errors_none r 1 Hdur).
    rewrite (text_errors_none r 1 Htext).
    unfold required_errors, date_errors.
    change (fields_for REQUIRED_FIELDS "meal") with (Some ["date"%string]).
    cbn [flat_map mbind result_bind Py.bind].
    rewrite Hd, Hvalid. cbn [negb andb app]. rewrite andb_false_r. reflexivity.
  - unfold recommended_warnings.
    change (fields_for RECOMMENDED_FIELDS "meal")
      with (Some ["meal_time"%string; "food"%string; "calories"%string]).
    cbn [List.filter].
    rewrite (dict_get_none _ _ Hfood), (dict_get_none _ _ Hcal). cbn [truthy negb].
    destruct (truthy (dict_get r "meal_time")); reflexivity.
Qed.

End MealRow.

(** C8, amended: for a batch of kind 'meal' made of one row whose date is
    present and valid, whose food and calories are absent and whose other
    fields are in order, the result has no error and two warnings: the
    warning of the row, which names both missing fields (after meal_time,
    when that is missing too), and the closing summary of the error-free
    batch. *)
Theorem meal_row_warnings (r : row) :
  truthy (dict_get r "date") = true ->
  DataValidator._is_valid_date (dict_get r "date") = true ->
  r !! "food"%string = None ->
  r !! "calories"%string = None ->
  ValidatorSpec.duration_within_range r ->
  ValidatorSpec.text_within_limit r ->
  exists w,
    DataValidator.validate_parsed_data [r] "meal"
    = Ok (DataValidator.Result [] [w; RowReport.summary 1]) /\
    w = ValidatorSpec.missing_warning
          ((if truthy (dict_get r "meal_time") then [] else ["meal_time"%string])
           ++ ["food"%string; "calories"%string]) /\
    contains (utf8 "food") w = true /\ contains (utf8 "calories") w = true.
Proof.
  intros Hd Hvalid Hfood Hcal Hdur Htext.
  destruct (meal_row_report r Hd Hvalid Hfood Hcal Hdur Htext) as [He Hw].
  eexists. split; [|split; [reflexivity|]].
  - rewrite validate_batch_spec. cbn [RowReport.batch_errors RowReport.batch_warnings].
    rewrite He, Hw. reflexivity.
  - destruct (truthy (dict_get r "meal_time")); split; vm_compute; reflexivity.
Qed.

Lemma meal_row_warnings_witness :
  exists w,
    DataValidator.validate_parsed_data [ValidatorSpec.dated_row] "meal"
    = Ok (DataValidator.Result [] [w; RowReport.summary 1]) /\
    w = ValidatorSpec.missing_warning
          ((if truthy (dict_get ValidatorSpec.dated_row "meal_time")
            then [] else ["meal_time"%string])
           ++ ["food"%string; "calories"%string]) /\
    contains (utf8 "food") w = true /\ contains (utf8 "calories") w = true.
Proof.
  apply (meal_row_warnings ValidatorSpec.dated_row).
  - vm_compute. reflexivity.
  - vm_compute. reflexivity.
  - vm_compute. reflexivity.
  - vm_compute. reflexivity.
  - left. vm_compute. reflexivity.
  - intros f Hf. simpl in Hf.
    destruct Hf as [<- | [<- | [<- | [<- | [<- | []]]]]];
      (left; vm_compute; reflexivity) || (right; vm_compute; reflexivity).
Defined.

(** ** Plan converter *)

Section Converter.

Import PlanConverter ConverterSpec.

Lemma call_strip_textual (r : row) (k : string) :
  textual r k -> call_strip (dict_get_or r k (VStr [])) = Ok (trimmed r k).
Proof.
  unfold textual, trimmed, dict_get_or, dict_get.
  intros [H | (s & H)]; rewrite H; reflexivity.
Qed.

Lemma convert_row_spec (acc : plan_items) (r : row) :
  textual r "type" -> textual r "name" ->
  convert_row acc r
  = Ok (PlanItems (meals acc ++ meals_of r) (exercises acc ++ exercises_of r)).
Proof.
  intros Ht Hn. unfold convert_row.
  rewrite (call_strip_textual r "type" Ht), (call_strip_textual r "name" Hn).
  cbn [mbind result_bind Py.bind].
  unfold meals_of, exercises_of, explicit_layout.
  destruct (nonempty_str (trimmed r "type") && nonempty_str (trimmed r "name")).
  - destruct (str_in (trimmed r "type") meal_types).
    + rewrite app_nil_r. reflexivity.
    + destruct (str_in (trimmed r "type") exercise_types).
      * rewrite app_nil_r. reflexivity.
      * rewrite !app_nil_r. destruct acc; reflexivity.
  - destruct (truthy (dict_get r "food")), (truthy (dict_get r "exercise"));
      rewrite ?app_nil_r; reflexivity.
Qed.

Lemma convert_from_spec (rows : list row) :
  Forall (fun r => textual r "type" /\ textual r "name") rows ->
  forall acc,
    convert_from acc rows
    = Ok (PlanItems (meals acc ++ flat_map meals_of rows)
                    (exercises acc ++ flat_map exercises_of rows)).
Proof.
  induction 1 as [|r rows [Ht Hn] _ IH]; intros acc; cbn [convert_from flat_map].
  - rewrite !app_nil_r. destruct acc; reflexivity.
  - rewrite (convert_row_spec acc r Ht Hn). cbn [mbind result_bind Py.bind].
    rewrite IH. cbn [meals exercises]. rewrite <- !app_assoc. reflexivity.
Qed.

Lemma trimmed_textual (r : row) (k : string) : trimmed_text r k -> textual r k.
Proof.
  intros [H | (s & H & _)]; [left; exact H | right; exists s; exact H].
Qed.

Lemma trimmed_stated (r : row) (k : string) :
  trimmed_text r k ->
  nonempty_str (trimmed r k) = present r k /\
  (present r k = true -> VStr (trimmed r k) = dict_get r k).
Proof.
  unfold trimmed_text, trimmed, present, dict_get.
  intros [H | (s & H & Hs)]; rewrite H; cbn [default from_option id truthy].
  - split; [reflexivity | discriminate].
  - rewrite Hs. split; [destruct s; reflexivity | reflexivity].
Qed.

Lemma trimmed_type (r : row) : trimmed_text r "type" -> trimmed r "type" = stated_type r.
Proof.
  unfold trimmed_text, trimmed, stated_type, dict_get.
  intros [H | (s & H & Hs)]; rewrite H; cbn [default from_option id];
    [reflexivity | exact Hs].
Qed.

Lemma or_zero_filled (r : row) (k : string) :
  filled r k -> or_zero r k = dict_get_or r k (VInt 0).
Proof.
  unfold filled, or_zero, dict_get, dict_get_or.
  destruct (r !! k) as [v|]; cbn [default from_option id]; [|reflexivity].
  destruct v; try reflexivity. intros H. contradiction H. reflexivity.
Qed.

Lemma entries_stated (r : row) :
  trimmed_text r "type" -> trimmed_text r "name" ->
  filled r "calories" -> filled r "duration" ->
  meals_of r = stated_meals r /\ exercises_of r = stated_exercises r.
Proof.
  intros Ht Hn Hc Hd.
  destruct (trimmed_stated r "type" Ht) as [Ept _].
  destruct (trimmed_stated r "name" Hn) as [Epn Hname].
  unfold meals_of, exercises_of, stated_meals, stated_exercises, explicit_layout.
  rewrite Ept, Epn, (trimmed_type r Ht), (or_zero_filled r "calories" Hc),
    (or_zero_filled r "duration" Hd).
  destruct (present r "type"); cbn [andb]; [|split; reflexivity].
  destruct (present r "name"); [|split; reflexivity].
  rewrite (Hname eq_refl). split; reflexivity.
Qed.

(** Off the rows that bind calories or duration to None, the converter
    emits the entries of the specification. *)
Lemma converter_follows_stated (rows : list row) :
  Forall (fun r => trimmed_text r "type" /\ trimmed_text r "name" /\
                   filled r "calories" /\ filled r "duration") rows ->
  convert_to_plan_items rows = Ok (stated rows).
Proof.
  intros H. unfold convert_to_plan_items, stated.
  rewrite convert_from_spec.
  - cbn [meals exercises app]. f_equal. f_equal.
    + induction H as [|r rows (Ht & Hn & Hc & Hd) _ IH]; [reflexivity|].
      cbn [flat_map]. rewrite IH, (proj1 (entries_stated r Ht Hn Hc Hd)). reflexivity.
    + induction H as [|r rows (Ht & Hn & Hc & Hd) _ IH]; [reflexivity|].
      cbn [flat_map]. rewrite IH, (proj2 (entries_stated r Ht Hn Hc Hd)). reflexivity.
  - apply (List.Forall_impl _ (P := fun r => trimmed_text r "type" /\ trimmed_text r "name" /\
                   filled r "calories" /\ filled r "duration")); [|exact H].
    intros r (Ht & Hn & _). split; apply trimmed_textual; assumption.
Qed.

End Converter.

(** On rows whose type and name fields are strings or absent, the
    converter reads a row in the explicit layout exactly when its type
    and its name, trimmed of surrounding whitespace, are both non-empty:
    a trimmed type among the meal synonyms emits one meal entry, one
    among the exercise synonyms one exercise entry, another type
    nothing; otherwise a true food emits a meal entry and,
    independently, a true exercise an exercise entry; calories, duration
    and calories burned are 0 in every entry of a row that lacks the
    key. *)
Theorem converter_layouts (rows : list row) :
  Forall (fun r => ConverterSpec.textual r "type" /\ ConverterSpec.textual r "name") rows ->
  PlanConverter.convert_to_plan_items rows
  = Ok (PlanConverter.PlanItems (flat_map ConverterSpec.meals_of rows)
                                (flat_map ConverterSpec.exercises_of rows)) /\
  (forall r, In r rows ->
     (length (ConverterSpec.meals_of r) <= 1)%nat /\
     (length (ConverterSpec.exercises_of r) <= 1)%nat /\
     (ConverterSpec.explicit_layout r = true ->
      (length (ConverterSpec.meals_of r) + length (ConverterSpec.exercises_of r) <= 1)%nat) /\
     (r !! "calories"%string = None ->
      Forall (fun m => PlanConverter.calories m = VInt 0) (ConverterSpec.meals_of r) /\
      Forall (fun e => PlanConverter.calories_burned e = VInt 0) (ConverterSpec.exercises_of r)) /\
     (r !! "duration"%string = None ->
      Forall (fun e => PlanConverter.duration e = VInt 0) (ConverterSpec.exercises_of r))).
Proof.
  intros H. split.
  - unfold PlanConverter.convert_to_plan_items. rewrite (convert_from_spec rows H).
    reflexivity.
  - intros r _. unfold ConverterSpec.meals_of, ConverterSpec.exercises_of.
    split; [|split; [|split; [|split]]].
    + repeat match goal with |- context [if ?b then _ else _] => destruct b end;
        simpl; lia.
    + repeat match goal with |- context [if ?b then _ else _] => destruct b end;
        simpl; lia.
    + intros ->.
      repeat match goal with |- context [if ?b then _ else _] => destruct b end;
        simpl; lia.
    + intros Hc. unfold dict_get_or. rewrite Hc.
      split;
        repeat match goal with |- context [if ?b then _ else _] => destruct b end;
        repeat constructor.
    + intros Hd. unfold dict_get_or. rewrite Hd.
      repeat match goal with |- context [if ?b then _ else _] => destruct b end;
        repeat constructor.
Qed.

Lemma converter_layouts_witness :
  PlanConverter.convert_to_plan_items ConverterSpec.sample_rows
  = Ok (PlanConverter.PlanItems
          [ PlanConverter.Meal (VStr (utf8 "2024-01-01")) PlanConverter.unspecified
              (VStr (utf8 "oats")) (VInt 0) VNone;
            PlanConverter.Meal VNone PlanConverter.unspecified
              (VStr (utf8 "rice")) (VInt 0) VNone ]
          [ PlanConverter.Exercise VNone (VStr (utf8 "run"))
              (VFloat (PyFloat.of_Z 30)) (VInt 0) VNone ]).
Proof.
  refine (proj1 (converter_layouts ConverterSpec.sample_rows _)).
  apply List.Forall_cons; [|apply List.Forall_cons; [|apply List.Forall_nil]].
  - split; right; eexists; vm_compute; reflexivity.
  - split; left; vm_compute; reflexivity.
Defined.

(** C6: a sheet with a food, an exercise and empty calories and duration
    cells is parsed into a row that binds calories and duration to None;
    the batch passes validation, and the converter emits a meal entry
    whose calories and an exercise entry whose duration and calories
    burned are None, where the specification puts 0; the same row
    without the two keys is converted with the three numbers at 0. *)
Theorem conversion_keeps_null_numbers :
  ExcelParser.parse_file (ExcelParser.Workbook ConverterSpec.sheet_with_empty_numbers)
  = Ok [ConverterSpec.row_with_empty_numbers] /\
  (exists res,
     DataValidator.validate_parsed_data [ConverterSpec.row_with_empty_numbers] "general" = Ok res /\
     DataValidator.is_valid res = true) /\
  PlanConverter.convert_to_plan_items [ConverterSpec.row_with_empty_numbers]
  = Ok ConverterSpec.null_entries /\
  ConverterSpec.stated [ConverterSpec.row_with_empty_numbers] = ConverterSpec.zero_entries /\
  ConverterSpec.null_entries <> ConverterSpec.zero_entries /\
  PlanConverter.convert_to_plan_items
    [delete "calories"%string (delete "duration"%string ConverterSpec.row_with_empty_numbers)]
  = Ok ConverterSpec.zero_entries.
Proof.
  split; [vm_compute; reflexivity|].
  split; [eexists; split; vm_compute; reflexivity|].
  split; [vm_compute; reflexivity|].
  split; [vm_compute; reflexivity|].
  split; [discriminate | vm_compute; reflexivity].
Qed.

(** C10: a sheet with a type and a name column and an empty name cell is
    parsed into a row whose name is bound to None; the batch passes
    validation, and the conversion of its rows raises AttributeError. *)
Theorem conversion_raises_on_empty_cell :
  ExcelParser.parse_file (ExcelParser.Workbook ConverterSpec.sheet_with_empty_name)
  = Ok [ConverterSpec.row_with_empty_name] /\
  (exists res,
     DataValidator.validate_parsed_data [ConverterSpec.row_with_empty_name] "general" = Ok res /\
     DataValidator.is_valid res = true) /\
  PlanConverter.convert_to_plan_items [ConverterSpec.row_with_empty_name]
  = Raise AttributeError.
Proof.
  split; [vm_compute; reflexivity|]. split; [|vm_compute; reflexivity].
  eexists. split; vm_compute; reflexivity.
Qed.

(** ** Format sniffer *)

(** A workbook that passes every earlier check and the security check is
    rejected when the MIME sniff answers "application/zip". *)
Lemma mime_never_fatal_refuted :
  SnifferSpec.earlier_checks_pass FileValidator.MAX_FILE_SIZE
    SnifferSpec.sniffed_as_zip SnifferSpec.workbook_path "excel" /\
  SnifferSpec.security_passes SnifferSpec.sniffed_as_zip SnifferSpec.workbook_path /\
  FileValidator.validate_file FileValidator.MAX_FILE_SIZE
    SnifferSpec.sniffed_as_zip SnifferSpec.workbook_path
  = (false, None, Some (utf8 "MIME 类型不匹配: application/zip")) /\
  ~ SnifferSpec.mime_never_fatal FileValidator.MAX_FILE_SIZE
      SnifferSpec.sniffed_as_zip SnifferSpec.workbook_path.
Proof.
  assert (Hpre : SnifferSpec.earlier_checks_pass FileValidator.MAX_FILE_SIZE
            SnifferSpec.sniffed_as_zip SnifferSpec.workbook_path "excel").
  { unfold SnifferSpec.earlier_checks_pass. repeat split; vm_compute; congruence. }
  assert (Hsec : SnifferSpec.security_passes SnifferSpec.sniffed_as_zip
            SnifferSpec.workbook_path) by (vm_compute; reflexivity).
  split; [exact Hpre|]. split; [exact Hsec|]. split; [vm_compute; reflexivity|].
  intros H. specialize (H _ Hpre Hsec). vm_compute in H. discriminate.
Qed.

(** C7, amended: for a file that passes the existence, size, extension
    and magic-number checks, a MIME type outside the list of the detected
    type, answered by the system sniff, rejects the file with a MIME
    mismatch message; the MIME check is skipped, the file being accepted
    when the security checks pass, only when the sniffing library is not
    installed, when the sniff raises, or when its answer is in the
    list. *)
Theorem mime_mismatch_rejects (max_size : Z) (env : FileValidator.file_env)
    (file_path : pystr) (t : string) :
  SnifferSpec.earlier_checks_pass max_size env file_path t ->
  (forall mime,
     FileValidator.HAS_MAGIC env = true ->
     FileValidator.magic_from_file env = Some mime ->
     FileValidator._validate_mime_type mime t = false ->
     FileValidator.validate_file max_size env file_path
     = (false, None, Some (utf8 "MIME 类型不匹配: " ++ mime))) /\
  (FileValidator.HAS_MAGIC env = false \/
   FileValidator.magic_from_file env = None \/
   (exists mime, FileValidator.magic_from_file env = Some mime /\
                 FileValidator._validate_mime_type mime t = true) ->
   SnifferSpec.security_passes env file_path ->
   FileValidator.validate_file max_size env file_path = (true, Some t, None)).
Proof.
  intros (He & Hf & [Hlo Hhi] & Hext & Hmagic).
  assert (E1 : (FileValidator.getsize env <? FileValidator.MIN_FILE_SIZE) = false)
    by (apply Z.ltb_ge; exact Hlo).
  assert (E2 : (max_size <? FileValidator.getsize env) = false)
    by (apply Z.ltb_ge; exact Hhi).
  split.
  - intros mime Hhas Hsniff Hmime. unfold FileValidator.validate_file.
    rewrite He, Hf. cbn [negb]. rewrite E1, E2, Hext, Hmagic. cbn [negb].
    rewrite Hhas, Hsniff, Hmime. reflexivity.
  - intros Hskip Hsec. unfold FileValidator.validate_file.
    rewrite He, Hf. cbn [negb]. rewrite E1, E2, Hext, Hmagic. cbn [negb].
    unfold SnifferSpec.security_passes in Hsec.
    destruct Hskip as [Hno | [Hraise | (mime & Hsniff & Hmime)]].
    + rewrite Hno, Hsec. reflexivity.
    + rewrite Hraise. destruct (FileValidator.HAS_MAGIC env); rewrite Hsec; reflexivity.
    + rewrite Hsniff, Hmime. cbn [negb].
      destruct (FileValidator.HAS_MAGIC env); rewrite Hsec; reflexivity.
Qed.

Lemma mime_mismatch_rejects_witness :
  FileValidator.validate_file FileValidator.MAX_FILE_SIZE
    SnifferSpec.sniffed_as_zip SnifferSpec.workbook_path
  = (false, None, Some (utf8 "MIME 类型不匹配: " ++ utf8 "application/zip")) /\
  FileValidator.validate_file FileValidator.MAX_FILE_SIZE
    SnifferSpec.not_sniffed SnifferSpec.workbook_path
  = (true, Some "excel"%string, None).
Proof.
  split.
  - refine (proj1 (mime_mismatch_rejects FileValidator.MAX_FILE_SIZE
                     SnifferSpec.sniffed_as_zip SnifferSpec.workbook_path "excel" _)
                  (utf8 "application/zip") _ _ _).
    + unfold SnifferSpec.earlier_checks_pass. repeat split; vm_compute; congruence.
    + reflexivity.
    + reflexivity.
    + vm_compute. reflexivity.
  - refine (proj2 (mime_mismatch_rejects FileValidator.MAX_FILE_SIZE
                     SnifferSpec.not_sniffed SnifferSpec.workbook_path "excel" _) _ _).
    + unfold SnifferSpec.earlier_checks_pass. repeat split; vm_compute; congruence.
    + left. reflexivity.
    + vm_compute. reflexivity.
Defined.

(** ** Semi-structured extractor *)

(** On a page with a table and text, the records of the text lines
    follow the record of the table. *)
Lemma tables_exclude_lines_refuted :
  PDFParser.extract_tables ExtractorSpec.page_with_table <> [] /\
  ExtractorSpec.table_records ExtractorSpec.page_with_table = [ExtractorSpec.table_record] /\
  PDFParser.parse_page ExtractorSpec.page_with_table
  = [ExtractorSpec.table_record; ExtractorSpec.line_record] /\
  ~ ExtractorSpec.tables_exclude_lines ExtractorSpec.page_with_table.
Proof.
  split; [discriminate|]. split; [vm_compute; reflexivity|].
  split; [vm_compute; reflexivity|].
  intros H. assert (Hne : PDFParser.extract_tables ExtractorSpec.page_with_table <> [])
    by discriminate.
  specialize (H Hne). apply (f_equal (@length row)) in H.
  vm_compute in H. discriminate.
Qed.

Lemma parse_page_spec (p : PDFParser.page) :
  PDFParser.parse_page p = ExtractorSpec.table_records p ++ ExtractorSpec.line_records p.
Proof.
  unfold PDFParser.parse_page, ExtractorSpec.table_records, ExtractorSpec.line_records.
  f_equal.
  - destruct (PDFParser.extract_tables p); reflexivity.
  - destruct (PDFParser.extract_text p) as [[|c t]|]; reflexivity.
Qed.

(** C1, amended: for every PDF document, the records of a page are the
    records of its tables followed by the records of the line-based
    extraction of its text, whether or not a table was detected on the
    page; every line-based record of a page is among the records of the
    document, and a page without tables yields its line-based records
    alone. *)
Theorem lines_follow_tables (pages : list PDFParser.page) (p : PDFParser.page) (r : row) :
  In p pages ->
  In r (ExtractorSpec.line_records p) ->
  PDFParser.parse_page p = ExtractorSpec.table_records p ++ ExtractorSpec.line_records p /\
  (PDFParser.extract_tables p = [] -> PDFParser.parse_page p = ExtractorSpec.line_records p) /\
  exists rows, PDFParser.parse_file (PDFParser.Document pages) = Ok rows /\ In r rows.
Proof.
  intros Hp Hr. split; [apply parse_page_spec|]. split.
  - intros Ht. rewrite parse_page_spec. unfold ExtractorSpec.table_records.
    rewrite Ht. reflexivity.
  - eexists. split; [reflexivity|].
    apply in_flat_map. exists p. split; [exact Hp|].
    rewrite parse_page_spec. apply in_or_app. right. exact Hr.
Qed.

Lemma lines_follow_tables_witness :
  PDFParser.parse_page ExtractorSpec.page_with_table
  = ExtractorSpec.table_records ExtractorSpec.page_with_table
    ++ ExtractorSpec.line_records ExtractorSpec.page_with_table /\
  (PDFParser.extract_tables ExtractorSpec.page_with_table = [] ->
   PDFParser.parse_page ExtractorSpec.page_with_table
   = ExtractorSpec.line_records ExtractorSpec.page_with_table) /\
  exists rows,
    PDFParser.parse_file (PDFParser.Document [ExtractorSpec.page_with_table]) = Ok rows /\
    In ExtractorSpec.line_record rows.
Proof.
  apply (lines_follow_tables [ExtractorSpec.page_with_table]
           ExtractorSpec.page_with_table ExtractorSpec.line_record).
  - left. reflexivity.
  - vm_compute. left. reflexivity.
Defined.

(** ** Tabular extractor *)

(** The second data row of the sheet comes back with its calories bound
    to None and its food bound to the empty string. *)
Lemma never_null_refuted :
  ExcelParser.parse_file (ExcelParser.Workbook TabularSpec.sheet)
  = Ok [TabularSpec.first_row; TabularSpec.second_row] /\
  TabularSpec.second_row !! "calories"%string = Some VNone /\
  TabularSpec.second_row !! "food"%string = Some (VStr []) /\
  ~ TabularSpec.never_null [TabularSpec.first_row; TabularSpec.second_row].
Proof.
  split; [vm_compute; reflexivity|].
  assert (Hc : TabularSpec.second_row !! "calories"%string = Some VNone)
    by (vm_compute; reflexivity).
  split; [exact Hc|]. split; [vm_compute; reflexivity|].
  intros H.
  destruct (H TabularSpec.second_row "calories"%string VNone) as [Hn _].
  - right. left. reflexivity.
  - exact Hc.
  - apply Hn. reflexivity.
Qed.

Section CalendarDates.

Lemma years_ok :
  forallb (fun i => DateSpec.year_ok (1000 + Z.of_nat i)) (List.seq 0 (Z.to_nat 9000)) = true.
Proof. vm_compute. reflexivity. Qed.

Lemma year_digits (y : Z) :
  1000 <= y <= 9999 ->
  exists a b c e,
    str_of_int y = [a; b; c; e] /\
    is_digit a = true /\ is_digit b = true /\ is_digit c = true /\ is_digit e = true /\
    int_of_digits [a; b; c; e] = y.
Proof.
  intros Hy. pose proof years_ok as H. rewrite forallb_forall in H.
  specialize (H (Z.to_nat (y - 1000))).
  assert (Hin : In (Z.to_nat (y - 1000)) (List.seq 0 (Z.to_nat 9000)))
    by (apply in_seq; lia).
  specialize (H Hin). cbv beta in H.
  replace (1000 + Z.of_nat (Z.to_nat (y - 1000))) with y in H by lia.
  unfold DateSpec.year_ok in H.
  destruct (str_of_int y) as [|a [|b [|c [|e [|? ?]]]]]; try discriminate.
  rewrite !andb_true_iff, Z.eqb_eq in H.
  destruct H as ((((Ha & Hb) & Hc) & He) & Hv).
  exists a, b, c, e. repeat split; assumption.
Qed.

Lemma two_digits_in (n : nat) (m : Z) :
  1 <= m <= Z.of_nat n ->
  In (m, zero_pad 2 (str_of_int m)) (DateSpec.two_digits n).
Proof.
  intros Hm. unfold DateSpec.two_digits. apply in_map_iff.
  exists (Z.to_nat m). rewrite Z2Nat.id by lia. split; [reflexivity|].
  apply in_seq. lia.
Qed.

Lemma two_digits_ok : forallb DateSpec.two_ok (DateSpec.two_digits 31) = true.
Proof. vm_compute. reflexivity. Qed.

Lemma two_digits_spec (m : Z) :
  1 <= m <= 31 ->
  exists x y, zero_pad 2 (str_of_int m) = [x; y] /\
              is_digit x = true /\ is_digit y = true /\
              int_of_digits [x; y] = m /\ int_of_digits (strip [x; y]) = m.
Proof.
  intros Hm. pose proof two_digits_ok as H. rewrite forallb_forall in H.
  specialize (H (m, zero_pad 2 (str_of_int m)) (two_digits_in 31 m ltac:(lia))).
  unfold DateSpec.two_ok in H. cbn [fst snd] in H.
  destruct (zero_pad 2 (str_of_int m)) as [|x [|y [|? ?]]]; try discriminate.
  rewrite !andb_true_iff, !Z.eqb_eq in H.
  destruct H as (((Hx & Hy) & Hv) & Hs).
  exists x, y. repeat split; assumption.
Qed.

Lemma make_date_fields (y m d : Z) (dt : date) :
  make_date y m d = Some dt ->
  dt = Date y m d /\ 1 <= y <= 9999 /\ 1 <= m <= 12 /\ 1 <= d <= 31.
Proof.
  unfold make_date.
  destruct ((1 <=? y) && (y <=? 9999) && (1 <=? m) && (m <=? 12)
            && (1 <=? d) && (d <=? days_in_month y m)) eqn:E; [|discriminate].
  intros [= <-]. rewrite !andb_true_iff, !Z.leb_le in E.
  destruct E as (((((H1 & H2) & H3) & H4) & H5) & H6).
  assert (days_in_month y m <= 31).
  { unfold days_in_month. destruct (m =? 2); [destruct (is_leap y); lia|].
    destruct ((m =? 4) || (m =? 6) || (m =? 9) || (m =? 11)); lia. }
  split; [reflexivity | lia].
Qed.

Lemma make_date_calendar (y m d : Z) (dt : date) :
  make_date y m d = Some dt -> DateSpec.calendar_date dt.
Proof.
  intros H. destruct (make_date_fields y m d dt H) as (-> & _).
  exact H.
Qed.

Lemma iso_digits (y m d : Z) :
  1000 <= y <= 9999 -> 1 <= m <= 12 -> 1 <= d <= 31 ->
  exists a b c e m1 m2 d1 d2,
    strftime_ymd (Date y m d) = [a; b; c; e; 45%N; m1; m2; 45%N; d1; d2] /\
    zero_pad 2 (str_of_int m) = [m1; m2] /\ zero_pad 2 (str_of_int d) = [d1; d2] /\
    (is_digit a = true /\ is_digit b = true /\ is_digit c = true /\ is_digit e = true) /\
    (is_digit m1 = true /\ is_digit m2 = true /\ is_digit d1 = true /\ is_digit d2 = true) /\
    int_of_digits [a; b; c; e] = y /\
    int_of_digits [m1; m2] = m /\ int_of_digits [d1; d2] = d /\
    int_of_digits (strip [d1; d2]) = d.
Proof.
  intros Hy Hm Hd.
  destruct (year_digits y Hy) as (a & b & c & e & Hs & Ha & Hb & Hc & He & Hv).
  destruct (two_digits_spec m ltac:(lia)) as (m1 & m2 & Hms & Hm1 & Hm2 & Hmv & _).
  destruct (two_digits_spec d ltac:(lia)) as (d1 & d2 & Hds & Hd1 & Hd2 & Hdv & Hdv').
  exists a, b, c, e, m1, m2, d1, d2.
  split.
  { unfold strftime_ymd. cbn [year month day]. rewrite Hs, Hms, Hds. reflexivity. }
  repeat split; assumption.
Qed.

Lemma try_patterns_calendar (ps : list Re.re) (s iso : pystr) :
  ExcelParser.try_patterns ps s = Some iso ->
  exists dt, DateSpec.calendar_date dt /\ iso = strftime_ymd dt.
Proof.
  induction ps as [|p ps IH]; cbn [ExcelParser.try_patterns]; [discriminate|].
  destruct (Re.search false p s) as [m|]; [|exact IH].
  destruct (ExcelParser.date_of_groups m) as [iso'|] eqn:E; [|exact IH].
  intros [= <-]. unfold ExcelParser.date_of_groups in E.
  destruct (length (Re.group m 1) =? 4)%nat;
    match type of E with
    | strftime_ymd <$> ?o = _ => destruct o as [d|] eqn:Ed; [|discriminate]
    end; injection E as <-; exists d;
    (split; [exact (make_date_calendar _ _ _ _ Ed) | reflexivity]).
Qed.

End CalendarDates.

Section Tabular.

Import ExcelParser TabularSpec.

Lemma iso_shape (d : date) :
  DateSpec.calendar_date d -> 1000 <= year d ->
  DateSpec.iso_8601 (strftime_ymd d) = true.
Proof.
  unfold DateSpec.calendar_date. destruct d as [y m d]. cbn [year month day].
  intros Hmk Hy.
  destruct (make_date_fields y m d _ Hmk) as (_ & Hy' & Hm & Hd).
  destruct (iso_digits y m d ltac:(lia) Hm Hd)
    as (a & b & c & e & m1 & m2 & d1 & d2 & Hiso & _ & _ & (Ha & Hb & Hc & He)
        & (Hm1 & Hm2 & Hd1 & Hd2) & Hv & Hmv & Hdv & _).
  rewrite Hiso. unfold DateSpec.iso_8601. cbn [forallb].
  rewrite Ha, Hb, Hc, He, Hm1, Hm2, Hd1, Hd2, Hv, Hmv, Hdv, Hmk. reflexivity.
Qed.

Lemma parse_date_calendar (cv : value) (iso : pystr) :
  DateSpec.calendar_cell cv -> _parse_date cv = Some iso ->
  exists d, DateSpec.calendar_date d /\ iso = strftime_ymd d.
Proof.
  intros Hc. unfold _parse_date. destruct (negb (truthy cv)); [discriminate|].
  destruct cv; try discriminate.
  - apply try_patterns_calendar.
  - intros [= <-]. eexists. split; [exact Hc | reflexivity].
  - intros [= <-]. eexists. split; [exact Hc | reflexivity].
Qed.

Lemma parse_text_shape (cv : value) (s : pystr) :
  _parse_text cv = Some s -> strip s = s /\ (has_text cv -> s <> []).
Proof.
  unfold _parse_text, has_text. destruct (negb (truthy cv)); [discriminate|].
  intros [= <-]. split; [apply strip_idem | intros H; exact H].
Qed.

Lemma field_value_typed (k : string) (cv v : value) :
  DateSpec.calendar_cell cv -> field_value k cv = Ok v -> field_typed k cv v.
Proof.
  intros Hcal. unfold field_value, field_typed.
  destruct (String.eqb k "date") eqn:Ed.
  - intros [= <-]. destruct (_parse_date cv) as [iso|] eqn:E; [right|left; reflexivity].
    destruct (parse_date_calendar _ _ Hcal E) as (d & Hd & ->). exists d.
    split; [exact Hd|]. split; [reflexivity | exact (iso_shape d Hd)].
  - destruct (String.eqb k "calories") eqn:Ec; cbn [orb].
    + destruct (_parse_number cv) as [[f|]|x]; cbn; intros [= <-];
        [right; eexists; reflexivity | left; reflexivity].
    + destruct (String.eqb k "duration") eqn:Eu.
      * destruct (_parse_number cv) as [[f|]|x]; cbn; intros [= <-];
          [right; eexists; reflexivity | left; reflexivity].
      * intros [= <-]. destruct (_parse_text cv) as [s|] eqn:E; [right|left; reflexivity].
        exists s. destruct (parse_text_shape _ _ E) as [H1 H2].
        split; [reflexivity|]. split; [exact H1 | exact H2].
Qed.

Lemma cell_calendar (ws : worksheet) (r c : nat) :
  calendar_sheet ws -> DateSpec.calendar_cell (cell ws r c).
Proof.
  unfold calendar_sheet, cell. intros H.
  destruct r as [|r']; [exact I|]. destruct c as [|c']; [exact I|].
  assert (Hrow : Forall DateSpec.calendar_cell (nth r' (grid ws) [])).
  { destruct (nth_in_or_default r' (grid ws) []) as [Hin | ->]; [|constructor].
    rewrite List.Forall_forall in H. exact (H _ Hin). }
  destruct (nth_in_or_default c' (nth r' (grid ws) []) VNone) as [Hin | ->]; [|exact I].
  rewrite List.Forall_forall in Hrow. exact (Hrow _ Hin).
Qed.

(** The row extracted at [row_idx] binds exactly the mapped fields, each
    to the value computed from its cell. *)
Lemma extract_row_fields (ws : worksheet) (column_mapping : gmap string nat)
    (row_idx : nat) (r : row) :
  _extract_row ws column_mapping row_idx = Ok r ->
  forall k,
    match r !! k with
    | Some v => exists col, delete "header_row"%string column_mapping !! k = Some col /\
                            field_value k (cell ws row_idx col) = Ok v
    | None => delete "header_row"%string column_mapping !! k = None
    end.
Proof.
  unfold _extract_row. revert r.
  apply (map_fold_weak_ind
           (fun (acc : result row) (m : gmap string nat) =>
              forall r, acc = Ok r ->
              forall k, match r !! k with
                        | Some v => exists col, m !! k = Some col /\
                                                field_value k (cell ws row_idx col) = Ok v
                        | None => m !! k = None
                        end)).
  - intros r [= <-] k. rewrite !lookup_empty. reflexivity.
  - intros i x m acc Hi IH r Hr k.
    destruct acc as [rd|e]; [|discriminate]. cbn in Hr.
    destruct (field_value i (cell ws row_idx x)) as [v|e] eqn:Ev; [|discriminate].
    cbn in Hr. injection Hr as <-.
    destruct (decide (i = k)) as [->|Hne].
    + rewrite !lookup_insert_eq. exists x. split; [reflexivity | exact Ev].
    + rewrite !lookup_insert_ne by exact Hne. apply (IH rd eq_refl k).
Qed.

Lemma extract_rows_members (ws : worksheet) (column_mapping : gmap string nat)
    (row_idxs : list nat) :
  forall rows r,
    extract_rows ws column_mapping row_idxs = Ok rows -> In r rows ->
    any_value r = true /\
    exists row_idx, In row_idx row_idxs /\ _extract_row ws column_mapping row_idx = Ok r.
Proof.
  induction row_idxs as [|i idxs IH]; intros rows r; cbn [extract_rows].
  - intros [= <-] [].
  - destruct (_extract_row ws column_mapping i) as [rd|e] eqn:Er; [|discriminate].
    cbn. destruct (extract_rows ws column_mapping idxs) as [data|e] eqn:Ed; [|discriminate].
    cbn. intros [= <-] Hin.
    assert (Hrest : In r data ->
              any_value r = true /\
              exists row_idx, In row_idx (i :: idxs) /\
                              _extract_row ws column_mapping row_idx = Ok r).
    { intros Hd. destruct (IH data r eq_refl Hd) as (Ha & j & Hj & Hjr).
      split; [exact Ha|]. exists j. split; [right; exact Hj | exact Hjr]. }
    destruct (any_value rd) eqn:Ea; [|exact (Hrest Hin)].
    destruct Hin as [<- | Hin]; [|exact (Hrest Hin)].
    split; [exact Ea|]. exists i. split; [left; reflexivity | exact Er].
Qed.

End Tabular.

(** C2, amended: in a workbook whose date cells hold calendar dates,
    every row returned by the tabular extractor's parse binds exactly
    the mapped fields of the sheet, none being omitted, each to None or
    to a value of its type read from its cell of one row of the sheet:
    the date to the year-month-day rendering of a calendar date, an
    ISO-8601 date string when the year has four digits; calories and
    duration to a float; every other field to a string without
    surrounding whitespace, which is not empty when the text of the cell
    holds a character other than whitespace; at least one value of the
    row is true. *)
Theorem rows_bind_mapped_fields (wb : ExcelParser.workbook) (rows : list row) (r : row) :
  TabularSpec.calendar_workbook wb ->
  ExcelParser.parse_file wb = Ok rows ->
  In r rows ->
  exists ws row_idx,
    wb = ExcelParser.Workbook ws /\
    (forall k, is_Some (r !! k) <->
               k <> "header_row"%string /\ is_Some (ExcelParser._identify_columns ws !! k)) /\
    (forall k v, r !! k = Some v ->
       exists col, ExcelParser._identify_columns ws !! k = Some col /\
                   TabularSpec.field_typed k (ExcelParser.cell ws row_idx col) v) /\
    any_value r = true.
Proof.
  intros Hcal Hp Hin. destruct wb as [|ws]; [discriminate|].
  cbn [TabularSpec.calendar_workbook] in Hcal. cbn [ExcelParser.parse_file] in Hp.
  destruct (ExcelParser._extract_data ws (ExcelParser._identify_columns ws))
    as [data|e] eqn:Ed; [|discriminate].
  injection Hp as <-. unfold ExcelParser._extract_data in Ed.
  destruct (extract_rows_members _ _ _ _ _ Ed Hin) as (Ha & i & _ & Hr).
  pose proof (extract_row_fields _ _ _ _ Hr) as Hf.
  exists ws, i. split; [reflexivity|].
  split; [|split; [|exact Ha]].
  - intros k. specialize (Hf k). split.
    + intros [v Hv]. rewrite Hv in Hf. destruct Hf as (col & Hcol & _).
      apply lookup_delete_Some in Hcol. destruct Hcol as [Hne Hcol].
      split; [congruence | exists col; exact Hcol].
    + intros [Hne [col Hcol]].
      destruct (r !! k) as [v|]; [exists v; reflexivity|].
      rewrite lookup_delete_ne in Hf by congruence. congruence.
  - intros k v Hv. specialize (Hf k). rewrite Hv in Hf.
    destruct Hf as (col & Hcol & Hval).
    apply lookup_delete_Some in Hcol. destruct Hcol as [_ Hcol].
    exists col. split; [exact Hcol|].
    exact (field_value_typed _ _ _ (cell_calendar ws i col Hcal) Hval).
Qed.

Lemma rows_bind_mapped_fields_witness :
  exists ws row_idx,
    ExcelParser.Workbook TabularSpec.sheet = ExcelParser.Workbook ws /\
    (forall k, is_Some (TabularSpec.second_row !! k) <->
               k <> "header_row"%string /\ is_Some (ExcelParser._identify_columns ws !! k)) /\
    (forall k v, TabularSpec.second_row !! k = Some v ->
       exists col, ExcelParser._identify_columns ws !! k = Some col /\
                   TabularSpec.field_typed k (ExcelParser.cell ws row_idx col) v) /\
    any_value TabularSpec.second_row = true.
Proof.
  apply (rows_bind_mapped_fields (ExcelParser.Workbook TabularSpec.sheet)
           [TabularSpec.first_row; TabularSpec.second_row] TabularSpec.second_row).
  - repeat constructor.
  - vm_compute. reflexivity.
  - right. left. reflexivity.
Defined.

(** ** Record validator: the errors of a batch *)

Section BatchErrors.

Import DataValidator RowReport BatchReport.

Lemma row_errors_at_row (r : row) (i : nat) (dt : string) (errs : list ValidationError) :
  row_errors r i dt = Ok errs -> Forall (fun e => row_index e = Some i) errs.
Proof.
  intros H. destruct (row_errors_calories _ _ _ _ H) as (_ & _ & _ & Hi). exact Hi.
Qed.

Lemma at_row_same (i : nat) (l : list ValidationError) :
  Forall (fun e => row_index e = Some i) l -> List.filter (at_row i) l = l.
Proof.
  intros H. apply filter_all. eapply List.Forall_impl; [|exact H].
  intros e He. unfold at_row. apply bool_decide_eq_true. exact He.
Qed.

Lemma at_row_other (i j : nat) (l : list ValidationError) :
  Forall (fun e => exists k, row_index e = Some k /\ k <> j) l ->
  List.filter (at_row j) l = [].
Proof.
  intros H. apply filter_none. eapply List.Forall_impl; [|exact H].
  intros e (k & Hk & Hne). unfold at_row. apply bool_decide_eq_false.
  rewrite Hk. congruence.
Qed.

Lemma batch_errors_bounds (rows : list row) (dt : string) :
  forall (idx : nat) (es : list ValidationError),
    batch_errors rows idx dt = Ok es ->
    Forall (fun e => exists j, row_index e = Some j /\ (idx <= j < idx + length rows)%nat) es.
Proof.
  induction rows as [|r rows IH]; intros idx es; simpl.
  - intros [= <-]. constructor.
  - destruct (row_errors r idx dt) as [e|x] eqn:Er; [|discriminate].
    destruct (batch_errors rows (S idx) dt) as [es'|x] eqn:Eb; [|discriminate].
    simpl. intros [= <-]. apply List.Forall_app. split.
    + eapply List.Forall_impl; [|exact (row_errors_at_row _ _ _ _ Er)].
      intros a Ha. exists idx. split; [exact Ha | lia].
    + eapply List.Forall_impl; [|exact (IH _ _ Eb)].
      intros a (j & Hj & Hle). exists j. split; [exact Hj | lia].
Qed.

(** The errors of the row number [idx + i] of a batch are those of the
    batch that carry its index. *)
Lemma batch_errors_at_row (rows : list row) (dt : string) :
  forall (idx i : nat) (r : row) (es : list ValidationError),
    batch_errors rows idx dt = Ok es ->
    rows !! i = Some r ->
    exists errs, row_errors r (idx + i) dt = Ok errs /\
                 List.filter (at_row (idx + i)) es = errs.
Proof.
  induction rows as [|r0 rows IH]; intros idx i r es Hb Hi; [discriminate|].
  simpl in Hb.
  destruct (row_errors r0 idx dt) as [e|x] eqn:Er; [|discriminate].
  destruct (batch_errors rows (S idx) dt) as [es'|x] eqn:Eb; [|discriminate].
  simpl in Hb. injection Hb as <-.
  rewrite List.filter_app.
  destruct i as [|i]; simpl in Hi.
  - injection Hi as ->. rewrite Nat.add_0_r. exists e. split; [exact Er|].
    rewrite (at_row_same _ _ (row_errors_at_row _ _ _ _ Er)).
    rewrite (at_row_other idx idx es'); [apply app_nil_r|].
    eapply List.Forall_impl; [|exact (batch_errors_bounds _ _ _ _ Eb)].
    intros a (j & Hj & Hle). exists j. split; [exact Hj | lia].
  - destruct (IH (S idx) i r es' Eb Hi) as (errs & Herrs & Hf).
    replace (idx + S i)%nat with (S idx + i)%nat by lia.
    exists errs. split; [exact Herrs|].
    rewrite Hf. rewrite (at_row_other idx (S idx + i) e); [reflexivity|].
    eapply List.Forall_impl; [|exact (row_errors_at_row _ _ _ _ Er)].
    intros a Ha. exists idx. split; [exact Ha | lia].
Qed.

Lemma same_row_sorted (i : nat) (l : list ValidationError) :
  Forall (fun e => row_index e = Some i) l -> StronglySorted index_le l.
Proof.
  induction 1 as [|a l Ha Hl IH]; constructor; [exact IH|].
  eapply List.Forall_impl; [|exact Hl].
  intros b Hb. unfold index_le. rewrite Ha, Hb. lia.
Qed.

Lemma sorted_app (l1 l2 : list ValidationError) :
  StronglySorted index_le l1 -> StronglySorted index_le l2 ->
  (forall a b, In a l1 -> In b l2 -> index_le a b) ->
  StronglySorted index_le (l1 ++ l2).
Proof.
  induction 1 as [|a l1 Hs IH Ha]; intros H2 Hc; simpl; [exact H2|].
  constructor.
  - apply IH; [exact H2|]. intros x y Hx Hy. apply Hc; [right; exact Hx | exact Hy].
  - apply List.Forall_app. split; [exact Ha|].
    apply List.Forall_forall. intros y Hy. apply Hc; [left; reflexivity | exact Hy].
Qed.

Lemma batch_errors_sorted (rows : list row) (dt : string) :
  forall (idx : nat) (es : list ValidationError),
    batch_errors rows idx dt = Ok es -> StronglySorted index_le es.
Proof.
  induction rows as [|r rows IH]; intros idx es; simpl.
  - intros [= <-]. constructor.
  - destruct (row_errors r idx dt) as [e|x] eqn:Er; [|discriminate].
    destruct (batch_errors rows (S idx) dt) as [es'|x] eqn:Eb; [|discriminate].
    simpl. intros [= <-].
    pose proof (row_errors_at_row _ _ _ _ Er) as He.
    pose proof (batch_errors_bounds _ _ _ _ Eb) as Hes.
    apply sorted_app; [exact (same_row_sorted idx e He) | exact (IH _ _ Eb) |].
    intros a b Ha Hb.
    rewrite List.Forall_forall in He, Hes.
    destruct (Hes b Hb) as (j & Hj & Hle).
    unfold index_le. rewrite (He a Ha), Hj. lia.
Qed.

(** A row validated on its own reports the errors [row_errors] lists. *)
Lemma validate_row_alone (r : row) (i : nat) (dt : string) (errs : list ValidationError) :
  row_errors r i dt = Ok errs ->
  _validate_row r i dt (Result [] [])
  = Ok (Result errs (recommended_warnings r i dt)).
Proof.
  intros H. rewrite validate_row_spec, H. reflexivity.
Qed.

End BatchErrors.

(** X1: in the result of a non-empty batch, every error carries the
    1-based index of a row of the batch, the errors are in the order of
    the rows, and those that carry the index of a row are the errors
    that the row produces when validated on its own. *)
Theorem errors_grouped_by_row (rows : list row) (data_type : string)
    (res : DataValidator.ValidationResult) :
  DataValidator.validate_parsed_data rows data_type = Ok res ->
  rows <> [] ->
  (forall e, In e (DataValidator.errors res) ->
     exists j, DataValidator.row_index e = Some j /\ (1 <= j <= length rows)%nat) /\
  StronglySorted BatchReport.index_le (DataValidator.errors res) /\
  (forall i r, rows !! i = Some r ->
     exists res_i,
       DataValidator._validate_row r (S i) data_type (DataValidator.Result [] []) = Ok res_i /\
       List.filter (BatchReport.at_row (S i)) (DataValidator.errors res)
       = DataValidator.errors res_i).
Proof.
  intros Hval Hne. destruct rows as [|r0 rows]; [congruence|].
  rewrite validate_batch_spec in Hval.
  destruct (RowReport.batch_errors (r0 :: rows) 1 data_type) as [es|x] eqn:Eb; [|discriminate].
  injection Hval as <-. cbn [DataValidator.errors].
  split; [|split].
  - intros e He. pose proof (batch_errors_bounds _ _ _ _ Eb) as Hb.
    rewrite List.Forall_forall in Hb. destruct (Hb e He) as (j & Hj & Hle).
    exists j. split; [exact Hj | lia].
  - exact (batch_errors_sorted _ _ _ _ Eb).
  - intros i r Hi.
    destruct (batch_errors_at_row _ _ _ _ _ _ Eb Hi) as (errs & Herrs & Hf).
    change (1 + i)%nat with (S i) in *.
    eexists. split; [exact (validate_row_alone _ _ _ _ Herrs)|]. exact Hf.
Qed.

Lemma errors_grouped_by_row_witness :
  exists res,
    DataValidator.validate_parsed_data BatchReport.sample_batch "exercise" = Ok res /\
    (forall e, In e (DataValidator.errors res) ->
       exists j, DataValidator.row_index e = Some j /\
                 (1 <= j <= length BatchReport.sample_batch)%nat) /\
    StronglySorted BatchReport.index_le (DataValidator.errors res).
Proof.
  eexists. split; [vm_compute; reflexivity|].
  refine (let H := errors_grouped_by_row BatchReport.sample_batch "exercise" _ _ _ in
          conj (proj1 H) (proj1 (proj2 H))).
  - vm_compute. reflexivity.
  - discriminate.
Defined.

Section RowFields.

Import DataValidator RowReport BatchReport.

Lemma filter_andb {A} (p q : A -> bool) (l : list A) :
  List.filter (fun a => p a && q a) l = List.filter p (List.filter q l).
Proof.
  induction l as [|a l IH]; simpl; [reflexivity|].
  destruct (q a); simpl; rewrite ?andb_true_r, ?andb_false_r.
  - destruct (p a); rewrite IH; reflexivity.
  - exact IH.
Qed.

Lemma about_split (f : string) (j : nat) (l : list ValidationError) :
  List.filter (about f j) l = List.filter (on_field f) (List.filter (at_row j) l).
Proof. apply (filter_andb (on_field f) (at_row j)). Qed.

Lemma on_field_all (f : string) (l : list ValidationError) :
  Forall (fun e => field e = f) l -> List.filter (on_field f) l = l.
Proof.
  intros H. apply filter_all. eapply List.Forall_impl; [|exact H].
  intros e <-. unfold on_field. apply String.eqb_refl.
Qed.

Lemma on_field_none (f g : string) (l : list ValidationError) :
  g <> f -> Forall (fun e => field e = g) l -> List.filter (on_field f) l = [].
Proof.
  intros Hne H. apply filter_none. eapply List.Forall_impl; [|exact H].
  intros e <-. unfold on_field. apply String.eqb_neq. exact Hne.
Qed.

Lemma Forall_fst {A} (P Q : A -> Prop) (l : list A) :
  Forall (fun a => P a /\ Q a) l -> Forall P l.
Proof. intros H. eapply List.Forall_impl; [|exact H]. intros a [Ha _]. exact Ha. Qed.

Lemma required_errors_spec (r : row) (i : nat) (dt : string) :
  required_errors r i dt
  = if requires_date dt && negb (truthy (dict_get r "date"))
    then [missing_error "date" i] else [].
Proof.
  unfold required_errors, requires_date, fields_for, REQUIRED_FIELDS. cbn [List.find].
  destruct (String.eqb "meal" dt).
  - cbn [fmap option_fmap option_map snd flat_map orb andb].
    destruct (negb (truthy (dict_get r "date"))); reflexivity.
  - destruct (String.eqb "exercise" dt).
    + cbn [fmap option_fmap option_map snd flat_map orb andb].
      destruct (negb (truthy (dict_get r "date"))); reflexivity.
    + reflexivity.
Qed.

Lemma truthy_has (r : row) (k : string) :
  truthy (dict_get r k) = true -> dict_has r k = true.
Proof.
  unfold dict_get, dict_has. destruct (r !! k) as [v|] eqn:E; [|discriminate].
  intros _. apply bool_decide_eq_true. exists v. reflexivity.
Qed.

Lemma date_errors_spec (r : row) (i : nat) :
  date_errors r i
  = if truthy (dict_get r "date") && negb (_is_valid_date (dict_get r "date"))
    then [format_error i (dict_get r "date")] else [].
Proof.
  unfold date_errors. destruct (truthy (dict_get r "date")) eqn:E.
  - rewrite (truthy_has _ _ E). reflexivity.
  - rewrite andb_false_r. reflexivity.
Qed.

(** The errors of a row about its date. *)
Lemma row_errors_date (r : row) (i : nat) (dt : string) (errs : list ValidationError) :
  row_errors r i dt = Ok errs ->
  List.filter (on_field "date") errs
  = if truthy (dict_get r "date")
    then (if _is_valid_date (dict_get r "date") then []
          else [format_error i (dict_get r "date")])
    else (if requires_date dt then [missing_error "date" i] else []).
Proof.
  unfold row_errors.
  destruct (calories_errors r i) as [cal|x] eqn:Ecal; [|discriminate].
  destruct (duration_errors r i) as [dur|x] eqn:Edur; [|discriminate].
  simpl. intros [= <-].
  rewrite !List.filter_app.
  rewrite (on_field_all "date" (required_errors r i dt))
    by exact (Forall_fst _ _ _ (required_errors_shape r i dt)).
  rewrite (on_field_all "date" (date_errors r i))
    by exact (Forall_fst _ _ _ (date_errors_shape r i)).
  rewrite (on_field_none "date" "calories" cal);
    [|discriminate | exact (Forall_fst _ _ _ (number_errors_shape _ _ _ _ _ _ Ecal))].
  rewrite (on_field_none "date" "duration" dur);
    [|discriminate | exact (Forall_fst _ _ _ (number_errors_shape _ _ _ _ _ _ Edur))].
  rewrite (filter_none (on_field "date") (text_errors r i)).
  2:{ eapply List.Forall_impl; [|exact (text_errors_shape r i)].
      intros e [Hf _]. unfold on_field. apply String.eqb_neq. intros Heq.
      rewrite Heq in Hf. simpl in Hf.
      repeat (destruct Hf as [Hf|Hf]; [discriminate|]). exact Hf. }
  rewrite required_errors_spec, date_errors_spec. rewrite !app_nil_r.
  destruct (truthy (dict_get r "date")), (requires_date dt),
    (_is_valid_date (dict_get r "date")); reflexivity.
Qed.

(** The errors of a row about its duration. *)
Lemma row_errors_duration (r : row) (i : nat) (dt : string) (errs : list ValidationError) :
  row_errors r i dt = Ok errs ->
  duration_errors r i = Ok (List.filter (on_field "duration") errs).
Proof.
  unfold row_errors.
  destruct (calories_errors r i) as [cal|x] eqn:Ecal; [|discriminate].
  destruct (duration_errors r i) as [dur|x] eqn:Edur; [|discriminate].
  simpl. intros [= <-]. f_equal.
  rewrite !List.filter_app.
  rewrite (on_field_none "duration" "date" (required_errors r i dt));
    [|discriminate | exact (Forall_fst _ _ _ (required_errors_shape r i dt))].
  rewrite (on_field_none "duration" "date" (date_errors r i));
    [|discriminate | exact (Forall_fst _ _ _ (date_errors_shape r i))].
  rewrite (on_field_none "duration" "calories" cal);
    [|discriminate | exact (Forall_fst _ _ _ (number_errors_shape _ _ _ _ _ _ Ecal))].
  rewrite (on_field_all "duration" dur)
    by exact (Forall_fst _ _ _ (number_errors_shape _ _ _ _ _ _ Edur)).
  rewrite (filter_none (on_field "duration") (text_errors r i)).
  2:{ eapply List.Forall_impl; [|exact (text_errors_shape r i)].
      intros e [Hf _]. unfold on_field. apply String.eqb_neq. intros Heq.
      rewrite Heq in Hf. simpl in Hf.
      repeat (destruct Hf as [Hf|Hf]; [discriminate|]). exact Hf. }
  rewrite app_nil_r. reflexivity.
Qed.

Lemma text_errors_field (r : row) (i : nat) (f : string) :
  In f text_fields ->
  List.filter (on_field f) (text_errors r i)
  = if truthy (dict_get r f) && negb (_is_valid_text (dict_get r f) 500)
    then [text_error f i] else [].
Proof.
  intros Hf.
  assert (Hc : forall g, dict_has r g && truthy (dict_get r g)
                         && negb (_is_valid_text (dict_get r g) 500)
                         = truthy (dict_get r g) && negb (_is_valid_text (dict_get r g) 500)).
  { intros g. destruct (truthy (dict_get r g)) eqn:E.
    - rewrite (truthy_has _ _ E). reflexivity.
    - rewrite andb_false_r. reflexivity. }
  unfold text_errors, text_fields. cbn [flat_map]. rewrite !Hc.
  simpl in Hf.
  destruct Hf as [<- | [<- | [<- | [<- | [<- | []]]]]];
    repeat match goal with
           | |- context [if ?c then _ else _] => destruct c
           end; reflexivity.
Qed.

(** The errors of a row about one of its text fields. *)
Lemma row_errors_text (r : row) (i : nat) (dt : string) (errs : list ValidationError)
    (f : string) :
  In f text_fields ->
  row_errors r i dt = Ok errs ->
  List.filter (on_field f) errs
  = if truthy (dict_get r f) && negb (_is_valid_text (dict_get r f) 500)
    then [text_error f i] else [].
Proof.
  intros Hf. unfold row_errors.
  destruct (calories_errors r i) as [cal|x] eqn:Ecal; [|discriminate].
  destruct (duration_errors r i) as [dur|x] eqn:Edur; [|discriminate].
  simpl. intros [= <-].
  assert (Hd : "date"%string <> f /\ "calories"%string <> f /\ "duration"%string <> f).
  { simpl in Hf. destruct Hf as [<- | [<- | [<- | [<- | [<- | []]]]]];
      repeat split; discriminate. }
  destruct Hd as (Hd1 & Hd2 & Hd3).
  rewrite !List.filter_app.
  rewrite (on_field_none f "date" (required_errors r i dt));
    [|exact Hd1 | exact (Forall_fst _ _ _ (required_errors_shape r i dt))].
  rewrite (on_field_none f "date" (date_errors r i));
    [|exact Hd1 | exact (Forall_fst _ _ _ (date_errors_shape r i))].
  rewrite (on_field_none f "calories" cal);
    [|exact Hd2 | exact (Forall_fst _ _ _ (number_errors_shape _ _ _ _ _ _ Ecal))].
  rewrite (on_field_none f "duration" dur);
    [|exact Hd3 | exact (Forall_fst _ _ _ (number_errors_shape _ _ _ _ _ _ Edur))].
  cbn [app]. apply text_errors_field. exact Hf.
Qed.

(** The part of a validated batch that concerns one row. *)
Lemma batch_row (rows : list row) (dt : string) (res : ValidationResult) (i : nat) (r : row) :
  validate_parsed_data rows dt = Ok res ->
  rows !! i = Some r ->
  exists errs, row_errors r (S i) dt = Ok errs /\
               forall f, List.filter (about f (S i)) (errors res)
                         = List.filter (on_field f) errs.
Proof.
  intros Hval Hi. destruct rows as [|r0 rows]; [discriminate|].
  rewrite validate_batch_spec in Hval.
  destruct (batch_errors (r0 :: rows) 1 dt) as [es|x] eqn:Eb; [|discriminate].
  injection Hval as <-. cbn [errors].
  destruct (batch_errors_at_row _ _ _ _ _ _ Eb Hi) as (errs & Herrs & Hf).
  change (1 + i)%nat with (S i) in *.
  exists errs. split; [exact Herrs|].
  intros f. rewrite about_split, Hf. reflexivity.
Qed.

End RowFields.

(** X2: in every validated batch, the errors about the date of a row
    are: nothing when the date is true and one of the four formats reads
    it (or it is a native date); one InvalidFormat error when it is true
    and unreadable; one MissingRequiredField error when it is absent,
    None or empty and the kind is 'meal' or 'exercise'; nothing when it
    is absent and the kind is another one. *)
Theorem date_errors_of_row (rows : list row) (data_type : string)
    (res : DataValidator.ValidationResult) (i : nat) (r : row) :
  DataValidator.validate_parsed_data rows data_type = Ok res ->
  rows !! i = Some r ->
  List.filter (RowReport.about "date" (S i)) (DataValidator.errors res)
  = if truthy (dict_get r "date")
    then (if DataValidator._is_valid_date (dict_get r "date") then []
          else [BatchReport.format_error (S i) (dict_get r "date")])
    else (if BatchReport.requires_date data_type
          then [BatchReport.missing_error "date" (S i)] else []).
Proof.
  intros Hval Hi.
  destruct (batch_row _ _ _ _ _ Hval Hi) as (errs & Herrs & Hf).
  rewrite Hf. exact (row_errors_date _ _ _ _ Herrs).
Qed.

Lemma date_errors_of_row_witness :
  exists res r,
    DataValidator.validate_parsed_data BatchReport.sample_batch "exercise" = Ok res /\
    BatchReport.sample_batch !! 1%nat = Some r /\
    List.filter (RowReport.about "date" 2) (DataValidator.errors res)
    = if truthy (dict_get r "date")
      then (if DataValidator._is_valid_date (dict_get r "date") then []
            else [BatchReport.format_error 2 (dict_get r "date")])
      else (if BatchReport.requires_date "exercise"
            then [BatchReport.missing_error "date" 2] else []).
Proof.
  eexists. eexists.
  split; [vm_compute; reflexivity|]. split; [reflexivity|].
  apply (date_errors_of_row BatchReport.sample_batch "exercise").
  - vm_compute. reflexivity.
  - reflexivity.
Defined.

Section NumberAndText.

Import DataValidator RowReport BatchReport.

Lemma duration_errors_present (r : row) (i : nat) (v : value) (dur : list ValidationError) :
  r !! "duration"%string = Some v -> v <> VNone ->
  duration_errors r i = Ok dur ->
  (dur = [] \/ dur = [duration_error i v]) /\
  (dur <> [] <-> ~ Range.numeric v \/ Range.below v 0 \/ Range.above v 1440).
Proof.
  intros Hv Hnn. unfold duration_errors, number_errors.
  rewrite (dict_has_some _ _ _ Hv), (dict_get_some _ _ _ Hv).
  replace (is_none v) with false by (destruct v; [congruence | reflexivity ..]).
  cbn [andb negb].
  destruct (_is_valid_number v 0 1440) as [ok|x] eqn:Eok; [|discriminate].
  pose proof (is_valid_number_false _ _ _ _ Eok) as Hiff.
  destruct ok; simpl; intros [= <-].
  - split; [left; reflexivity|]. split; [congruence|].
    intros H. apply Hiff in H. discriminate.
  - split; [right; reflexivity|]. split; [|discriminate].
    intros _. apply Hiff. reflexivity.
Qed.

Lemma duration_errors_absent (r : row) (i : nat) :
  dict_get r "duration" = VNone -> duration_errors r i = Ok [].
Proof.
  intros H. unfold duration_errors, number_errors. rewrite H.
  cbn [is_none negb]. rewrite andb_false_r. reflexivity.
Qed.

Lemma is_valid_text_false (v : value) (n : nat) :
  _is_valid_text v n = false <->
  (forall s, v <> VStr s) \/ exists s, v = VStr s /\ (n < length s)%nat.
Proof.
  destruct v; simpl;
    try (split; [intros _; left; intros s0; discriminate | reflexivity]).
  split.
  - intros H. right. exists s. split; [reflexivity|]. apply Nat.leb_gt. exact H.
  - intros [H | (s0 & [= <-] & H)]; [exfalso; apply (H s); reflexivity|].
    apply Nat.leb_gt. exact H.
Qed.

End NumberAndText.

(** X3: in every validated batch, a row whose duration is absent or None
    yields no error about it, and a row whose duration is present yields
    at most one, an InvalidValue error stating the range 0-1440, which is
    there if and only if the value is not numeric, below 0 or above
    1440. *)
Theorem duration_range_check (rows : list row) (data_type : string)
    (res : DataValidator.ValidationResult) (i : nat) (r : row) :
  DataValidator.validate_parsed_data rows data_type = Ok res ->
  rows !! i = Some r ->
  (dict_get r "duration" = VNone ->
   List.filter (RowReport.about "duration" (S i)) (DataValidator.errors res) = []) /\
  (forall v, r !! "duration"%string = Some v -> v <> VNone ->
     let errs := List.filter (RowReport.about "duration" (S i)) (DataValidator.errors res) in
     (errs = [] \/ errs = [BatchReport.duration_error (S i) v]) /\
     (errs <> [] <-> ~ Range.numeric v \/ Range.below v 0 \/ Range.above v 1440)).
Proof.
  intros Hval Hi.
  destruct (batch_row _ _ _ _ _ Hval Hi) as (errs & Herrs & Hf).
  pose proof (row_errors_duration _ _ _ _ Herrs) as Hd.
  split.
  - intros Hnone. rewrite Hf. rewrite (duration_errors_absent r (S i) Hnone) in Hd.
    injection Hd as <-. reflexivity.
  - intros v Hv Hnn errs'. subst errs'. rewrite Hf.
    exact (duration_errors_present r (S i) v _ Hv Hnn Hd).
Qed.

Lemma duration_range_check_witness :
  exists res,
    DataValidator.validate_parsed_data BatchReport.sample_batch "exercise" = Ok res /\
    let errs := List.filter (RowReport.about "duration" 1) (DataValidator.errors res) in
    (errs = [] \/ errs = [BatchReport.duration_error 1 (VFloat (PyFloat.of_Z 2000))]) /\
    (errs <> [] <->
     ~ Range.numeric (VFloat (PyFloat.of_Z 2000)) \/
     Range.below (VFloat (PyFloat.of_Z 2000)) 0 \/
     Range.above (VFloat (PyFloat.of_Z 2000)) 1440).
Proof.
  eexists. split; [vm_compute; reflexivity|].
  refine (proj2 (duration_range_check BatchReport.sample_batch "exercise" _ 0%nat
                   (<["duration"%string := VFloat (PyFloat.of_Z 2000)]>
                      {["name"%string := VStr (utf8 "run")]}) _ _)
                (VFloat (PyFloat.of_Z 2000)) _ _).
  - vm_compute. reflexivity.
  - reflexivity.
  - vm_compute. reflexivity.
  - discriminate.
Defined.

(** X4: in every validated batch, a row yields at most one error about
    each of its text fields food, meal_time, exercise, name and notes, an
    InvalidValue error, which is there if and only if the value is true
    and is either not a string or a string of more than 500
    characters. *)
Theorem text_length_check (rows : list row) (data_type : string)
    (res : DataValidator.ValidationResult) (i : nat) (r : row) (f : string) :
  DataValidator.validate_parsed_data rows data_type = Ok res ->
  rows !! i = Some r ->
  In f DataValidator.text_fields ->
  let errs := List.filter (RowReport.about f (S i)) (DataValidator.errors res) in
  (errs = [] \/ errs = [BatchReport.text_error f (S i)]) /\
  (errs <> [] <->
   truthy (dict_get r f) = true /\
   ((forall s, dict_get r f <> VStr s) \/
    exists s, dict_get r f = VStr s /\ (500 < length s)%nat)).
Proof.
  intros Hval Hi Hf errs. subst errs.
  destruct (batch_row _ _ _ _ _ Hval Hi) as (errs & Herrs & Hfl).
  rewrite Hfl, (row_errors_text _ _ _ _ _ Hf Herrs).
  pose proof (is_valid_text_false (dict_get r f) 500) as Hiff.
  destruct (truthy (dict_get r f)); cbn [andb].
  - destruct (DataValidator._is_valid_text (dict_get r f) 500); cbn [negb].
    + split; [left; reflexivity|]. split; [congruence|].
      intros [_ H]. apply Hiff in H. discriminate.
    + split; [right; reflexivity|]. split; [|discriminate].
      intros _. split; [reflexivity|]. apply Hiff. reflexivity.
  - split; [left; reflexivity|]. split; [congruence|]. intros [H _]. discriminate.
Qed.

Lemma text_length_check_witness :
  exists res r,
    DataValidator.validate_parsed_data BatchReport.sample_batch "exercise" = Ok res /\
    BatchReport.sample_batch !! 1%nat = Some r /\
    let errs := List.filter (RowReport.about "name" 2) (DataValidator.errors res) in
    (errs = [] \/ errs = [BatchReport.text_error "name" 2]) /\
    (errs <> [] <->
     truthy (dict_get r "name") = true /\
     ((forall s, dict_get r "name" <> VStr s) \/
      exists s, dict_get r "name" = VStr s /\ (500 < length s)%nat)).
Proof.
  eexists. eexists.
  split; [vm_compute; reflexivity|]. split; [reflexivity|].
  apply (text_length_check BatchReport.sample_batch "exercise").
  - vm_compute. reflexivity.
  - reflexivity.
  - right. right. right. left. reflexivity.
Defined.

Section KindsAndWarnings.

Import DataValidator RowReport BatchReport.

Lemma row_errors_kinds (r : row) (i : nat) (dt : string) (errs : list ValidationError) :
  row_errors r i dt = Ok errs ->
  Forall (fun e =>
            (error_type e = MISSING_REQUIRED_FIELD /\ requires_date dt = true) \/
            error_type e = INVALID_FORMAT \/ error_type e = INVALID_VALUE) errs.
Proof.
  unfold row_errors.
  destruct (calories_errors r i) as [cal|x] eqn:Ecal; [|discriminate].
  destruct (duration_errors r i) as [dur|x] eqn:Edur; [|discriminate].
  simpl. intros [= <-].
  assert (Hnum : forall f mx prefix l,
            number_errors f mx prefix r i = Ok l ->
            Forall (fun e =>
              (error_type e = MISSING_REQUIRED_FIELD /\ requires_date dt = true) \/
              error_type e = INVALID_FORMAT \/ error_type e = INVALID_VALUE) l).
  { intros f mx prefix l. unfold number_errors.
    destruct (dict_has r f && negb (is_none (dict_get r f))).
    - destruct (_is_valid_number (dict_get r f) 0 mx) as [ok|x]; [|discriminate].
      destruct ok; simpl; intros [= <-]; [constructor|].
      constructor; [|constructor]. right. right. reflexivity.
    - intros [= <-]. constructor. }
  apply List.Forall_app. split.
  { rewrite required_errors_spec.
    destruct (requires_date dt) eqn:E; cbn [andb]; [|constructor].
    destruct (negb (truthy (dict_get r "date"))); [|constructor].
    constructor; [|constructor]. left. split; reflexivity. }
  apply List.Forall_app. split.
  { rewrite date_errors_spec. destruct (_ && _); [|constructor].
    constructor; [|constructor]. right. left. reflexivity. }
  apply List.Forall_app. split; [exact (Hnum _ _ _ _ Ecal)|].
  apply List.Forall_app. split; [exact (Hnum _ _ _ _ Edur)|].
  unfold text_errors. apply flat_map_Forall. intros f _.
  destruct (_ && _); [|constructor].
  constructor; [|constructor]. right. right. reflexivity.
Qed.

Lemma batch_errors_kinds (rows : list row) (dt : string) :
  forall (idx : nat) (es : list ValidationError),
    batch_errors rows idx dt = Ok es ->
    Forall (fun e =>
              (error_type e = MISSING_REQUIRED_FIELD /\ requires_date dt = true) \/
              error_type e = INVALID_FORMAT \/ error_type e = INVALID_VALUE) es.
Proof.
  induction rows as [|r rows IH]; intros idx es; simpl.
  - intros [= <-]. constructor.
  - destruct (row_errors r idx dt) as [e|x] eqn:Er; [|discriminate].
    destruct (batch_errors rows (S idx) dt) as [es'|x] eqn:Eb; [|discriminate].
    simpl. intros [= <-]. apply List.Forall_app. split.
    + exact (row_errors_kinds _ _ _ _ Er).
    + exact (IH _ _ Eb).
Qed.

Lemma recommended_warnings_shape (r : row) (i : nat) (dt : string) :
  (length (recommended_warnings r i dt) <= 1)%nat /\
  (requires_date dt = false -> recommended_warnings r i dt = []) /\
  Forall (fun w => exists rest, w = 34892%N :: rest) (recommended_warnings r i dt).
Proof.
  unfold recommended_warnings, requires_date, fields_for, RECOMMENDED_FIELDS.
  cbn [List.find].
  destruct (String.eqb "meal" dt); [|destruct (String.eqb "exercise" dt)];
    cbn [fmap option_fmap option_map snd orb].
  - destruct (List.filter _ _); (split; [simpl; lia|]); (split; [discriminate|]);
      [constructor|]. constructor; [|constructor]. eexists. reflexivity.
  - destruct (List.filter _ _); (split; [simpl; lia|]); (split; [discriminate|]);
      [constructor|]. constructor; [|constructor]. eexists. reflexivity.
  - split; [simpl; lia|]. split; [reflexivity | constructor].
Qed.

Lemma batch_warnings_shape (rows : list row) (dt : string) :
  forall idx,
    (length (batch_warnings rows idx dt) <= length rows)%nat /\
    (requires_date dt = false -> batch_warnings rows idx dt = []) /\
    Forall (fun w => exists rest, w = 34892%N :: rest) (batch_warnings rows idx dt).
Proof.
  induction rows as [|r rows IH]; intros idx; simpl.
  - split; [lia|]. split; [reflexivity | constructor].
  - destruct (recommended_warnings_shape r idx dt) as (Hl & Hn & Hs).
    destruct (IH (S idx)) as (Hl' & Hn' & Hs').
    split; [rewrite length_app; lia|]. split.
    + intros Hd. rewrite (Hn Hd), (Hn' Hd). reflexivity.
    + apply List.Forall_app. split; assumption.
Qed.

Lemma summary_head (n : nat) : exists rest, summary n = 25104%N :: rest.
Proof. unfold summary. eexists. reflexivity. Qed.

End KindsAndWarnings.

(** X5: the errors of a non-empty batch are MissingRequiredField,
    InvalidFormat and InvalidValue errors only: OutOfRange is never
    reported, EmptyData is reported for the empty batch alone, and
    MissingRequiredField is reported only for the kinds 'meal' and
    'exercise'; for another kind, such as the default 'general', the rows
    yield no warning either. *)
Theorem error_kinds (rows : list row) (data_type : string)
    (res : DataValidator.ValidationResult) :
  DataValidator.validate_parsed_data rows data_type = Ok res ->
  rows <> [] ->
  (forall e, In e (DataValidator.errors res) ->
     (DataValidator.error_type e = DataValidator.MISSING_REQUIRED_FIELD /\
      BatchReport.requires_date data_type = true) \/
     DataValidator.error_type e = DataValidator.INVALID_FORMAT \/
     DataValidator.error_type e = DataValidator.INVALID_VALUE) /\
  (BatchReport.requires_date data_type = false ->
   DataValidator.warnings res
   = match DataValidator.errors res with
     | [] => [RowReport.summary (length rows)]
     | _ => []
     end).
Proof.
  intros Hval Hne. destruct rows as [|r0 rows]; [congruence|].
  rewrite validate_batch_spec in Hval.
  destruct (RowReport.batch_errors (r0 :: rows) 1 data_type) as [es|x] eqn:Eb; [|discriminate].
  injection Hval as <-. cbn [DataValidator.errors DataValidator.warnings].
  split.
  - intros e He. pose proof (batch_errors_kinds _ _ _ _ Eb) as Hk.
    rewrite List.Forall_forall in Hk. exact (Hk e He).
  - intros Hd. destruct (batch_warnings_shape (r0 :: rows) data_type 1) as (_ & Hn & _).
    specialize (Hn Hd). cbn [RowReport.batch_warnings] in Hn. rewrite Hn. reflexivity.
Qed.

Lemma error_kinds_witness :
  exists res,
    DataValidator.validate_parsed_data BatchReport.sample_batch "general" = Ok res /\
    (forall e, In e (DataValidator.errors res) ->
       (DataValidator.error_type e = DataValidator.MISSING_REQUIRED_FIELD /\
        BatchReport.requires_date "general" = true) \/
       DataValidator.error_type e = DataValidator.INVALID_FORMAT \/
       DataValidator.error_type e = DataValidator.INVALID_VALUE) /\
    (BatchReport.requires_date "general" = false ->
     DataValidator.warnings res
     = match DataValidator.errors res with
       | [] => [RowReport.summary (length BatchReport.sample_batch)]
       | _ => []
       end).
Proof.
  eexists. split; [vm_compute; reflexivity|].
  apply (error_kinds BatchReport.sample_batch "general").
  - vm_compute. reflexivity.
  - discriminate.
Defined.

(** X6: in the result of a non-empty batch, the closing summary is among
    the warnings if and only if there is no error; each row adds at most
    one warning, so there are at most as many warnings as rows, plus the
    summary. *)
Theorem summary_iff_no_error (rows : list row) (data_type : string)
    (res : DataValidator.ValidationResult) :
  DataValidator.validate_parsed_data rows data_type = Ok res ->
  rows <> [] ->
  (In (RowReport.summary (length rows)) (DataValidator.warnings res)
   <-> DataValidator.errors res = []) /\
  (DataValidator.is_valid res = true <-> DataValidator.errors res = []) /\
  (length (DataValidator.warnings res)
   <= length rows + (if DataValidator.is_valid res then 1 else 0))%nat.
Proof.
  intros Hval Hne. destruct rows as [|r0 rows]; [congruence|].
  rewrite validate_batch_spec in Hval.
  destruct (RowReport.batch_errors (r0 :: rows) 1 data_type) as [es|x] eqn:Eb; [|discriminate].
  injection Hval as <-.
  cbn [DataValidator.errors DataValidator.warnings DataValidator.is_valid].
  destruct (batch_warnings_shape (r0 :: rows) data_type 1) as (Hl & _ & Hs).
  change (RowReport.recommended_warnings r0 1 data_type
          ++ RowReport.batch_warnings rows 2 data_type)
    with (RowReport.batch_warnings (r0 :: rows) 1 data_type).
  split; [|split].
  - split.
    + intros Hin. apply in_app_or in Hin. destruct Hin as [Hin | Hin].
      * rewrite List.Forall_forall in Hs. destruct (Hs _ Hin) as (rest & Hrest).
        destruct (summary_head (length (r0 :: rows))) as (rest' & Hrest').
        rewrite Hrest' in Hrest. discriminate.
      * destruct es; [reflexivity | destruct Hin].
    + intros ->. apply in_or_app. right. left. reflexivity.
  - destruct es; cbn [length Nat.eqb]; split; intros H; try reflexivity; discriminate.
  - rewrite length_app.
    set (ws := RowReport.batch_warnings (r0 :: rows) 1 data_type) in *.
    destruct es; simpl in *; lia.
Qed.

Lemma summary_iff_no_error_witness :
  exists res,
    DataValidator.validate_parsed_data [ValidatorSpec.dated_row] "meal" = Ok res /\
    (In (RowReport.summary 1) (DataValidator.warnings res)
     <-> DataValidator.errors res = []) /\
    (DataValidator.is_valid res = true <-> DataValidator.errors res = []) /\
    (length (DataValidator.warnings res)
     <= 1 + (if DataValidator.is_valid res then 1 else 0))%nat.
Proof.
  eexists. split; [vm_compute; reflexivity|].
  apply (summary_iff_no_error [ValidatorSpec.dated_row] "meal").
  - vm_compute. reflexivity.
  - discriminate.
Defined.

(** ** Format sniffer: acceptance *)

Section Sniffer.

Import FileValidator FileHelpers.

Lemma find_none_existsb {A} (p : A -> bool) (l : list A) :
  List.find p l = None <-> existsb p l = false.
Proof.
  induction l as [|a l IH]; simpl; [tauto|].
  destruct (p a); simpl; [split; discriminate | exact IH].
Qed.

Lemma find_some_existsb {A} (p : A -> bool) (l : list A) (a : A) :
  List.find p l = Some a -> existsb p l = true.
Proof.
  intros H. destruct (existsb p l) eqn:E; [reflexivity|].
  apply find_none_existsb in E. congruence.
Qed.

Lemma security_check_true (env : file_env) (file_path : pystr) :
  _security_check env file_path = (true, None) <->
  existsb (fun ch => contains (utf8 ch) file_path) dangerous_chars = false /\
  access_R_OK env = true /\ access_X_OK env = false.
Proof.
  unfold _security_check.
  destruct (List.find (fun ch => contains (utf8 ch) file_path) dangerous_chars)
    as [ch|] eqn:Ef.
  - split; [discriminate|]. intros (H & _).
    rewrite (find_some_existsb _ _ _ Ef) in H. discriminate.
  - apply find_none_existsb in Ef.
    destruct (access_R_OK env), (access_X_OK env); cbn [negb].
    + split; [discriminate | intros (_ & _ & H); discriminate].
    + split; [intros _; repeat split; exact Ef | reflexivity].
    + split; [discriminate | intros (_ & H & _); discriminate].
    + split; [discriminate | intros (_ & H & _); discriminate].
Qed.

Lemma security_check_shape (env : file_env) (file_path : pystr) :
  _security_check env file_path = (true, None) \/
  exists msg, _security_check env file_path = (false, Some msg).
Proof.
  unfold _security_check.
  destruct (List.find _ dangerous_chars); [right; eexists; reflexivity|].
  destruct (access_R_OK env); cbn [negb]; [|right; eexists; reflexivity].
  destruct (access_X_OK env); [right; eexists; reflexivity | left; reflexivity].
Qed.

Lemma detect_type_known (ext : pystr) (t : string) :
  _detect_type_by_extension ext = Some t -> t = "excel"%string \/ t = "pdf"%string.
Proof.
  unfold _detect_type_by_extension, SUPPORTED_TYPES. cbn [List.find extensions].
  destruct (existsb _ [".xlsx"; ".xls"]%string); [intros [= <-]; left; reflexivity|].
  destruct (existsb _ [".pdf"%string]); [intros [= <-]; right; reflexivity|].
  discriminate.
Qed.

(** The verdict of [validate_file] is an acceptance with a type and no
    message, or a rejection with a message and no type. *)
Lemma verdict_shape (max_size : Z) (env : file_env) (file_path : pystr) :
  (exists t, FileValidator.validate_file max_size env file_path = (true, Some t, None)) \/
  (exists msg, FileValidator.validate_file max_size env file_path = (false, None, Some msg)).
Proof.
  unfold FileValidator.validate_file, reject.
  destruct (negb (path_exists env)); [right; eexists; reflexivity|].
  destruct (negb (path_isfile env)); [right; eexists; reflexivity|].
  destruct (getsize env <? MIN_FILE_SIZE); [right; eexists; reflexivity|].
  destruct (max_size <? getsize env); [right; eexists; reflexivity|].
  destruct (_detect_type_by_extension (lower (suffix file_path))) as [t|];
    [|right; eexists; reflexivity].
  destruct (negb (_validate_magic_number env t)); [right; eexists; reflexivity|].
  match goal with
  | |- context [match ?m with Some _ => _ | None => _ end] =>
      destruct m; [right; eexists; reflexivity|]
  end.
  destruct (security_check_shape env file_path) as [-> | (msg & ->)].
  - left. eexists. reflexivity.
  - right. eexists. reflexivity.
Qed.

Lemma accepted_type_known (max_size : Z) (env : file_env) (file_path : pystr)
    (t : string) :
  FileValidator.validate_file max_size env file_path = (true, Some t, None) ->
  t = "excel"%string \/ t = "pdf"%string.
Proof.
  unfold FileValidator.validate_file, reject.
  destruct (negb (path_exists env)); [discriminate|].
  destruct (negb (path_isfile env)); [discriminate|].
  destruct (getsize env <? MIN_FILE_SIZE); [discriminate|].
  destruct (max_size <? getsize env); [discriminate|].
  destruct (_detect_type_by_extension (lower (suffix file_path))) as [t'|] eqn:Ed;
    [|discriminate].
  destruct (negb (_validate_magic_number env t')); [discriminate|].
  match goal with
  | |- context [match ?m with Some _ => _ | None => _ end] =>
      destruct m; [discriminate|]
  end.
  destruct (_security_check env file_path) as [[] ?]; [|discriminate].
  intros [= <-]. exact (detect_type_known _ _ Ed).
Qed.

End Sniffer.

(** X7: [validate_file] accepts a file with the type t exactly when the
    path exists and is a regular file, its size lies between 100 bytes
    and the limit, its lower-cased extension belongs to t, its first
    bytes begin with a signature of t, the MIME sniff is unavailable,
    raises or answers a MIME type of t, the path holds none of the
    dangerous character sequences, and the file is readable and not
    executable; t is then 'excel' or 'pdf'. *)
Theorem acceptance_characterized (max_size : Z) (env : FileValidator.file_env)
    (file_path : pystr) (t : string) :
  FileValidator.validate_file max_size env file_path = (true, Some t, None)
  <-> FileHelpers.passes_all max_size env file_path t.
Proof.
  unfold FileHelpers.passes_all, FileValidator.validate_file, FileValidator.reject.
  destruct (FileValidator.path_exists env); cbn [negb];
    [|split; [discriminate | intros (H & _); discriminate]].
  destruct (FileValidator.path_isfile env); cbn [negb];
    [|split; [discriminate | intros (_ & H & _); discriminate]].
  destruct (Z.ltb_spec (FileValidator.getsize env) FileValidator.MIN_FILE_SIZE) as [Hlo|Hlo];
    [split; [discriminate | intros (_ & _ & [H _] & _); lia]|].
  destruct (Z.ltb_spec max_size (FileValidator.getsize env)) as [Hhi|Hhi];
    [split; [discriminate | intros (_ & _ & [_ H] & _); lia]|].
  destruct (FileValidator._detect_type_by_extension
              (lower (FileValidator.suffix file_path))) as [t'|];
    [|split; [discriminate | intros (_ & _ & _ & H & _); discriminate]].
  destruct (FileValidator._validate_magic_number env t') eqn:Em; cbn [negb].
  2:{ split; [discriminate|]. intros (_ & _ & _ & [= ->] & H & _). congruence. }
  pose proof (security_check_true env file_path) as Hsec.
  destruct (FileValidator.HAS_MAGIC env) eqn:Eh.
  - destruct (FileValidator.magic_from_file env) as [mime|] eqn:Es.
    + destruct (FileValidator._validate_mime_type mime t') eqn:Ev; cbn [negb].
      * destruct (security_check_shape env file_path) as [E | (msg & E)]; rewrite E.
        -- split.
           ++ intros [= <-]. repeat split; try assumption; try reflexivity.
              ** right. right. exists mime. split; [reflexivity | exact Ev].
              ** apply Hsec. exact E.
              ** apply Hsec. exact E.
              ** apply Hsec. exact E.
           ++ intros (_ & _ & _ & [= ->] & _). reflexivity.
        -- split; [discriminate|].
           intros (_ & _ & _ & _ & _ & _ & H1 & H2 & H3).
           assert (Ht : FileValidator._security_check env file_path = (true, None))
             by (apply Hsec; repeat split; assumption).
           congruence.
      * split; [discriminate|].
        intros (_ & _ & _ & [= ->] & _ & [H | [H | (m & [= <-] & H)]] & _);
          congruence.
    + destruct (security_check_shape env file_path) as [E | (msg & E)]; rewrite E.
      * split.
        -- intros [= <-]. repeat split; try assumption; try reflexivity.
           ++ right. left. reflexivity.
           ++ apply Hsec. exact E.
           ++ apply Hsec. exact E.
           ++ apply Hsec. exact E.
        -- intros (_ & _ & _ & [= ->] & _). reflexivity.
      * split; [discriminate|].
        intros (_ & _ & _ & _ & _ & _ & H1 & H2 & H3).
        assert (Ht : FileValidator._security_check env file_path = (true, None))
          by (apply Hsec; repeat split; assumption).
        congruence.
  - destruct (security_check_shape env file_path) as [E | (msg & E)]; rewrite E.
    + split.
      * intros [= <-]. repeat split; try assumption; try reflexivity.
        -- left. reflexivity.
        -- apply Hsec. exact E.
        -- apply Hsec. exact E.
        -- apply Hsec. exact E.
      * intros (_ & _ & _ & [= ->] & _). reflexivity.
    + split; [discriminate|].
      intros (_ & _ & _ & _ & _ & _ & H1 & H2 & H3).
      assert (Ht : FileValidator._security_check env file_path = (true, None))
        by (apply Hsec; repeat split; assumption).
      congruence.
Qed.

Lemma acceptance_characterized_witness :
  FileValidator.validate_file FileValidator.MAX_FILE_SIZE
    FileHelpers.pdf_env FileHelpers.pdf_path = (true, Some "pdf"%string, None).
Proof.
  apply (proj2 (acceptance_characterized FileValidator.MAX_FILE_SIZE
                  FileHelpers.pdf_env FileHelpers.pdf_path "pdf")).
  unfold FileHelpers.passes_all.
  repeat split; try (vm_compute; congruence).
  left. reflexivity.
Defined.

(** X8: the helpers agree with the verdict: [get_file_type] returns a
    type, 'excel' or 'pdf', exactly when [is_valid_file] is true, and
    that is exactly when [validate_file] with the default limit accepts
    the file with that type; a rejection always carries a message and no
    type; a limit of 0 stands for the default limit of 10 MiB. *)
Theorem helpers_agree (env : FileValidator.file_env) (file_path : pystr) :
  (forall t, FileHelpers.get_file_type env file_path = Some t <->
             FileValidator.validate_file FileValidator.MAX_FILE_SIZE env file_path
             = (true, Some t, None)) /\
  (FileHelpers.is_valid_file env file_path = true <->
   exists t, FileHelpers.get_file_type env file_path = Some t /\
             (t = "excel"%string \/ t = "pdf"%string)) /\
  (FileHelpers.is_valid_file env file_path = false <->
   exists msg, FileValidator.validate_file FileValidator.MAX_FILE_SIZE env file_path
               = (false, None, Some msg)) /\
  FileHelpers.validate_file (Some 0) env file_path
  = FileHelpers.validate_file None env file_path.
Proof.
  unfold FileHelpers.get_file_type, FileHelpers.is_valid_file, FileHelpers.validate_file,
    FileValidator.validate.
  destruct (verdict_shape FileValidator.MAX_FILE_SIZE env file_path)
    as [(t0 & E) | (msg & E)].
  - pose proof (accepted_type_known _ _ _ _ E) as Ht.
    cbn [Z.eqb]. rewrite E.
    split; [intros t; split; congruence|].
    split; [split; [intros _; exists t0; split; [reflexivity | exact Ht] | reflexivity]|].
    split; [split; [discriminate | intros (m & H); discriminate] | reflexivity].
  - cbn [Z.eqb]. rewrite E.
    split; [intros t; split; congruence|].
    split; [split; [discriminate | intros (t & H & _); discriminate]|].
    split; [split; [intros _; exists msg; reflexivity | reflexivity] | reflexivity].
Qed.

(** ** Format sniffer: what an accepted file looks like *)

Section AcceptedFile.

Import FileValidator FileHelpers.

Lemma str_eqb_eq (a b : pystr) : str_eqb a b = true <-> a = b.
Proof.
  revert b. induction a as [|x a IH]; intros [|y b]; simpl;
    try (split; [discriminate | congruence]); [tauto|].
  unfold chr_eqb. rewrite andb_true_iff, N.eqb_eq, IH.
  split; [intros [-> ->]; reflexivity | intros [= -> ->]; split; reflexivity].
Qed.

Lemma starts_with_app (p s : pystr) :
  starts_with p s = true <-> exists rest, s = p ++ rest.
Proof.
  revert s. induction p as [|x p IH]; intros s; simpl.
  - split; [intros _; exists s; reflexivity | reflexivity].
  - destruct s as [|y s]; [split; [discriminate | intros (r & H); discriminate]|].
    unfold chr_eqb. rewrite andb_true_iff, N.eqb_eq, IH. split.
    + intros (-> & r & ->). exists r. reflexivity.
    + intros (r & [= -> ->]). split; [reflexivity | exists r; reflexivity].
Qed.

Lemma contains_app (p s : pystr) :
  contains p s = true <-> exists pre post, s = pre ++ p ++ post.
Proof.
  induction s as [|c s IH].
  - simpl. rewrite orb_false_r, starts_with_app. split.
    + intros (r & H). exists [], r. exact H.
    + intros (pre & post & H). destruct pre; [exists post; exact H | discriminate].
  - cbn [contains]. rewrite orb_true_iff, starts_with_app, IH. split.
    + intros [(r & H) | (pre & post & H)].
      * exists [], r. exact H.
      * exists (c :: pre), post. rewrite H. reflexivity.
    + intros (pre & post & H). destruct pre as [|c' pre].
      * left. exists post. exact H.
      * right. injection H as _ H. exists pre, post. exact H.
Qed.

Lemma accepted_passes (max_size : Z) (env : file_env) (file_path : pystr) (t : string) :
  FileValidator.validate_file max_size env file_path = (true, Some t, None) ->
  passes_all max_size env file_path t.
Proof.
  unfold passes_all, FileValidator.validate_file, reject.
  destruct (path_exists env); cbn [negb]; [|discriminate].
  destruct (path_isfile env); cbn [negb]; [|discriminate].
  destruct (Z.ltb_spec (getsize env) MIN_FILE_SIZE) as [Hlo|Hlo]; [discriminate|].
  destruct (Z.ltb_spec max_size (getsize env)) as [Hhi|Hhi]; [discriminate|].
  destruct (_detect_type_by_extension (lower (suffix file_path))) as [t'|];
    [|discriminate].
  destruct (_validate_magic_number env t') eqn:Em; cbn [negb]; [|discriminate].
  intros H.
  assert (Hm : HAS_MAGIC env = false \/ magic_from_file env = None \/
               exists mime, magic_from_file env = Some mime /\
                            _validate_mime_type mime t' = true).
  { destruct (HAS_MAGIC env); [|left; reflexivity].
    destruct (magic_from_file env) as [mime|]; [|right; left; reflexivity].
    destruct (_validate_mime_type mime t') eqn:Ev; [|discriminate].
    right. right. exists mime. split; [reflexivity | exact Ev]. }
  assert (Hs : _security_check env file_path = (true, None) /\ t' = t).
  { destruct (HAS_MAGIC env).
    - destruct (magic_from_file env) as [mime|].
      + destruct (_validate_mime_type mime t'); cbn [negb] in H; [|discriminate].
        destruct (security_check_shape env file_path) as [E | (msg & E)];
          rewrite E in H; [|discriminate].
        injection H as <-. split; [exact E | reflexivity].
      + destruct (security_check_shape env file_path) as [E | (msg & E)];
          rewrite E in H; [|discriminate].
        injection H as <-. split; [exact E | reflexivity].
    - destruct (security_check_shape env file_path) as [E | (msg & E)];
        rewrite E in H; [|discriminate].
      injection H as <-. split; [exact E | reflexivity]. }
  destruct Hs as (Hs & <-). apply security_check_true in Hs.
  destruct Hs as (H1 & H2 & H3).
  repeat split; try assumption; try reflexivity.
Qed.

Lemma detect_type_spec (ext : pystr) (t : string) :
  _detect_type_by_extension ext = Some t ->
  (t = "excel"%string /\ (ext = utf8 ".xlsx" \/ ext = utf8 ".xls")) \/
  (t = "pdf"%string /\ ext = utf8 ".pdf").
Proof.
  unfold _detect_type_by_extension, SUPPORTED_TYPES.
  cbn [List.find extensions existsb].
  destruct (str_eqb ext (utf8 ".xlsx")) eqn:E1.
  { intros [= <-]. left. split; [reflexivity|]. left. apply str_eqb_eq. exact E1. }
  destruct (str_eqb ext (utf8 ".xls")) eqn:E2.
  { intros [= <-]. left. split; [reflexivity|]. right. apply str_eqb_eq. exact E2. }
  destruct (str_eqb ext (utf8 ".pdf")) eqn:E3.
  { intros [= <-]. right. split; [reflexivity|]. apply str_eqb_eq. exact E3. }
  discriminate.
Qed.

End AcceptedFile.

(** X9: a file that [validate_file] accepts has content and name that
    agree: its first bytes are read and begin with the ZIP or the OLE2
    signature when the type is 'excel' (the extension being .xlsx or
    .xls, in any letter case), and with %PDF when the type is 'pdf' (the
    extension being .pdf); its path contains none of the sequences
    '..', '~', '$', '`', '|', ';', '&'. *)
Theorem accepted_file_content (max_size : Z) (env : FileValidator.file_env)
    (file_path : pystr) (t : string) :
  FileValidator.validate_file max_size env file_path = (true, Some t, None) ->
  (exists sig rest,
     FileValidator.read_header env = Some (sig ++ rest) /\
     ((t = "excel"%string /\
       (lower (FileValidator.suffix file_path) = utf8 ".xlsx" \/
        lower (FileValidator.suffix file_path) = utf8 ".xls") /\
       (sig = [80; 75; 3; 4]%N \/ sig = [208; 207; 17; 224; 161; 177; 26; 225]%N)) \/
      (t = "pdf"%string /\
       lower (FileValidator.suffix file_path) = utf8 ".pdf" /\
       sig = [37; 80; 68; 70]%N))) /\
  (forall ch pre post, In ch FileValidator.dangerous_chars ->
                       file_path <> pre ++ utf8 ch ++ post).
Proof.
  intros H. apply accepted_passes in H.
  destruct H as (_ & _ & _ & Hd & Hm & _ & Hs & _).
  split.
  - apply detect_type_spec in Hd.
    unfold FileValidator._validate_magic_number in Hm.
    destruct (FileValidator.read_header env) as [header|]; [|discriminate].
    destruct Hd as [(-> & He) | (-> & He)].
    + cbn [FileValidator.config_of FileValidator.SUPPORTED_TYPES List.find String.eqb
           Ascii.eqb Bool.eqb fmap option_fmap option_map snd
           FileValidator.magic_numbers existsb] in Hm.
      rewrite orb_false_r, orb_true_iff in Hm.
      destruct Hm as [Hm | Hm]; apply starts_with_app in Hm; destruct Hm as (rest & ->).
      * exists [80; 75; 3; 4]%N, rest. split; [reflexivity|].
        left. split; [reflexivity|]. split; [exact He | left; reflexivity].
      * exists [208; 207; 17; 224; 161; 177; 26; 225]%N, rest. split; [reflexivity|].
        left. split; [reflexivity|]. split; [exact He | right; reflexivity].
    + cbn [FileValidator.config_of FileValidator.SUPPORTED_TYPES List.find String.eqb
           Ascii.eqb Bool.eqb fmap option_fmap option_map snd
           FileValidator.magic_numbers existsb] in Hm.
      rewrite orb_false_r in Hm.
      apply starts_with_app in Hm; destruct Hm as (rest & ->).
      exists [37; 80; 68; 70]%N, rest. split; [reflexivity|].
      right. split; [reflexivity|]. split; [exact He | reflexivity].
  - intros ch pre post Hin ->.
    assert (Hc : existsb (fun c => contains (utf8 c) (pre ++ utf8 ch ++ post))
                         FileValidator.dangerous_chars = true).
    { apply existsb_exists. exists ch. split; [exact Hin|].
      apply contains_app. exists pre, post. reflexivity. }
    rewrite Hc in Hs. discriminate.
Qed.

Lemma accepted_file_content_witness :
  exists sig rest,
    FileValidator.read_header FileHelpers.pdf_env = Some (sig ++ rest) /\
    sig = [37; 80; 68; 70]%N.
Proof.
  destruct (accepted_file_content FileValidator.MAX_FILE_SIZE FileHelpers.pdf_env
              FileHelpers.pdf_path "pdf" ltac:(vm_compute; reflexivity))
    as ((sig & rest & Hh & [(Ht & _) | (_ & _ & Hs)]) & _).
  - discriminate Ht.
  - exists sig, rest. split; [exact Hh | exact Hs].
Defined.

(** ** Tabular extractor: the header row *)

Section Header.

Import ExcelParser HeaderSpec.

Lemma combine_app_eq {A B} (l1 l2 : list A) (k1 k2 : list B) :
  length l1 = length k1 ->
  combine (l1 ++ l2) (k1 ++ k2) = combine l1 k1 ++ combine l2 k2.
Proof.
  revert k1. induction l1 as [|a l1 IH]; intros [|b k1] H; try discriminate.
  - reflexivity.
  - cbn [app combine]. rewrite IH by (injection H as H; exact H). reflexivity.
Qed.

Lemma map_columns_fold (hr : list value) (idx : nat) :
  _map_columns hr idx
  = fold_left map_step (combine (List.seq 1 (length hr)) hr) {["header_row"%string := idx]}.
Proof.
  unfold _map_columns. f_equal.
Qed.

Lemma map_columns_snoc (l : list value) (x : value) (idx : nat) :
  _map_columns (l ++ [x]) idx = map_step (_map_columns l idx) (S (length l), x).
Proof.
  rewrite !map_columns_fold, length_app. cbn [length].
  replace (length l + 1)%nat with (S (length l)) by lia.
  rewrite seq_S.
  rewrite combine_app_eq by (rewrite length_seq; reflexivity).
  rewrite fold_left_app. reflexivity.
Qed.

Lemma match_field_known (s : pystr) (f : string) :
  match_field s = Some f -> In f (List.map fst COLUMN_KEYWORDS).
Proof.
  unfold match_field. destruct (List.find _ COLUMN_KEYWORDS) as [[g kws]|] eqn:E;
    [|discriminate].
  intros [= <-]. apply List.find_some in E. destruct E as (E & _).
  apply (in_map fst) in E. exact E.
Qed.

Lemma match_field_not_header (s : pystr) : match_field s <> Some "header_row"%string.
Proof.
  intros H. apply match_field_known in H. vm_compute in H.
  repeat (destruct H as [H|H]; [discriminate|]). exact H.
Qed.

Lemma map_columns_lookup_snoc (l : list value) (x : value) (idx : nat) (f : string) :
  f <> "header_row"%string ->
  _map_columns (l ++ [x]) idx !! f
  = if maps_to f x then Some (S (length l)) else _map_columns l idx !! f.
Proof.
  intros Hf. rewrite map_columns_snoc. unfold map_step, maps_to.
  destruct (truthy x); cbn [andb]; [|reflexivity].
  destruct (match_field (lower (Py.str x))) as [g|] eqn:Eg.
  - destruct (decide (g = f)) as [->|Hne].
    + rewrite bool_decide_eq_true_2 by reflexivity. apply lookup_insert_eq.
    + rewrite bool_decide_eq_false_2 by congruence. apply lookup_insert_ne. exact Hne.
  - rewrite bool_decide_eq_false_2 by congruence. reflexivity.
Qed.

Lemma map_columns_header (hr : list value) (idx : nat) :
  _map_columns hr idx !! "header_row"%string = Some idx.
Proof.
  induction hr as [|x l IH] using rev_ind.
  - reflexivity.
  - rewrite map_columns_snoc. unfold map_step.
    destruct (truthy x); [|exact IH].
    destruct (match_field (lower (Py.str x))) as [g|] eqn:Eg; [|exact IH].
    rewrite lookup_insert_ne; [exact IH|].
    intros ->. exact (match_field_not_header _ Eg).
Qed.

Lemma map_columns_rightmost_aux (hr : list value) (idx : nat) (f : string) (c : nat) :
  f <> "header_row"%string ->
  (_map_columns hr idx !! f = Some c <->
   exists i v, c = S i /\ hr !! i = Some v /\ maps_to f v = true /\
               forall j w, (i < j)%nat -> hr !! j = Some w -> maps_to f w = false).
Proof.
  intros Hf. induction hr as [|x l IH] using rev_ind.
  - unfold _map_columns. cbn [length List.seq combine fold_left].
    rewrite lookup_singleton_ne by congruence.
    split; [discriminate | intros (i & v & _ & H & _); discriminate].
  - rewrite map_columns_lookup_snoc by exact Hf.
    destruct (maps_to f x) eqn:Ex.
    + split.
      * intros [= <-]. exists (length l), x. split; [reflexivity|].
        split; [apply list_lookup_middle; reflexivity|]. split; [exact Ex|].
        intros j w Hj Hw. apply lookup_lt_Some in Hw.
        rewrite length_app in Hw. cbn [length] in Hw. lia.
      * intros (i & v & -> & Hv & _ & Hlater).
        pose proof (lookup_lt_Some _ _ _ Hv) as Hlt.
        rewrite length_app in Hlt. cbn [length] in Hlt.
        destruct (decide (i = length l)) as [->|Hne]; [reflexivity|].
        assert (Hx : (l ++ [x]) !! length l = Some x)
          by (apply list_lookup_middle; reflexivity).
        specialize (Hlater (length l) x ltac:(lia) Hx). congruence.
    + rewrite IH. split.
      * intros (i & v & -> & Hv & Hm & Hlater). exists i, v.
        split; [reflexivity|].
        split; [rewrite lookup_app_l by (eapply lookup_lt_Some; exact Hv); exact Hv|].
        split; [exact Hm|].
        intros j w Hj Hw.
        destruct (decide (j < length l)%nat) as [Hlt|Hge].
        -- rewrite lookup_app_l in Hw by exact Hlt. exact (Hlater j w Hj Hw).
        -- pose proof (lookup_lt_Some _ _ _ Hw) as Hlt.
           rewrite length_app in Hlt. cbn [length] in Hlt.
           assert (j = length l) as -> by lia.
           rewrite list_lookup_middle in Hw by reflexivity. congruence.
      * intros (i & v & -> & Hv & Hm & Hlater).
        pose proof (lookup_lt_Some _ _ _ Hv) as Hlt.
        rewrite length_app in Hlt. cbn [length] in Hlt.
        destruct (decide (i = length l)) as [->|Hne].
        { rewrite list_lookup_middle in Hv by reflexivity. congruence. }
        assert (Hi : (i < length l)%nat) by lia.
        rewrite lookup_app_l in Hv by exact Hi.
        exists i, v. split; [reflexivity|]. split; [exact Hv|]. split; [exact Hm|].
        intros j w Hj Hw. apply (Hlater j w Hj).
        rewrite lookup_app_l by (eapply lookup_lt_Some; exact Hw). exact Hw.
Qed.

Lemma map_columns_nonempty (hr : list value) (idx : nat) : _map_columns hr idx <> ∅.
Proof.
  intros H. pose proof (map_columns_header hr idx) as Hh.
  rewrite H in Hh. rewrite lookup_empty in Hh. discriminate.
Qed.

End Header.

(** X10: in the column mapping built from a header row, a field is
    bound to the right-most column whose header cell selects it (columns
    counted from 1): when two header cells select the same field, the
    later one replaces the earlier.  The key header_row always keeps the
    index of the header row, and every column index lies within the
    header. *)
Theorem map_columns_rightmost (header_row : list value) (row_idx : nat)
    (f : string) (c : nat) :
  f <> "header_row"%string ->
  (ExcelParser._map_columns header_row row_idx !! f = Some c <->
   exists i v, c = S i /\ header_row !! i = Some v /\ HeaderSpec.maps_to f v = true /\
               forall j w, (i < j)%nat -> header_row !! j = Some w ->
                           HeaderSpec.maps_to f w = false) /\
  (ExcelParser._map_columns header_row row_idx !! f = Some c ->
   (1 <= c <= length header_row)%nat) /\
  ExcelParser._map_columns header_row row_idx !! "header_row"%string = Some row_idx.
Proof.
  intros Hf. split; [exact (map_columns_rightmost_aux header_row row_idx f c Hf)|].
  split; [|apply map_columns_header].
  intros H. apply (map_columns_rightmost_aux header_row row_idx f c Hf) in H.
  destruct H as (i & v & -> & Hv & _). apply lookup_lt_Some in Hv. lia.
Qed.

Lemma map_columns_rightmost_witness :
  ExcelParser._map_columns HeaderSpec.two_dates 1 !! "date"%string = Some 3%nat.
Proof.
  apply (proj1 (map_columns_rightmost HeaderSpec.two_dates 1 "date" 3
                  ltac:(discriminate))).
  exists 2%nat, (VStr (utf8 "用餐时间")).
  split; [reflexivity|]. split; [reflexivity|]. split; [vm_compute; reflexivity|].
  intros j w Hj Hw. apply lookup_lt_Some in Hw. vm_compute in Hw. lia.
Defined.

(** ** Tabular extractor: keywords, header search and data rows *)

Section HeaderSearch.

Import ExcelParser HeaderSpec.

Lemma contains_trans (p q s : pystr) :
  contains p q = true -> contains q s = true -> contains p s = true.
Proof.
  rewrite !contains_app. intros (a & b & ->) (pre & post & ->).
  exists (pre ++ a), (b ++ post). rewrite <- !app_assoc. reflexivity.
Qed.

Lemma has_keyword_covered (ks ks' : list string) (s : pystr) :
  forallb (fun k => existsb (fun k' => contains (lower (utf8 k')) (lower (utf8 k))) ks') ks
  = true ->
  has_keyword ks s = true -> has_keyword ks' s = true.
Proof.
  unfold has_keyword. rewrite forallb_forall, !existsb_exists.
  intros Hcov (k & Hk & Hc). specialize (Hcov k Hk).
  apply existsb_exists in Hcov. destruct Hcov as (k' & Hk' & Hc').
  exists k'. split; [exact Hk'|]. exact (contains_trans _ _ _ Hc' Hc).
Qed.

Lemma has_keyword_app (ks ks' : list string) (s : pystr) :
  has_keyword (ks ++ ks') s = has_keyword ks s || has_keyword ks' s.
Proof. unfold has_keyword. apply existsb_app. Qed.

Lemma scan_seq_none (ws : worksheet) (n a : nat) :
  (forall r, (a <= r < a + n)%nat -> _is_header_row (iter_row ws r) = false) ->
  scan_header ws (List.seq a n) = ∅.
Proof.
  revert a. induction n as [|n IH]; intros a H; [reflexivity|].
  cbn [List.seq scan_header]. rewrite (H a) by lia.
  apply IH. intros r Hr. apply H. lia.
Qed.

Lemma scan_seq_first (ws : worksheet) (n a h : nat) :
  (a <= h < a + n)%nat ->
  _is_header_row (iter_row ws h) = true ->
  (forall r, (a <= r < h)%nat -> _is_header_row (iter_row ws r) = false) ->
  scan_header ws (List.seq a n) = _map_columns (iter_row ws h) h.
Proof.
  revert a. induction n as [|n IH]; intros a Hh Ht Hf; [lia|].
  cbn [List.seq scan_header].
  destruct (decide (a = h)) as [->|Hne].
  - rewrite Ht. reflexivity.
  - rewrite (Hf a) by lia. apply IH; [lia | exact Ht |].
    intros r Hr. apply Hf. lia.
Qed.

Lemma scan_seq_cases (ws : worksheet) (n a : nat) :
  scan_header ws (List.seq a n) = ∅ \/
  exists h, (a <= h < a + n)%nat /\
            scan_header ws (List.seq a n) = _map_columns (iter_row ws h) h.
Proof.
  revert a. induction n as [|n IH]; intros a; [left; reflexivity|].
  cbn [List.seq scan_header].
  destruct (_is_header_row (iter_row ws a)).
  - right. exists a. split; [lia | reflexivity].
  - destruct (IH (S a)) as [H | (h & Hh & H)]; [left; exact H|].
    right. exists h. split; [lia | exact H].
Qed.

Lemma scanned_rows (ws : worksheet) :
  (Nat.min 6 (max_row ws + 1) - 1)%nat = scanned ws /\ (1 <= scanned ws)%nat.
Proof.
  unfold scanned, max_row. lia.
Qed.

Lemma identify_columns_header (ws : worksheet) :
  exists h, _identify_columns ws !! "header_row"%string = Some h /\
            (1 <= h <= scanned ws)%nat.
Proof.
  unfold _identify_columns. destruct (scanned_rows ws) as (-> & Hs).
  destruct (scan_seq_cases ws (scanned ws) 1) as [-> | (h & Hh & ->)].
  - rewrite bool_decide_eq_true_2 by reflexivity. exists 1%nat.
    split; [reflexivity | lia].
  - rewrite bool_decide_eq_false_2 by apply map_columns_nonempty.
    exists h. split; [apply map_columns_header | lia].
Qed.

Lemma extract_rows_spec (ws : worksheet) (m : gmap string nat) (idxs : list nat)
    (data : list row) :
  extract_rows ws m idxs = Ok data ->
  exists extracted,
    Forall2 (fun i r => _extract_row ws m i = Ok r) idxs extracted /\
    data = List.filter any_value extracted.
Proof.
  revert data. induction idxs as [|i idxs IH]; intros data H.
  - injection H as <-. exists []. split; [constructor | reflexivity].
  - cbn [extract_rows] in H.
    destruct (_extract_row ws m i) as [r|e] eqn:Er; [|discriminate].
    destruct (extract_rows ws m idxs) as [rest|e] eqn:Es; [|discriminate].
    destruct (IH rest eq_refl) as (extracted & Hall & ->).
    injection H as <-. exists (r :: extracted).
    split; [constructor; assumption|].
    cbn [List.filter]. destruct (any_value r); reflexivity.
Qed.

End HeaderSearch.

(** X11: a header cell that contains one of the keywords of date ('日期',
    'date', '时间', 'time', '日', 'day') always selects the field date,
    whatever else it contains, and only such a cell does.  So the
    keywords '用餐时间', '餐食时间' and 'meal time' of meal_time and '时间'
    and 'time' of duration never select their field: a cell that selects
    meal_time contains '餐次', 'meal' or '早中晚', and a cell that selects
    duration contains '时长', 'duration', '分钟' or 'min'. *)
Theorem date_keywords_shadow (cell_str : pystr) (f : string) :
  ExcelParser.match_field cell_str = Some f ->
  (f = "date"%string <->
   ExcelParser.has_keyword HeaderSpec.date_keywords cell_str = true) /\
  (f = "meal_time"%string ->
   ExcelParser.has_keyword HeaderSpec.live_meal_time_keywords cell_str = true) /\
  (f = "duration"%string ->
   ExcelParser.has_keyword HeaderSpec.live_duration_keywords cell_str = true).
Proof.
  unfold ExcelParser.match_field, ExcelParser.COLUMN_KEYWORDS.
  fold HeaderSpec.date_keywords.
  cbn [List.find].
  destruct (ExcelParser.has_keyword HeaderSpec.date_keywords cell_str) eqn:Ed.
  { intros [= <-]. split; [tauto|]. split; discriminate. }
  destruct (ExcelParser.has_keyword _ cell_str) eqn:E1 at 1.
  { intros [= <-]. split; [split; discriminate|]. split; discriminate. }
  destruct (ExcelParser.has_keyword _ cell_str) eqn:E2 at 1.
  { intros [= <-]. split; [split; discriminate|]. split; discriminate. }
  destruct (ExcelParser.has_keyword _ cell_str) eqn:E3 at 1.
  { intros [= <-]. split; [split; discriminate|]. split; [|discriminate].
    intros _.
    assert (H : ExcelParser.has_keyword
                  (HeaderSpec.live_meal_time_keywords ++ HeaderSpec.date_keywords)
                  cell_str = true).
    { revert E3. apply has_keyword_covered. vm_compute. reflexivity. }
    rewrite has_keyword_app, Ed, orb_false_r in H. exact H. }
  destruct (ExcelParser.has_keyword _ cell_str) eqn:E4 at 1.
  { intros [= <-]. split; [split; discriminate|]. split; discriminate. }
  destruct (ExcelParser.has_keyword _ cell_str) eqn:E5 at 1.
  { intros [= <-]. split; [split; discriminate|]. split; discriminate. }
  destruct (ExcelParser.has_keyword _ cell_str) eqn:E6 at 1.
  { intros [= <-]. split; [split; discriminate|]. split; discriminate. }
  destruct (ExcelParser.has_keyword _ cell_str) eqn:E7 at 1.
  { intros [= <-]. split; [split; discriminate|]. split; [discriminate|].
    intros _.
    assert (H : ExcelParser.has_keyword
                  (HeaderSpec.live_duration_keywords ++ HeaderSpec.date_keywords)
                  cell_str = true).
    { revert E7. apply has_keyword_covered. vm_compute. reflexivity. }
    rewrite has_keyword_app, Ed, orb_false_r in H. exact H. }
  destruct (ExcelParser.has_keyword _ cell_str) eqn:E8 at 1.
  { intros [= <-]. split; [split; discriminate|]. split; discriminate. }
  discriminate.
Qed.

Lemma date_keywords_shadow_witness :
  ExcelParser.has_keyword HeaderSpec.date_keywords (utf8 "用餐时间") = true.
Proof.
  apply (proj1 (date_keywords_shadow (utf8 "用餐时间") "date"
                  ltac:(vm_compute; reflexivity))).
  reflexivity.
Defined.

(** X12: the header is searched in the first five rows of the sheet
    only (fewer when the sheet is shorter): the first of them that
    looks like a header row gives the column mapping; when none does,
    the default mapping (date, meal_time, food, calories, exercise,
    duration, notes in columns 1 to 7, header in row 1) is used, also
    for a sheet whose header stands in row 6 or below.  Either way
    header_row is bound to a row among those searched. *)
Theorem header_search (ws : ExcelParser.worksheet) :
  (forall h, (1 <= h <= HeaderSpec.scanned ws)%nat ->
     ExcelParser._is_header_row (ExcelParser.iter_row ws h) = true ->
     (forall r, (1 <= r < h)%nat ->
        ExcelParser._is_header_row (ExcelParser.iter_row ws r) = false) ->
     ExcelParser._identify_columns ws
     = ExcelParser._map_columns (ExcelParser.iter_row ws h) h) /\
  ((forall r, (1 <= r <= HeaderSpec.scanned ws)%nat ->
      ExcelParser._is_header_row (ExcelParser.iter_row ws r) = false) ->
   ExcelParser._identify_columns ws = ExcelParser._use_default_mapping) /\
  (exists h, ExcelParser._identify_columns ws !! "header_row"%string = Some h /\
             (1 <= h <= HeaderSpec.scanned ws)%nat /\ (h <= 5)%nat).
Proof.
  split; [|split].
  - intros h Hh Ht Hf. unfold ExcelParser._identify_columns.
    destruct (scanned_rows ws) as (-> & _).
    rewrite (scan_seq_first ws (HeaderSpec.scanned ws) 1 h) by (try lia; assumption).
    rewrite bool_decide_eq_false_2 by apply map_columns_nonempty. reflexivity.
  - intros Hf. unfold ExcelParser._identify_columns.
    destruct (scanned_rows ws) as (-> & _).
    rewrite scan_seq_none by (intros r Hr; apply Hf; lia).
    rewrite bool_decide_eq_true_2 by reflexivity. reflexivity.
  - destruct (identify_columns_header ws) as (h & Hh & Hr).
    exists h. split; [exact Hh|]. split; [exact Hr|].
    unfold HeaderSpec.scanned in Hr. lia.
Qed.

Lemma header_search_witness :
  ExcelParser._identify_columns TabularSpec.sheet
  = ExcelParser._map_columns (ExcelParser.iter_row TabularSpec.sheet 1) 1.
Proof.
  apply (proj1 (header_search TabularSpec.sheet) 1%nat).
  - vm_compute. lia.
  - vm_compute. reflexivity.
  - intros r Hr. lia.
Defined.

(** X13: the rows that parse_file returns for a workbook are the rows
    of the sheet below the header row, from the next row to the last,
    in sheet order, each read through the column mapping, without those
    whose values are all falsy; the header row and the rows above it are
    never returned, so there are fewer records than sheet rows. *)
Theorem data_rows_below_header (ws : ExcelParser.worksheet) (data : list row) :
  ExcelParser.parse_file (ExcelParser.Workbook ws) = Ok data ->
  exists h extracted,
    ExcelParser._identify_columns ws !! "header_row"%string = Some h /\
    Forall2 (fun i r =>
               ExcelParser._extract_row ws (ExcelParser._identify_columns ws) i = Ok r)
            (List.seq (h + 1) (ExcelParser.max_row ws - h)) extracted /\
    data = List.filter any_value extracted /\
    (length data <= ExcelParser.max_row ws - h)%nat /\
    (length data < ExcelParser.max_row ws)%nat.
Proof.
  intros H. unfold ExcelParser.parse_file, ExcelParser._extract_data in H.
  destruct (identify_columns_header ws) as (h & Hh & Hr).
  rewrite Hh in H. cbn [default from_option id] in H.
  destruct (ExcelParser.extract_rows _ _ _) as [d|e] eqn:E; [|discriminate].
  injection H as <-. apply extract_rows_spec in E. destruct E as (extracted & Hall & ->).
  exists h, extracted. split; [exact Hh|]. split; [exact Hall|].
  split; [reflexivity|].
  assert (Hlen : (length (List.filter any_value extracted)
                  <= ExcelParser.max_row ws - h)%nat).
  { pose proof (List.filter_length_le any_value extracted) as Hle.
    apply Forall2_length in Hall. rewrite length_seq in Hall. lia. }
  split; [exact Hlen|].
  unfold HeaderSpec.scanned in Hr. unfold ExcelParser.max_row in *. lia.
Qed.

Lemma data_rows_below_header_witness :
  exists h, ExcelParser._identify_columns HeaderSpec.dated_sheet !! "header_row"%string
            = Some h.
Proof.
  destruct (data_rows_below_header HeaderSpec.dated_sheet HeaderSpec.dated_rows)
    as (h & _ & Hh & _).
  - vm_compute. reflexivity.
  - exists h. exact Hh.
Defined.

(** ** Normalized dates pass the validator *)

Section IsoDates.

Ltac re_step :=
  cbn [Re.run length Re.rep_loop Nat.pred option_map Nat.eqb Nat.sub firstn
       Re.search Re.search_from Re.match_at Re.seq].

Lemma year_prefix (icase : bool) (R : Type) (rest : Re.re) (a b c e : N) (t : pystr)
    (k : Re.cont R) :
  is_digit a = true -> is_digit b = true -> is_digit c = true -> is_digit e = true ->
  Re.run icase R (Re.Seq (Re.Grp 1 (Re.times 4 4 Re.digit)) rest) 0
         (a :: b :: c :: e :: t) [] k
  = Re.run icase R rest 4 t [(1%nat, [a; b; c; e])] k.
Proof.
  intros Ha Hb Hc He.
  unfold Re.times, Re.digit.
  re_step. rewrite Ha. re_step. rewrite Hb. re_step. rewrite Hc. re_step. rewrite He.
  re_step. rewrite firstn_O.
  match goal with
  | |- match match match match ?X with _ => _ end with _ => _ end with _ => _ end
       with _ => _ end = _ =>
      change X with (Re.run icase R rest 4 t [(1%nat, [a; b; c; e])] k)
  end.
  destruct (Re.run icase R rest 4 t [(1%nat, [a; b; c; e])] k); reflexivity.
Qed.

Lemma search_at_zero (icase : bool) (r : Re.re) (s : pystr) (m : Re.rmatch) :
  Re.match_at icase r 0 s = Some m -> Re.search icase r s = Some m.
Proof.
  intros H. unfold Re.search. destruct s; cbn [Re.search_from]; rewrite H; reflexivity.
Qed.

Lemma search_iso (a b c e m1 m2 d1 d2 : N) :
  is_digit a = true -> is_digit b = true -> is_digit c = true -> is_digit e = true ->
  is_digit m1 = true -> is_digit m2 = true -> is_digit d1 = true -> is_digit d2 = true ->
  Re.search false
    (Re.seq [Re.Grp 1 (Re.times 4 4 Re.digit); Re.one_of "/-";
            Re.Grp 2 (Re.times 1 2 Re.digit); Re.one_of "/-";
            Re.Grp 3 (Re.times 1 2 Re.digit)])
    [a; b; c; e; 45%N; m1; m2; 45%N; d1; d2]
  = Some (Re.Match 0 10 [a; b; c; e; 45%N; m1; m2; 45%N; d1; d2]
            [(3%nat, [d1; d2]); (2%nat, [m1; m2]); (1%nat, [a; b; c; e])] []).
Proof.
  intros Ha Hb Hc He Hm1 Hm2 Hd1 Hd2.
  apply search_at_zero. unfold Re.match_at. cbn [Re.seq].
  rewrite year_prefix by assumption.
  unfold Re.one_of, Re.times, Re.digit.
  re_step. rewrite Hm1, Hm2, Hd1, Hd2. reflexivity.
Qed.

Lemma match_iso (a b c e : N) (m d : Z) :
  is_digit a = true -> is_digit b = true -> is_digit c = true -> is_digit e = true ->
  1 <= m <= 12 -> 1 <= d <= 31 ->
  let ms := zero_pad 2 (str_of_int m) in
  let ds := zero_pad 2 (str_of_int d) in
  Re.match_at true (hd Re.Eps DataValidator.date_formats) 0
    ([a; b; c; e; 45%N] ++ ms ++ [45%N] ++ ds)
  = Some (Re.Match 0 10 ([a; b; c; e; 45%N] ++ ms ++ [45%N] ++ ds)
            [(3%nat, ds); (2%nat, ms); (1%nat, [a; b; c; e])] []).
Proof.
  intros Ha Hb Hc He Hm Hd ms ds. subst ms ds.
  unfold Re.match_at. cbn [hd DataValidator.date_formats Re.seq].
  unfold DataValidator.directive_Y. cbn [app].
  rewrite year_prefix by assumption.
  assert (Hmi : In m [1;2;3;4;5;6;7;8;9;10;11;12]) by (cbn [In]; lia).
  assert (Hdi : In d [1;2;3;4;5;6;7;8;9;10;11;12;13;14;15;16;17;18;19;20;21;22;23;24;25;
                      26;27;28;29;30;31]) by (cbn [In]; lia).
  clear Hm Hd.
  cbn [In] in Hmi, Hdi.
  repeat (destruct Hmi as [<-|Hmi]; [|]); try contradiction;
    repeat (destruct Hdi as [<-|Hdi]; [|]); try contradiction;
    vm_compute; reflexivity.
Qed.

Lemma strptime_first (s : pystr) :
  DataValidator.strptime_ok (hd Re.Eps DataValidator.date_formats) s = true ->
  DataValidator._is_valid_date (VStr s) = true.
Proof.
  intros H. unfold DataValidator._is_valid_date, DataValidator.date_formats.
  cbn [existsb]. cbn [hd DataValidator.date_formats] in H. rewrite H. reflexivity.
Qed.

Lemma iso_round_trip (dt : date) :
  DateSpec.calendar_date dt -> 1000 <= year dt ->
  ExcelParser._parse_date (VStr (strftime_ymd dt)) = Some (strftime_ymd dt) /\
  PDFParser._parse_date (Some (strftime_ymd dt)) = Some (strftime_ymd dt) /\
  PDFParser._extract_date (strftime_ymd dt) = Some (strftime_ymd dt) /\
  DataValidator._is_valid_date (VStr (strftime_ymd dt)) = true.
Proof.
  unfold DateSpec.calendar_date. destruct dt as [y m d]. cbn [year month day].
  intros Hmk Hy.
  destruct (make_date_fields y m d _ Hmk) as (_ & Hy' & Hm & Hd).
  destruct (iso_digits y m d ltac:(lia) Hm Hd)
    as (a & b & c & e & m1 & m2 & d1 & d2 & Hiso & Hms & Hds & (Ha & Hb & Hc & He)
        & (Hm1 & Hm2 & Hd1 & Hd2) & Hv & Hmv & Hdv & Hdv').
  assert (Hp : ExcelParser.try_patterns ExcelParser.date_patterns
                 (strftime_ymd (Date y m d)) = Some (strftime_ymd (Date y m d))).
  { rewrite Hiso at 1. unfold ExcelParser.date_patterns.
    cbn [ExcelParser.try_patterns]. rewrite search_iso by assumption.
    unfold ExcelParser.date_of_groups.
    cbn [Re.group Re.lookup_group Re.m_groups Nat.eqb default from_option id length].
    rewrite Hv, Hmv, Hdv, Hmk. reflexivity. }
  split.
  { rewrite Hiso at 1. cbn [ExcelParser._parse_date truthy negb]. rewrite <- Hiso. exact Hp. }
  split.
  { rewrite Hiso at 1. cbn [PDFParser._parse_date]. rewrite <- Hiso.
    rewrite pdf_extract_date_eq. exact Hp. }
  split.
  { rewrite pdf_extract_date_eq. exact Hp. }
  apply strptime_first. unfold DataValidator.strptime_ok.
  rewrite Hiso.
  pose proof (match_iso a b c e m d Ha Hb Hc He Hm Hd) as Hmt.
  cbv zeta in Hmt. rewrite Hms, Hds in Hmt. cbn [app] in Hmt. rewrite Hmt.
  cbn [Re.m_end Re.group Re.lookup_group Re.m_groups Nat.eqb default from_option id length
       andb].
  rewrite Hv, Hmv, Hdv', Hmk. reflexivity.
Qed.

Lemma extracted_calendar (iso : pystr) :
  DateSpec.extracted iso ->
  exists dt, DateSpec.calendar_date dt /\ iso = strftime_ymd dt.
Proof.
  intros [(cv & Hc & H) | [(c & H) | (line & H)]].
  - unfold ExcelParser._parse_date in H.
    destruct (negb (truthy cv)); [discriminate|].
    destruct cv; try discriminate.
    + exact (try_patterns_calendar _ _ _ H).
    + injection H as <-. eexists. split; [exact Hc | reflexivity].
    + injection H as <-. eexists. split; [exact Hc | reflexivity].
  - unfold PDFParser._parse_date in H. destruct c as [[|ch s]|]; try discriminate.
    rewrite pdf_extract_date_eq in H. exact (try_patterns_calendar _ _ _ H).
  - rewrite pdf_extract_date_eq in H. exact (try_patterns_calendar _ _ _ H).
Qed.

End IsoDates.

(** X14: a date that one of the date normalizers emits (the tabular
    extractor for a text or date cell, the semi-structured extractor for
    a table cell or a line) is the %Y-%m-%d rendering of a calendar
    date; when its year is 1000 or later, the validator's date check
    accepts it, and both normalizers map it to itself. *)
Theorem extracted_dates_validate (iso : pystr) :
  DateSpec.extracted iso ->
  exists dt,
    DateSpec.calendar_date dt /\ iso = strftime_ymd dt /\
    (1000 <= year dt ->
     DataValidator._is_valid_date (VStr iso) = true /\
     ExcelParser._parse_date (VStr iso) = Some iso /\
     PDFParser._parse_date (Some iso) = Some iso /\
     PDFParser._extract_date iso = Some iso).
Proof.
  intros H. destruct (extracted_calendar iso H) as (dt & Hc & ->).
  exists dt. split; [exact Hc|]. split; [reflexivity|].
  intros Hy. destruct (iso_round_trip dt Hc Hy) as (H1 & H2 & H3 & H4).
  repeat split; assumption.
Qed.

Lemma extracted_dates_validate_witness :
  exists dt, utf8 "2024-12-02" = strftime_ymd dt.
Proof.
  destruct (extracted_dates_validate (utf8 "2024-12-02")) as (dt & _ & H & _).
  - left. exists (VStr (utf8 "2024/12/2")). split; [exact I|]. vm_compute. reflexivity.
  - exists dt. exact H.
Defined.

(** ** Semi-structured extractor: records read from lines *)

Section LineRecords.

Import PDFParser LineSpec.

Lemma meal_info_shape (ps : list Re.re) (s : pystr) (info : row) :
  meal_info_with ps s = Some info ->
  exists mt ft, ft <> [] /\
    info = <["food"%string := VStr ft]> (<["meal_time"%string := VStr mt]> ∅).
Proof.
  induction ps as [|p ps IH]; cbn [meal_info_with]; [discriminate|].
  destruct (Re.search true p s) as [m|]; [|exact IH].
  cbv zeta.
  destruct (strip (Re.sub leading_separators []
              (strip (Re.sub calorie_mention [] (strip (Re.m_after m))))))
    as [|c ft] eqn:E; [exact IH|].
  intros [= <-]. exists (Re.group m 1), (c :: ft). split; [discriminate | reflexivity].
Qed.

Lemma exercise_info_shape (ps : list Re.re) (s : pystr) (info : row) :
  exercise_info_with ps s = Some info ->
  exists n, info = {["exercise"%string := VStr n]} \/
            exists f, PyFloat.is_zero f = false /\
                      info = <["duration"%string := VFloat f]> {["exercise"%string := VStr n]}.
Proof.
  induction ps as [|p ps IH]; cbn [exercise_info_with]; [discriminate|].
  destruct (Re.search true p s) as [m|]; [|exact IH].
  cbv zeta. intros [= <-].
  eexists.
  destruct (_extract_duration s) as [f|]; cbn [nonzero of_opt_float].
  - destruct (PyFloat.is_zero f) eqn:Ez; cbn [negb].
    + left. reflexivity.
    + right. exists f. split; [exact Ez | reflexivity].
  - left. reflexivity.
Qed.

Lemma line_field_str (k : string) (s : pystr) :
  In k ["date"; "meal_time"; "exercise"]%string -> line_field k (VStr s).
Proof.
  intros Hk. cbn [In] in Hk.
  destruct Hk as [<- | [<- | [<- | []]]]; (split; [cbn [In line_keys]; tauto|]);
    (split; [cbn; eexists; reflexivity | discriminate]).
Qed.

Lemma line_field_food (s : pystr) : s <> [] -> line_field "food" (VStr s).
Proof.
  intros Hs. split; [cbn [In line_keys]; tauto|].
  split; [cbn; eexists; reflexivity|].
  intros _. destruct s; [congruence | reflexivity].
Qed.

Lemma line_field_float (k : string) (f : spec_float) :
  In k ["calories"; "duration"]%string -> PyFloat.is_zero f = false ->
  line_field k (VFloat f).
Proof.
  intros Hk Hz. cbn [In] in Hk.
  destruct Hk as [<- | [<- | []]]; (split; [cbn [In line_keys]; tauto|]);
    (split; [cbn; exists f; split; [reflexivity | exact Hz] | discriminate]).
Qed.

Lemma info_fields (info : row) (s : pystr) :
  _extract_meal_info s = Some info \/ _extract_exercise_info s = Some info ->
  info !! "date"%string = None /\ paired info /\
  forall k v, info !! k = Some v -> line_field k v.
Proof.
  intros [H | H].
  - apply meal_info_shape in H. destruct H as (mt & ft & Hft & ->).
    split; [reflexivity|].
    split; [right; exists mt, ft; split; [reflexivity|]; split; [reflexivity | exact Hft]|].
    intros k v Hk.
    apply lookup_insert_Some in Hk. destruct Hk as [(<- & <-) | (_ & Hk)].
    { apply line_field_food. exact Hft. }
    apply lookup_insert_Some in Hk. destruct Hk as [(<- & <-) | (_ & Hk)].
    { apply line_field_str. cbn [In]. tauto. }
    rewrite lookup_empty in Hk. discriminate.
  - apply exercise_info_shape in H. destruct H as (n & [-> | (f & Hz & ->)]).
    + split; [reflexivity|]. split; [left; split; reflexivity|]. intros k v Hk.
      apply lookup_singleton_Some in Hk. destruct Hk as (<- & <-).
      apply line_field_str. cbn [In]. tauto.
    + split; [reflexivity|]. split; [left; split; reflexivity|]. intros k v Hk.
      apply lookup_insert_Some in Hk. destruct Hk as [(<- & <-) | (_ & Hk)].
      { apply line_field_float; [cbn [In]; tauto | exact Hz]. }
      apply lookup_singleton_Some in Hk. destruct Hk as (<- & <-).
      apply line_field_str. cbn [In]. tauto.
Qed.

Lemma worth_keeping_nonempty (item : row) : worth_keeping item = true -> item <> ∅.
Proof.
  unfold worth_keeping. rewrite andb_true_iff, negb_true_iff.
  intros (H & _). apply bool_decide_eq_false in H. exact H.
Qed.

Lemma paired_union (info cur : row) : paired info -> paired cur -> paired (info ∪ cur).
Proof.
  intros [(Hm & Hf) | (mt & ft & Hm & Hf & Hne)] Hc.
  - destruct Hc as [(Hm' & Hf') | (mt & ft & Hm' & Hf' & Hne)].
    + left. rewrite !lookup_union_r by assumption. split; assumption.
    + right. exists mt, ft. rewrite !lookup_union_r by assumption.
      split; [exact Hm'|]. split; [exact Hf' | exact Hne].
  - right. exists mt, ft.
    split; [apply lookup_union_Some_raw; left; exact Hm|].
    split; [apply lookup_union_Some_raw; left; exact Hf | exact Hne].
Qed.

Lemma paired_date (v : value) : paired {["date"%string := v]}.
Proof. left. split; reflexivity. Qed.

Lemma paired_calories (cur : row) (v : value) :
  paired cur -> paired (<["calories"%string := v]> cur).
Proof.
  intros [(Hm & Hf) | (mt & ft & Hm & Hf & Hne)].
  - left. rewrite !lookup_insert_ne by discriminate. split; assumption.
  - right. exists mt, ft. rewrite !lookup_insert_ne by discriminate.
    split; [exact Hm|]. split; [exact Hf | exact Hne].
Qed.

Lemma inv_current (lines : list pystr) (st : text_state) :
  inv lines st -> current_item st <> ∅ -> well_formed lines (current_item st).
Proof.
  intros (_ & H) Hne. destruct (current_date st); [apply H | contradiction].
Qed.

Lemma start_group_inv (lines : list pystr) (st : text_state) (d : pystr) (info : row) :
  inv lines st -> current_date st = Some d ->
  info !! "date"%string = None -> paired info ->
  (forall k v, info !! k = Some v -> line_field k v) ->
  inv lines (start_group st d info).
Proof.
  intros (Hdata & Hcur) Hd Hnd Hpi Hinfo. rewrite Hd in Hcur.
  destruct Hcur as (Hne & Hwf & Hline).
  unfold start_group.
  destruct (negb (bool_decide (current_item st = ∅)) && has_other_key (current_item st)).
  - split; cbn [data current_date current_item].
    + apply List.Forall_app. split; [exact Hdata|]. constructor; [exact Hwf | constructor].
    + rewrite Hd. split; [exact Hne|]. split; [|exact Hline].
      split; [|split].
      * exists d. split; [|exact Hline].
        rewrite lookup_union_r by exact Hnd. apply lookup_singleton_eq.
      * intros k v Hk. apply lookup_union_Some_raw in Hk.
        destruct Hk as [Hk | (_ & Hk)]; [exact (Hinfo k v Hk)|].
        apply lookup_singleton_Some in Hk. destruct Hk as (<- & <-).
        apply line_field_str. cbn [In]. tauto.
      * apply paired_union; [exact Hpi | apply paired_date].
  - split; cbn [data current_date current_item]; [exact Hdata|].
    rewrite Hd. split; [exact Hne|]. split; [|exact Hline].
    destruct Hwf as ((iso & Hiso & Hfrom) & Hty & Hpc). split; [|split].
    + exists iso. split; [|exact Hfrom]. rewrite lookup_union_r by exact Hnd. exact Hiso.
    + intros k v Hk. apply lookup_union_Some_raw in Hk.
      destruct Hk as [Hk | (_ & Hk)]; [exact (Hinfo k v Hk) | exact (Hty k v Hk)].
    + apply paired_union; assumption.
Qed.

Lemma parse_line_inv (lines : list pystr) (st : text_state) (raw : pystr) :
  In raw lines -> inv lines st -> inv lines (parse_line st raw).
Proof.
  intros Hraw Hinv. unfold parse_line.
  destruct (strip raw) as [|c line] eqn:El; [exact Hinv|].
  destruct (_extract_date (c :: line)) as [[|c' iso]|] eqn:Ed; cbn [nonempty].
  2:{ assert (Hfrom : date_of_line lines (c' :: iso)).
      { exists raw. split; [exact Hraw|]. rewrite El. exact Ed. }
      split; cbn [data current_date current_item of_opt_str].
      - destruct (worth_keeping (current_item st)) eqn:Ew; [|apply Hinv].
        apply List.Forall_app. split; [apply Hinv|].
        constructor; [|constructor].
        apply inv_current; [exact Hinv | exact (worth_keeping_nonempty _ Ew)].
      - split; [discriminate|]. split; [|exact Hfrom]. split; [|split].
        + exists (c' :: iso). split; [apply lookup_singleton_eq | exact Hfrom].
        + intros k v Hk. apply lookup_singleton_Some in Hk. destruct Hk as (<- & <-).
          apply line_field_str. cbn [In]. tauto.
        + apply paired_date. }
  all: destruct (current_date st) as [[|c2 d]|] eqn:Ecd; try exact Hinv.
  all: destruct (_extract_meal_info (c :: line)) as [meal_info|] eqn:Em;
    [destruct (info_fields meal_info (c :: line) (or_introl Em)) as (Hnd & Hpi & Hty);
     exact (start_group_inv lines st _ _ Hinv Ecd Hnd Hpi Hty)|].
  all: destruct (_extract_exercise_info (c :: line)) as [exercise_info|] eqn:Ee;
    [destruct (info_fields exercise_info (c :: line) (or_intror Ee)) as (Hnd & Hpi & Hty);
     exact (start_group_inv lines st _ _ Hinv Ecd Hnd Hpi Hty)|].
  all: destruct (_extract_calories (c :: line)) as [f|]; cbn [nonzero andb]; [|exact Hinv].
  all: destruct (PyFloat.is_zero f) eqn:Ez; cbn [negb andb]; [exact Hinv|].
  all: destruct (dict_has (current_item st) "calories"); cbn [negb]; [exact Hinv|].
  all: destruct Hinv as (Hdata & Hcur); rewrite Ecd in Hcur.
  all: destruct Hcur as (Hne & ((iso & Hiso & Hfrom) & Hty & Hpc) & Hline).
  all: split; cbn [data current_date current_item of_opt_float]; [exact Hdata|].
  all: split; [exact Hne|]; split; [|exact Hline]; split; [|split].
  all: try (exists iso; split; [|exact Hfrom];
            rewrite lookup_insert_ne by discriminate; exact Hiso).
  all: try (apply paired_calories; exact Hpc).
  all: intros k v Hk; apply lookup_insert_Some in Hk.
  all: destruct Hk as [(<- & <-) | (_ & Hk)]; [|exact (Hty k v Hk)].
  all: apply line_field_float; [cbn [In]; tauto | exact Ez].
Qed.

Lemma fold_parse_line_inv (lines : list pystr) (ls : list pystr) (st : text_state) :
  (forall l, In l ls -> In l lines) -> inv lines st ->
  inv lines (fold_left parse_line ls st).
Proof.
  revert st. induction ls as [|l ls IH]; intros st Hsub Hinv; [exact Hinv|].
  cbn [fold_left]. apply IH.
  - intros l' Hl'. apply Hsub. right. exact Hl'.
  - apply parse_line_inv; [apply Hsub; left; reflexivity | exact Hinv].
Qed.

Lemma parse_text_well_formed (text : pystr) :
  Forall (well_formed (split_on 10 text)) (_parse_text text).
Proof.
  unfold _parse_text.
  pose proof (fold_parse_line_inv (split_on 10 text) (split_on 10 text)
                (TextState [] ∅ None) (fun l H => H)) as Hinv.
  specialize (Hinv ltac:(split; [constructor | reflexivity])).
  cbv zeta.
  destruct (worth_keeping (current_item _)) eqn:Ew; [|apply Hinv].
  apply List.Forall_app. split; [apply Hinv|].
  constructor; [|constructor].
  apply inv_current; [exact Hinv | exact (worth_keeping_nonempty _ Ew)].
Qed.

End LineRecords.

(** X15: every record that the line-based extraction returns is
    anchored to a date: its key date holds the normalized date read from
    one of the lines of the text, so that a text none of whose lines
    holds a date yields no record.  Its other keys are among meal_time,
    food, exercise, duration and calories; calories and duration hold
    non-zero floats, the others strings, food a non-empty one. *)
Theorem line_records_dated (text : pystr) (r : row) :
  In r (PDFParser._parse_text text) ->
  (exists iso line,
     r !! "date"%string = Some (VStr iso) /\
     In line (split_on 10 text) /\
     PDFParser._extract_date (strip line) = Some iso) /\
  (forall k v, r !! k = Some v -> LineSpec.line_field k v).
Proof.
  intros Hr. pose proof (parse_text_well_formed text) as H.
  rewrite List.Forall_forall in H.
  destruct (H r Hr) as ((iso & Hiso & line & Hl & Hd) & Hty & _).
  split; [|exact Hty]. exists iso, line. repeat split; assumption.
Qed.

Lemma line_records_dated_witness :
  exists iso, nth 0 (PDFParser._parse_text LineSpec.sample_text) ∅ !! "date"%string
              = Some (VStr iso).
Proof.
  destruct (line_records_dated LineSpec.sample_text
              (nth 0 (PDFParser._parse_text LineSpec.sample_text) ∅))
    as ((iso & line & Hiso & _) & _).
  - apply nth_In. vm_compute. lia.
  - exists iso. exact Hiso.
Defined.

(** ** Semi-structured extractor: records read from tables *)

Section TableRecords.

Import PDFParser TableSpec.

Lemma map_table_columns_fold (headers : list (option pystr)) :
  _map_table_columns headers
  = fold_left table_step (combine (List.seq 0 (length headers)) headers) ∅.
Proof. reflexivity. Qed.

Lemma table_step_keys (l : list (nat * option pystr)) (acc : gmap string nat) :
  (forall k i, acc !! k = Some i -> In k table_fields) ->
  forall k i, fold_left table_step l acc !! k = Some i -> In k table_fields.
Proof.
  revert acc. induction l as [|[j h] l IH]; intros acc Hacc; [exact Hacc|].
  cbn [fold_left]. apply IH. intros k i.
  unfold table_step. destruct h as [[|c h]|]; try apply Hacc.
  destruct (List.find _ COLUMN_KEYWORDS) as [[field kws]|] eqn:Ef; [|apply Hacc].
  intros Hk. apply lookup_insert_Some in Hk. destruct Hk as [(<- & _) | (_ & Hk)].
  - apply List.find_some in Ef. destruct Ef as (Ef & _).
    apply (in_map fst) in Ef. exact Ef.
  - exact (Hacc k i Hk).
Qed.

Lemma map_table_columns_keys (headers : list (option pystr)) (k : string) (i : nat) :
  _map_table_columns headers !! k = Some i -> In k table_fields.
Proof.
  rewrite map_table_columns_fold. apply table_step_keys.
  intros k' i' H. rewrite lookup_empty in H. discriminate.
Qed.

Lemma clean_text_shape (c : option pystr) (s : pystr) :
  _clean_text c = Some s -> s <> [] /\ strip s = s.
Proof.
  unfold _clean_text. destruct c as [[|ch t]|]; try discriminate.
  destruct (strip (Re.sub (Re.plus Re.space) (utf8 " ") (ch :: t))) as [|x xs] eqn:E;
    [discriminate|].
  intros [= <-]. split; [discriminate|]. rewrite <- E. apply strip_idem.
Qed.

Lemma table_field_value_typed (k : string) (c : option pystr) :
  table_value k (table_field_value k c).
Proof.
  unfold table_value, table_field_value.
  destruct (String.eqb k "date").
  - destruct (_parse_date c) as [iso|] eqn:E; [right | left; reflexivity].
    destruct (extracted_calendar iso) as (d & Hd & ->).
    + right. left. exists c. exact E.
    + exists d. split; [exact Hd | reflexivity].
  - destruct (String.eqb k "calories" || String.eqb k "duration").
    + destruct (_parse_number c) as [f|]; [right; exists f; reflexivity | left; reflexivity].
    + destruct (_clean_text c) as [s|] eqn:E; [right | left; reflexivity].
      destruct (clean_text_shape c s E) as (Hne & Hs).
      exists s. split; [reflexivity|]. split; assumption.
Qed.

Lemma extract_table_row_lookup (cells : list (option pystr)) (m : gmap string nat)
    (k : string) :
  _extract_table_row cells m !! k
  = match m !! k with
    | Some i => if (i <? length cells)%nat
                then Some (table_field_value k (nth i cells None)) else None
    | None => None
    end.
Proof.
  unfold _extract_table_row. rewrite map_lookup_imap.
  destruct (m !! k); reflexivity.
Qed.

Lemma process_table_members (t : table) (r : row) :
  In r (_process_table t) ->
  exists headers rows cells,
    t = headers :: rows /\ In cells rows /\
    r = _extract_table_row cells (_map_table_columns headers) /\
    worth_keeping r = true /\
    existsb nonempty cells = true.
Proof.
  unfold _process_table. destruct t as [|headers [|row1 rows]]; try contradiction.
  intros H. apply in_flat_map in H. destruct H as (cells & Hin & H).
  destruct (forallb (fun c => negb (nonempty c)) cells) eqn:Ef; [contradiction|].
  destruct (worth_keeping (_extract_table_row cells (_map_table_columns headers))) eqn:Ew;
    [|contradiction].
  destruct H as [<- | []].
  exists headers, (row1 :: rows), cells. repeat split; try assumption.
  destruct (existsb nonempty cells) eqn:Ee; [reflexivity|].
  assert (Hall : forallb (fun c => negb (nonempty c)) cells = true).
  { apply forallb_forall. intros c Hc.
    destruct (nonempty c) eqn:En; [|reflexivity].
    assert (existsb nonempty cells = true) by (apply existsb_exists; exists c; tauto).
    congruence. }
  congruence.
Qed.

Lemma table_record_keys (t : table) (r : row) (k : string) (v : value) :
  In r (_process_table t) -> r !! k = Some v -> In k table_fields /\ table_value k v.
Proof.
  intros Hr Hk. apply process_table_members in Hr.
  destruct Hr as (headers & rows & cells & _ & _ & -> & _).
  rewrite extract_table_row_lookup in Hk.
  destruct (_map_table_columns headers !! k) as [i|] eqn:Em; [|discriminate].
  destruct (i <? length cells)%nat; [|discriminate].
  injection Hk as <-. split; [exact (map_table_columns_keys _ _ _ Em)|].
  apply table_field_value_typed.
Qed.

Lemma worth_keeping_any (r : row) : worth_keeping r = true -> any_value r = true.
Proof. unfold worth_keeping. rewrite andb_true_iff. tauto. Qed.

End TableRecords.

(** X16: a record read from a table of a page comes from one data row
    of the table, below its first row, that has a non-empty cell: the
    record holds a key for each field of the header whose column exists
    in that row (a column beyond the end of a short row is left out),
    bound to the normalized cell: None, or a normalized date for date, a
    float for calories and duration, a non-empty trimmed string for the
    other fields; its keys are among the seven fields of the table
    keywords and one of its values is truthy. *)
Theorem table_records_typed (t : PDFParser.table) (r : row) :
  In r (PDFParser._process_table t) ->
  exists headers rows cells,
    t = headers :: rows /\ In cells rows /\
    existsb PDFParser.nonempty cells = true /\
    (forall k, r !! k
               = match PDFParser._map_table_columns headers !! k with
                 | Some i => if (i <? length cells)%nat
                             then Some (PDFParser.table_field_value k (nth i cells None))
                             else None
                 | None => None
                 end) /\
    (forall k v, r !! k = Some v ->
                 In k TableSpec.table_fields /\ TableSpec.table_value k v) /\
    any_value r = true.
Proof.
  intros Hr. pose proof (table_record_keys t r) as Hkeys.
  destruct (process_table_members t r Hr)
    as (headers & rows & cells & Ht & Hin & Hrow & Hw & Hne).
  exists headers, rows, cells.
  split; [exact Ht|]. split; [exact Hin|]. split; [exact Hne|].
  split; [intros k; rewrite Hrow; apply extract_table_row_lookup|].
  split; [intros k v Hk; exact (Hkeys k v Hr Hk)|].
  exact (worth_keeping_any r Hw).
Qed.

Lemma table_records_typed_witness :
  any_value (nth 0 (PDFParser._process_table
                      (nth 0 (PDFParser.extract_tables ExtractorSpec.page_with_table) []))
                   ∅) = true.
Proof.
  destruct (table_records_typed
              (nth 0 (PDFParser.extract_tables ExtractorSpec.page_with_table) [])
              (nth 0 (PDFParser._process_table
                        (nth 0 (PDFParser.extract_tables ExtractorSpec.page_with_table) []))
                     ∅))
    as (_ & _ & _ & _ & _ & _ & _ & _ & H).
  - apply nth_In. vm_compute. lia.
  - exact H.
Defined.

(** ** Plan converter: when the conversion is defined *)

Section ConversionDefined.

Import PlanConverter ConverterSpec TableSpec.

Lemma textual_cases (r : row) (k : string) :
  textual r k \/ exists v, r !! k = Some v /\ forall s, v <> VStr s.
Proof.
  unfold textual. destruct (r !! k) as [v|]; [|left; left; reflexivity].
  destruct v; try (right; eexists; split; [reflexivity | intros s; discriminate]).
  left. right. eexists. reflexivity.
Qed.

Lemma call_strip_raises (r : row) (k : string) (v : value) :
  r !! k = Some v -> (forall s, v <> VStr s) ->
  call_strip (dict_get_or r k (VStr [])) = Raise AttributeError.
Proof.
  intros Hk Hv. unfold dict_get_or. rewrite Hk. cbn [default from_option id].
  destruct v; try reflexivity. exfalso. exact (Hv _ eq_refl).
Qed.

Lemma convert_row_raises (acc : plan_items) (r : row) :
  ~ convertible r -> convert_row acc r = Raise AttributeError.
Proof.
  intros Hn. unfold convert_row.
  destruct (textual_cases r "type") as [Ht | (v & Hk & Hv)].
  - destruct (textual_cases r "name") as [Hnm | (v & Hk & Hv)].
    + exfalso. apply Hn. split; assumption.
    + rewrite (call_strip_textual r "type" Ht), (call_strip_raises r "name" v Hk Hv).
      reflexivity.
  - rewrite (call_strip_raises r "type" v Hk Hv). reflexivity.
Qed.

Lemma convertible_dec (r : row) : convertible r \/ ~ convertible r.
Proof.
  unfold convertible.
  destruct (textual_cases r "type") as [Ht | (v & Hk & Hv)].
  - destruct (textual_cases r "name") as [Hnm | (v & Hk & Hv)]; [left; tauto|].
    right. intros (_ & [H | (s & H)]); rewrite Hk in H; [discriminate|].
    injection H as ->. exact (Hv s eq_refl).
  - right. intros ([H | (s & H)] & _); rewrite Hk in H; [discriminate|].
    injection H as ->. exact (Hv s eq_refl).
Qed.

Lemma convert_from_cases (rows : list row) :
  forall acc,
    (Forall convertible rows /\
     convert_from acc rows
     = Ok (PlanItems (meals acc ++ flat_map meals_of rows)
                     (exercises acc ++ flat_map exercises_of rows))) \/
    (Exists (fun r => ~ convertible r) rows /\
     convert_from acc rows = Raise AttributeError).
Proof.
  induction rows as [|r rows IH]; intros acc.
  - left. split; [constructor|]. cbn [convert_from flat_map].
    rewrite !app_nil_r. destruct acc; reflexivity.
  - cbn [convert_from]. destruct (convertible_dec r) as [Hc | Hc].
    + destruct Hc as (Ht & Hn). rewrite (convert_row_spec acc r Ht Hn).
      cbn [mbind result_bind Py.bind].
      destruct (IH (PlanItems (meals acc ++ meals_of r) (exercises acc ++ exercises_of r)))
        as [(Hall & ->) | (Hex & ->)].
      * left. split; [constructor; [split; assumption | exact Hall]|].
        cbn [meals exercises flat_map]. rewrite <- !app_assoc. reflexivity.
      * right. split; [apply Exists_cons_tl; exact Hex | reflexivity].
    + right. split; [apply Exists_cons_hd; exact Hc|].
      rewrite (convert_row_raises acc r Hc). reflexivity.
Qed.

Lemma legacy_convertible (r : row) : legacy_keys r -> convertible r.
Proof. intros (Ht & Hn). split; left; assumption. Qed.

Lemma legacy_layout (r : row) : legacy_keys r -> explicit_layout r = false.
Proof.
  intros (Ht & _). unfold explicit_layout, trimmed, dict_get. rewrite Ht. reflexivity.
Qed.

End ConversionDefined.

(** X17: convert_to_plan_items returns exactly when, in every row, type
    and name are absent or bound to strings, and it then returns the
    meal and exercise entries of the rows in row order; when some row
    binds type or name to a value that is not a string (None, a number,
    a date), it raises AttributeError, whatever the other rows hold. *)
Theorem conversion_defined (rows : list row) :
  (Forall TableSpec.convertible rows <->
   PlanConverter.convert_to_plan_items rows
   = Ok (PlanConverter.PlanItems (flat_map ConverterSpec.meals_of rows)
                                 (flat_map ConverterSpec.exercises_of rows))) /\
  (Exists (fun r => ~ TableSpec.convertible r) rows <->
   PlanConverter.convert_to_plan_items rows = Raise AttributeError) /\
  (forall e, PlanConverter.convert_to_plan_items rows = Raise e -> e = AttributeError).
Proof.
  unfold PlanConverter.convert_to_plan_items.
  destruct (convert_from_cases rows (PlanConverter.PlanItems [] []))
    as [(Hall & E) | (Hex & E)]; rewrite E; cbn [PlanConverter.meals PlanConverter.exercises app].
  - split; [tauto|]. split; [|discriminate].
    split; [|discriminate]. intros Hex. exfalso.
    apply List.Exists_exists in Hex. destruct Hex as (r & Hr & Hn).
    rewrite List.Forall_forall in Hall. exact (Hn (Hall r Hr)).
  - split; [|split; [tauto | intros e [= <-]; reflexivity]].
    split; [|discriminate]. intros Hall. exfalso.
    apply List.Exists_exists in Hex. destruct Hex as (r & Hr & Hn).
    rewrite List.Forall_forall in Hall. exact (Hn (Hall r Hr)).
Qed.

Section PdfConversion.

Import PDFParser TableSpec.

Lemma not_table_field (k : string) :
  k = "type"%string \/ k = "name"%string -> ~ In k table_fields.
Proof.
  intros [-> | ->] H; vm_compute in H;
    repeat (destruct H as [H|H]; [discriminate|]); exact H.
Qed.

Lemma not_line_key (k : string) :
  k = "type"%string \/ k = "name"%string -> ~ In k LineSpec.line_keys.
Proof.
  intros [-> | ->] H; vm_compute in H;
    repeat (destruct H as [H|H]; [discriminate|]); exact H.
Qed.

Lemma page_record_keys (p : page) (r : row) (k : string) :
  In r (parse_page p) -> k = "type"%string \/ k = "name"%string -> r !! k = None.
Proof.
  intros Hr Hk. rewrite parse_page_spec in Hr. apply in_app_or in Hr.
  destruct (r !! k) as [v|] eqn:E; [exfalso | reflexivity].
  destruct Hr as [Hr | Hr].
  - unfold ExtractorSpec.table_records in Hr. apply in_flat_map in Hr.
    destruct Hr as (t & _ & Hr).
    destruct (table_record_keys t r k v Hr E) as (Hin & _).
    exact (not_table_field k Hk Hin).
  - unfold ExtractorSpec.line_records in Hr.
    destruct (extract_text p) as [[|c text]|]; try contradiction.
    pose proof (parse_text_well_formed (c :: text)) as Hwf.
    rewrite List.Forall_forall in Hwf. destruct (Hwf r Hr) as (_ & Hty & _).
    destruct (Hty k v E) as (Hin & _).
    exact (not_line_key k Hk Hin).
Qed.

Lemma pdf_rows_legacy (doc : document) (rows : list row) :
  parse_file doc = Ok rows -> Forall legacy_keys rows.
Proof.
  unfold parse_file. destruct doc as [|pages]; [discriminate|].
  intros [= <-]. apply List.Forall_forall. intros r Hr.
  apply in_flat_map in Hr. destruct Hr as (p & _ & Hr).
  split; apply (page_record_keys p r); try exact Hr; [left | right]; reflexivity.
Qed.

End PdfConversion.

(** X18: the records of a PDF document never make the plan converter
    raise: none of them has a key type or name, so each is read in the
    legacy layout, a record with a food giving a meal entry and a record
    with an exercise an exercise entry, in the order of the records. *)
Theorem pdf_conversion_defined (available : bool) (doc : PDFParser.document)
    (rows : list row) :
  PDFParser.parse available doc = Ok rows ->
  Forall TableSpec.legacy_keys rows /\
  Forall (fun r => ConverterSpec.explicit_layout r = false) rows /\
  PlanConverter.convert_to_plan_items rows
  = Ok (PlanConverter.PlanItems (flat_map ConverterSpec.meals_of rows)
                                (flat_map ConverterSpec.exercises_of rows)).
Proof.
  unfold PDFParser.parse. destruct available; [|discriminate].
  intros H. pose proof (pdf_rows_legacy doc rows H) as Hl.
  split; [exact Hl|]. split.
  - revert Hl. apply List.Forall_impl. exact legacy_layout.
  - unfold PlanConverter.convert_to_plan_items.
    destruct (convert_from_cases rows (PlanConverter.PlanItems [] []))
      as [(_ & E) | (Hex & _)]; [exact E|].
    exfalso. apply List.Exists_exists in Hex. destruct Hex as (r & Hr & Hn).
    rewrite List.Forall_forall in Hl. exact (Hn (legacy_convertible r (Hl r Hr))).
Qed.

Lemma pdf_conversion_defined_witness :
  exists rows items,
    PDFParser.parse true (PDFParser.Document [ExtractorSpec.page_with_table]) = Ok rows /\
    PlanConverter.convert_to_plan_items rows = Ok items.
Proof.
  eexists. eexists. split; [reflexivity|].
  apply (pdf_conversion_defined true (PDFParser.Document [ExtractorSpec.page_with_table])).
  reflexivity.
Defined.

(** ** The upload endpoint *)

Section Pipeline.

Import DataValidator RowReport Upload.

Lemma is_valid_number_plain (v : value) (lo hi : Z) :
  plain_value v -> exists b, _is_valid_number v lo hi = Ok b.
Proof.
  unfold _is_valid_number. destruct v; try contradiction; intros _; cbn [Py.float].
  - eexists. reflexivity.
  - destruct (SFltb f (PyFloat.of_Z lo)); [eexists; reflexivity|].
    destruct (SFltb (PyFloat.of_Z hi) f); eexists; reflexivity.
  - destruct (PyFloat.of_str s) as [f|]; [|eexists; reflexivity].
    destruct (SFltb f (PyFloat.of_Z lo)); [eexists; reflexivity|].
    destruct (SFltb (PyFloat.of_Z hi) f); eexists; reflexivity.
Qed.

Lemma dict_get_plain (r : row) (k : string) : plain r -> plain_value (dict_get r k).
Proof.
  intros Hp. unfold dict_get. destruct (r !! k) as [v|] eqn:E; [exact (Hp k v E) | exact I].
Qed.

Lemma number_errors_plain (f : string) (mx : Z) (prefix : string) (r : row) (i : nat) :
  plain r -> exists es, number_errors f mx prefix r i = Ok es.
Proof.
  intros Hp. unfold number_errors.
  destruct (dict_has r f && negb (is_none (dict_get r f))); [|eexists; reflexivity].
  destruct (is_valid_number_plain (dict_get r f) 0 mx (dict_get_plain r f Hp)) as (b & ->).
  eexists. reflexivity.
Qed.

Lemma row_errors_plain (r : row) (i : nat) (dt : string) :
  plain r -> exists es, row_errors r i dt = Ok es.
Proof.
  intros Hp. unfold row_errors, calories_errors, duration_errors.
  destruct (number_errors_plain "calories" 10000 "热量值无效或超出范围 (0-10000): " r i Hp)
    as (cal & ->).
  destruct (number_errors_plain "duration" 1440 "时长值无效或超出范围 (0-1440分钟): " r i Hp)
    as (dur & ->).
  eexists. reflexivity.
Qed.

Lemma batch_errors_plain (rows : list row) (dt : string) :
  Forall plain rows -> forall i, exists es, batch_errors rows i dt = Ok es.
Proof.
  induction 1 as [|r rows Hr _ IH]; intros i; cbn [batch_errors].
  - eexists. reflexivity.
  - destruct (row_errors_plain r i dt Hr) as (e & ->).
    destruct (IH (S i)) as (es & ->). eexists. reflexivity.
Qed.

Lemma validate_plain (rows : list row) (dt : string) :
  Forall plain rows -> exists res, validate_parsed_data rows dt = Ok res.
Proof.
  intros Hp. destruct rows as [|r rows]; [eexists; reflexivity|].
  rewrite validate_batch_spec.
  destruct (batch_errors_plain (r :: rows) dt Hp 1) as (es & ->).
  eexists. reflexivity.
Qed.

Lemma field_value_plain (k : string) (cv v : value) :
  ExcelParser.field_value k cv = Ok v -> plain_value v.
Proof.
  unfold ExcelParser.field_value.
  destruct (String.eqb k "date").
  - intros [= <-]. destruct (ExcelParser._parse_date cv); exact I.
  - destruct (String.eqb k "calories").
    + destruct (ExcelParser._parse_number cv) as [[f|]|x]; cbn; intros [= <-]; exact I.
    + destruct (String.eqb k "duration").
      * destruct (ExcelParser._parse_number cv) as [[f|]|x]; cbn; intros [= <-]; exact I.
      * intros [= <-]. destruct (ExcelParser._parse_text cv); exact I.
Qed.

Lemma excel_rows_plain (wb : ExcelParser.workbook) (rows : list row) :
  ExcelParser.parse_file wb = Ok rows -> Forall plain rows.
Proof.
  unfold ExcelParser.parse_file. destruct wb as [|ws]; [discriminate|].
  destruct (ExcelParser._extract_data ws (ExcelParser._identify_columns ws))
    as [data|e] eqn:E; [|discriminate].
  intros [= <-]. apply List.Forall_forall. intros r Hr k v Hk.
  unfold ExcelParser._extract_data in E.
  destruct (extract_rows_members _ _ _ _ r E Hr) as (_ & i & _ & Hrow).
  pose proof (extract_row_fields _ _ _ _ Hrow k) as Hf. rewrite Hk in Hf.
  destruct Hf as (col & _ & Hv).
  exact (field_value_plain k _ v Hv).
Qed.

Lemma table_value_plain (k : string) (v : value) : TableSpec.table_value k v -> plain_value v.
Proof.
  unfold TableSpec.table_value. intros [-> | H]; [exact I|].
  destruct (String.eqb k "date"); [destruct H as (d & _ & ->); exact I|].
  destruct (String.eqb k "calories" || String.eqb k "duration");
    [destruct H as (f & ->) | destruct H as (s & -> & _)]; exact I.
Qed.

Lemma line_field_plain (k : string) (v : value) : LineSpec.line_field k v -> plain_value v.
Proof.
  unfold LineSpec.line_field. intros (_ & H & _).
  destruct (String.eqb k "calories" || String.eqb k "duration");
    [destruct H as (f & -> & _) | destruct H as (s & ->)]; exact I.
Qed.

Lemma pdf_rows_plain (doc : PDFParser.document) (rows : list row) :
  PDFParser.parse_file doc = Ok rows -> Forall plain rows.
Proof.
  unfold PDFParser.parse_file. destruct doc as [|pages]; [discriminate|].
  intros [= <-]. apply List.Forall_forall. intros r Hr k v Hk.
  apply in_flat_map in Hr. destruct Hr as (p & _ & Hr).
  rewrite parse_page_spec in Hr. apply in_app_or in Hr. destruct Hr as [Hr | Hr].
  - unfold ExtractorSpec.table_records in Hr. apply in_flat_map in Hr.
    destruct Hr as (t & _ & Hr).
    destruct (table_record_keys t r k v Hr Hk) as (_ & Hv).
    exact (table_value_plain k v Hv).
  - unfold ExtractorSpec.line_records in Hr.
    destruct (PDFParser.extract_text p) as [[|c text]|]; try contradiction.
    pose proof (parse_text_well_formed (c :: text)) as Hwf.
    rewrite List.Forall_forall in Hwf. destruct (Hwf r Hr) as (_ & Hty & _).
    exact (line_field_plain k v (Hty k v Hk)).
Qed.

Lemma parsed_plain (rows : list row) : parsed rows -> Forall plain rows.
Proof.
  intros [(wb & H) | (doc & H)]; [exact (excel_rows_plain wb rows H)|].
  exact (pdf_rows_plain doc rows H).
Qed.

Lemma excel_raises (wb : ExcelParser.workbook) (e : exn) :
  ExcelParser.parse_file wb = Raise e -> e = ExcelParseError.
Proof.
  unfold ExcelParser.parse_file. destruct wb as [|ws]; [intros [= <-]; reflexivity|].
  destruct (ExcelParser._extract_data _ _); [discriminate | intros [= <-]; reflexivity].
Qed.

Lemma pdf_raises (doc : PDFParser.document) (e : exn) :
  PDFParser.parse_file doc = Raise e -> e = PDFParseError.
Proof.
  unfold PDFParser.parse_file. destruct doc; [intros [= <-]; reflexivity | discriminate].
Qed.

Lemma flat_map_length_le {A B} (g : A -> list B) (l : list A) :
  (forall a, (length (g a) <= 1)%nat) -> (length (flat_map g l) <= length l)%nat.
Proof.
  intros Hg. induction l as [|a l IH]; cbn [flat_map length]; [lia|].
  rewrite length_app. specialize (Hg a). lia.
Qed.

Lemma meals_of_length (r : row) : (length (ConverterSpec.meals_of r) <= 1)%nat.
Proof.
  unfold ConverterSpec.meals_of.
  repeat match goal with |- context [if ?b then _ else _] => destruct b end; simpl; lia.
Qed.

Lemma exercises_of_length (r : row) : (length (ConverterSpec.exercises_of r) <= 1)%nat.
Proof.
  unfold ConverterSpec.exercises_of.
  repeat match goal with |- context [if ?b then _ else _] => destruct b end; simpl; lia.
Qed.

Lemma general_batch (rows : list row) (res : ValidationResult) :
  validate_parsed_data rows "general" = Ok res -> is_valid res = true ->
  (1 <= length rows)%nat /\ warnings res = [summary (length rows)].
Proof.
  destruct rows as [|r rows].
  - intros [= <-]. discriminate.
  - rewrite validate_batch_spec.
    destruct (batch_errors (r :: rows) 1 "general") as [es|e]; [|discriminate].
    intros [= <-]. unfold is_valid. cbn [errors warnings length].
    destruct es; [|discriminate]. intros _. split; [lia|].
    destruct (batch_warnings_shape rows "general" 2) as (_ & Hn & _).
    rewrite (Hn eq_refl). reflexivity.
Qed.

Lemma store_outcome {saved_data : Type} (req : request saved_data) (name : pystr)
    (t : option string) (size : Z) (data : list row) :
  Forall plain data ->
  (Forall TableSpec.convertible data \/
   ExcelParser.parse_file (workbook _ req) = Ok data) ->
  match store _ req name t size data with
  | Success _ name' t' size' n mc ec _ warns =>
    name' = name /\ t' = t /\ size' = size /\
    (1 <= n)%nat /\ warns = [summary n] /\ (mc <= n)%nat /\ (ec <= n)%nat
  | HTTPException _ status code =>
    (status = 400 /\ code = "DATA_VALIDATION_ERROR"%string) \/
    (status = 500 /\ code = "INTERNAL_SERVER_ERROR"%string /\ server_error_cause req)
  end.
Proof.
  intros Hp Hc. unfold store.
  destruct (validate_plain data "general" Hp) as (res & Hres). rewrite Hres.
  destruct (is_valid res) eqn:Ev; cbn [negb]; [|left; split; reflexivity].
  destruct (general_batch data res Hres Ev) as (Hn & Hw).
  unfold PlanConverter.convert_to_plan_items.
  destruct (convert_from_cases data (PlanConverter.PlanItems [] []))
    as [(_ & E) | (Hex & E)]; rewrite E.
  - destruct (save _ req _) as [saved|e] eqn:Es.
    + cbn [PlanConverter.meals PlanConverter.exercises app].
      repeat split; try assumption; try reflexivity.
      * apply flat_map_length_le. exact meals_of_length.
      * apply flat_map_length_le. exact exercises_of_length.
    + right. split; [reflexivity|]. split; [reflexivity|].
      right. right. right. right. eexists. eexists. exact Es.
  - right. split; [reflexivity|]. split; [reflexivity|].
    destruct Hc as [Hall | Hx].
    + exfalso. apply List.Exists_exists in Hex. destruct Hex as (r & Hr & Hnr).
      rewrite List.Forall_forall in Hall. exact (Hnr (Hall r Hr)).
    + right. right. right. left. exists data. split; assumption.
Qed.

End Pipeline.

(** X19: the validator never raises on the rows that the extractors
    return, whatever the kind asked for: their values are None, strings
    and floats, never an int, on which alone the numeric check can raise
    (OverflowError). *)
Theorem parsed_rows_validate (rows : list row) (data_type : string) :
  Upload.parsed rows ->
  Forall Upload.plain rows /\
  exists res, DataValidator.validate_parsed_data rows data_type = Ok res.
Proof.
  intros H. pose proof (parsed_plain rows H) as Hp.
  split; [exact Hp | exact (validate_plain rows data_type Hp)].
Qed.

Lemma parsed_rows_validate_witness :
  exists res, DataValidator.validate_parsed_data HeaderSpec.dated_rows "meal" = Ok res.
Proof.
  apply parsed_rows_validate. left. exists (ExcelParser.Workbook HeaderSpec.dated_sheet).
  vm_compute. reflexivity.
Defined.

(** X20: the answers of the upload endpoint.  A success reports the
    type excel or pdf, a size within 10 MiB, at least one parsed item,
    exactly one warning (the summary of the validator, since the rows
    are validated with the kind 'general') and at most one meal and one
    exercise per item.  A failure is a 400 with one of the codes
    FILE_VALIDATION_ERROR, FILE_PARSE_ERROR, DATA_VALIDATION_ERROR, or a
    500 with the code INTERNAL_SERVER_ERROR, and the 500 has one of
    these causes only: the temporary file cannot be created, read into
    or written, a sheet row binds type or name to None (an empty cell),
    which makes the conversion raise, or saving raises; neither the
    validator nor the choice of the parser ever raises. *)
Theorem upload_outcomes {saved_data : Type} (req : Upload.request saved_data) :
  match Upload.upload_file _ req with
  | Upload.Success _ name t size n mc ec _ warns =>
    Upload.filename _ req = Some name /\
    (t = Some "excel"%string \/ t = Some "pdf"%string) /\
    size <= Upload.max_size /\
    (1 <= n)%nat /\ warns = [RowReport.summary n] /\ (mc <= n)%nat /\ (ec <= n)%nat
  | Upload.HTTPException _ status code =>
    (status = 400 /\
     In code ["FILE_VALIDATION_ERROR"; "FILE_PARSE_ERROR"; "DATA_VALIDATION_ERROR"]%string) \/
    (status = 500 /\ code = "INTERNAL_SERVER_ERROR"%string /\ Upload.server_error_cause req)
  end.
Proof.
  unfold Upload.upload_file.
  destruct (Upload.filename _ req) as [[|c name]|] eqn:En;
    try (left; split; [reflexivity | left; reflexivity]).
  cbv zeta.
  destruct (negb (PlanConverter.str_in _ Upload.supported_extensions));
    [left; split; [reflexivity | left; reflexivity]|].
  destruct (Upload.open_tmp _ req) as [temp|] eqn:Eo.
  2:{ right. split; [reflexivity|]. split; [reflexivity|]. left. exact Eo. }
  destruct (Upload.read_size _ req) as [size|] eqn:Er.
  2:{ right. split; [reflexivity|]. split; [reflexivity|]. right. left. exact Er. }
  destruct (Z.ltb_spec Upload.max_size size) as [Hs|Hs];
    [left; split; [reflexivity | left; reflexivity]|].
  destruct (Upload.write_ok _ req) eqn:Ew; cbn [negb].
  2:{ right. split; [reflexivity|]. split; [reflexivity|]. right. right. left. exact Ew. }
  unfold FileHelpers.validate_file, FileValidator.validate.
  destruct (verdict_shape FileValidator.MAX_FILE_SIZE (Upload.env _ req) temp)
    as [(t & E) | (msg & E)]; rewrite E; cbn [negb].
  2:{ left. split; [reflexivity | left; reflexivity]. }
  pose proof (accepted_type_known _ _ _ _ E) as Ht.
  unfold Upload._parse_file.
  destruct Ht as [-> | ->]; cbn [String.eqb Ascii.eqb Bool.eqb].
  - destruct (ExcelParser.parse_file (Upload.workbook _ req)) as [data|e] eqn:Ep.
    + pose proof (store_outcome req (c :: name) (Some "excel"%string) size data
                    (excel_rows_plain _ _ Ep) (or_intror Ep)) as Hst.
      destruct (Upload.store _ req (c :: name) (Some "excel"%string) size data)
        as [name' t' size' n mc ec sv warns | status code].
      * destruct Hst as (-> & -> & -> & Hrest).
        split; [reflexivity|]. split; [left; reflexivity|]. split; [exact Hs | exact Hrest].
      * destruct Hst as [(-> & ->) | H]; [|right; exact H].
        left. split; [reflexivity|]. right. right. left. reflexivity.
    + rewrite (excel_raises _ _ Ep).
      left. split; [reflexivity|]. right. left. reflexivity.
  - destruct (Upload.HAS_PDFPLUMBER _ req); cbn [negb].
    2:{ left. split; [reflexivity|]. right. left. reflexivity. }
    destruct (PDFParser.parse_file (Upload.document _ req)) as [data|e] eqn:Ep.
    + pose proof (pdf_rows_legacy _ _ Ep) as Hl.
      assert (Hc : Forall TableSpec.convertible data)
        by (revert Hl; apply List.Forall_impl; exact legacy_convertible).
      pose proof (store_outcome req (c :: name) (Some "pdf"%string) size data
                    (pdf_rows_plain _ _ Ep) (or_introl Hc)) as Hst.
      destruct (Upload.store _ req (c :: name) (Some "pdf"%string) size data)
        as [name' t' size' n mc ec sv warns | status code].
      * destruct Hst as (-> & -> & -> & Hrest).
        split; [reflexivity|]. split; [right; reflexivity|]. split; [exact Hs | exact Hrest].
      * destruct Hst as [(-> & ->) | H]; [|right; exact H].
        left. split; [reflexivity|]. right. right. left. reflexivity.
    + rewrite (pdf_raises _ _ Ep).
      left. split; [reflexivity|]. right. left. reflexivity.
Qed.

(** ** The two plan converters *)

Section TwoConverters.

Import PlanConverter TableSpec.

Lemma pdf_convert_from (rows : list row) :
  forall acc,
    fold_left PDFConverter.convert_row rows acc
    = PlanItems (meals acc ++ flat_map PDFConverter.meals_of rows)
                (exercises acc ++ flat_map ConverterSpec.exercises_of rows) \/
    ~ Forall legacy_keys rows.
Proof.
  induction rows as [|r rows IH]; intros acc.
  - left. cbn [fold_left flat_map]. rewrite !app_nil_r. destruct acc; reflexivity.
  - destruct (r !! "type"%string) as [v|] eqn:Et;
      [right; intros H; inversion H as [|? ? (Ht & _) _]; congruence|].
    destruct (IH (PDFConverter.convert_row acc r)) as [E | Hn];
      [|right; intros H; inversion H; contradiction].
    left. cbn [fold_left flat_map]. rewrite E.
    unfold PDFConverter.convert_row, PDFConverter.meals_of,
      ConverterSpec.exercises_of, ConverterSpec.explicit_layout,
      ConverterSpec.trimmed, dict_get.
    rewrite Et. cbn [default from_option id nonempty_str andb meals exercises].
    destruct (truthy (from_option id VNone (r !! "food"%string))
              || truthy (from_option id VNone (r !! "meal_time"%string)));
      destruct (truthy (from_option id VNone (r !! "exercise"%string)));
      cbn [meals exercises]; rewrite <- ?app_assoc, ?app_nil_r; reflexivity.
Qed.

Lemma pdf_convert_spec (rows : list row) :
  Forall legacy_keys rows ->
  PDFConverter.convert_to_plan_items rows
  = PlanItems (flat_map PDFConverter.meals_of rows)
              (flat_map ConverterSpec.exercises_of rows).
Proof.
  intros H. unfold PDFConverter.convert_to_plan_items.
  destruct (pdf_convert_from rows (PlanItems [] [])) as [E | Hn]; [exact E | contradiction].
Qed.

Lemma filter_flat_map {A B} (p : B -> bool) (g : A -> list B) (l : list A) :
  List.filter p (flat_map g l) = flat_map (fun a => List.filter p (g a)) l.
Proof.
  induction l as [|a l IH]; cbn [flat_map]; [reflexivity|].
  rewrite List.filter_app, IH. reflexivity.
Qed.

Lemma legacy_meals (r : row) :
  legacy_keys r ->
  ConverterSpec.meals_of r = List.filter PDFConverter.has_food (PDFConverter.meals_of r) /\
  (PDFConverter.meal_has_food r -> ConverterSpec.meals_of r = PDFConverter.meals_of r).
Proof.
  intros Hl. unfold ConverterSpec.meals_of. rewrite (legacy_layout r Hl).
  unfold PDFConverter.meals_of, PDFConverter.meal_has_food, PDFConverter.has_food.
  destruct (truthy (dict_get r "food")) eqn:Ef; cbn [orb].
  - cbn [List.filter food]. rewrite Ef. split; reflexivity.
  - destruct (truthy (dict_get r "meal_time")) eqn:Em.
    + cbn [List.filter food]. rewrite Ef. split; [reflexivity|].
      intros H. specialize (H eq_refl). discriminate.
    + split; reflexivity.
Qed.

Lemma flat_map_ext_Forall {A B} (P : A -> Prop) (f g : A -> list B) (l : list A) :
  Forall P l -> (forall a, P a -> f a = g a) -> flat_map f l = flat_map g l.
Proof.
  intros Hl Hfg. induction Hl as [|a l Ha _ IH]; cbn [flat_map]; [reflexivity|].
  rewrite (Hfg a Ha), IH. reflexivity.
Qed.

Lemma paired_meal_has_food (r : row) : LineSpec.paired r -> PDFConverter.meal_has_food r.
Proof.
  unfold PDFConverter.meal_has_food, dict_get.
  intros [(Hm & _) | (mt & ft & _ & Hf & Hne)].
  - rewrite Hm. discriminate.
  - intros _. rewrite Hf. destruct ft; [congruence | reflexivity].
Qed.

End TwoConverters.

(** X21: the converter of pdf_parser.py and the converter that the
    upload endpoint uses (that of excel_parser.py) compared on rows
    without the keys type and name, as the records of a PDF are: both
    return, with the same exercise entries; the meal entries of the
    endpoint's converter are those of the PDF converter that have a
    food, because the PDF converter also emits a meal for a row with a
    meal time and no food.  The two agree when every row with a meal
    time has a food, which holds for all records read from lines. *)
Theorem pdf_converters_compared (rows : list row) :
  Forall TableSpec.legacy_keys rows ->
  exists items,
    PlanConverter.convert_to_plan_items rows = Ok items /\
    PlanConverter.exercises items
    = PlanConverter.exercises (PDFConverter.convert_to_plan_items rows) /\
    PlanConverter.meals items
    = List.filter PDFConverter.has_food
        (PlanConverter.meals (PDFConverter.convert_to_plan_items rows)) /\
    (Forall PDFConverter.meal_has_food rows ->
     items = PDFConverter.convert_to_plan_items rows) /\
    ((exists text, rows = PDFParser._parse_text text) ->
     items = PDFConverter.convert_to_plan_items rows).
Proof.
  intros Hl.
  assert (Hc : Forall TableSpec.convertible rows)
    by (revert Hl; apply List.Forall_impl; exact legacy_convertible).
  unfold PlanConverter.convert_to_plan_items.
  rewrite (convert_from_spec rows Hc). cbn [PlanConverter.meals PlanConverter.exercises app].
  rewrite (pdf_convert_spec rows Hl).
  eexists. split; [reflexivity|]. cbn [PlanConverter.meals PlanConverter.exercises].
  split; [reflexivity|]. split.
  - rewrite filter_flat_map. apply (flat_map_ext_Forall TableSpec.legacy_keys); [exact Hl|].
    intros r Hr. exact (proj1 (legacy_meals r Hr)).
  - assert (Hagree : Forall PDFConverter.meal_has_food rows ->
              PlanConverter.PlanItems (flat_map ConverterSpec.meals_of rows)
                                      (flat_map ConverterSpec.exercises_of rows)
              = PlanConverter.PlanItems (flat_map PDFConverter.meals_of rows)
                                        (flat_map ConverterSpec.exercises_of rows)).
    { intros Hm. f_equal.
      apply (flat_map_ext_Forall
               (fun r => TableSpec.legacy_keys r /\ PDFConverter.meal_has_food r)).
      - apply List.Forall_forall. intros r Hr. rewrite List.Forall_forall in Hl, Hm.
        split; [exact (Hl r Hr) | exact (Hm r Hr)].
      - intros r (Hr & Hf). exact (proj2 (legacy_meals r Hr) Hf). }
    split; [exact Hagree|].
    intros (text & ->). apply Hagree.
    pose proof (parse_text_well_formed text) as Hwf. revert Hwf.
    apply List.Forall_impl. intros r (_ & _ & Hp). exact (paired_meal_has_food r Hp).
Qed.

Lemma pdf_converters_compared_witness :
  exists items,
    PlanConverter.convert_to_plan_items PDFConverter.meal_time_only = Ok items /\
    PlanConverter.meals items = [] /\
    length (PlanConverter.meals
              (PDFConverter.convert_to_plan_items PDFConverter.meal_time_only)) = 1%nat.
Proof.
  destruct (pdf_converters_compared PDFConverter.meal_time_only)
    as (items & Hc & _ & Hm & _).
  - repeat constructor.
  - exists items. split; [exact Hc|]. split; [rewrite Hm|]; vm_compute; reflexivity.
Defined.

(** ** The completeness report *)

Section CompletenessReport.

Import Completeness.

(** The count as the dictionary holds it: no key for a count of 0. *)
Lemma field_fold (r : row) (fs : list string) :
  NoDup fs ->
  forall (b : bool) (cnt : gmap string nat),
  exists cnt',
    fold_left (field_step r) fs (b, cnt)
    = (b && forallb (fun f => negb (is_missing r f)) fs, cnt') /\
    forall f, cnt' !! f
              = if bool_decide (f ∈ fs) && is_missing r f
                then Some (default 0 (cnt !! f) + 1)%nat
                else cnt !! f.
Proof.
  induction 1 as [|f0 fs Hnin Hnd IH]; intros b cnt.
  - exists cnt. split; [cbn; rewrite andb_true_r; reflexivity|].
    intros f. rewrite bool_decide_eq_false_2 by apply not_elem_of_nil. reflexivity.
  - cbn [fold_left forallb]. unfold field_step at 2.
    destruct (is_missing r f0) eqn:E0.
    + destruct (IH false (<[f0 := (default 0 (cnt !! f0) + 1)%nat]> cnt)) as (cnt' & Hf & Hl).
      exists cnt'. split; [rewrite Hf; cbn [negb andb]; rewrite andb_false_r; reflexivity|].
      intros f. rewrite Hl.
      destruct (decide (f = f0)) as [->|Hne].
      * rewrite (bool_decide_eq_false_2 (f0 ∈ fs)) by exact Hnin.
        rewrite (bool_decide_eq_true_2 (f0 ∈ f0 :: fs)) by apply list_elem_of_here.
        cbn [andb]. rewrite E0. apply lookup_insert_eq.
      * rewrite lookup_insert_ne by congruence.
        destruct (decide (f ∈ fs)) as [Hin|Hout].
        -- rewrite !bool_decide_eq_true_2; [reflexivity | apply list_elem_of_further; exact Hin
                                           | exact Hin].
        -- rewrite !bool_decide_eq_false_2; [reflexivity | | exact Hout].
           intros H. apply elem_of_cons in H. destruct H; [congruence | contradiction].
    + destruct (IH b cnt) as (cnt' & Hf & Hl).
      exists cnt'. split; [rewrite Hf; cbn [negb andb]; reflexivity|].
      intros f. rewrite Hl.
      destruct (decide (f = f0)) as [->|Hne].
      * rewrite E0, !andb_false_r. reflexivity.
      * destruct (decide (f ∈ fs)) as [Hin|Hout].
        -- rewrite !bool_decide_eq_true_2; [reflexivity | apply list_elem_of_further; exact Hin
                                           | exact Hin].
        -- rewrite !bool_decide_eq_false_2; [reflexivity | | exact Hout].
           intros H. apply elem_of_cons in H. destruct H; [congruence | contradiction].
Qed.

Lemma rows_fold (fs : list string) (rows : list row) :
  NoDup fs ->
  forall (c : nat) (cnt : gmap string nat),
  exists cnt',
    fold_left (row_step fs) rows (c, cnt)
    = ((c + length (List.filter
                      (fun r => forallb (fun f => negb (is_missing r f)) fs) rows))%nat,
       cnt') /\
    forall f, default 0%nat (cnt' !! f)
              = (default 0 (cnt !! f)
                 + if bool_decide (f ∈ fs) then missing_in rows f else 0)%nat /\
              (cnt !! f = None -> default 0%nat (cnt' !! f) = 0%nat -> cnt' !! f = None).
Proof.
  intros Hnd. induction rows as [|r rows IH]; intros c cnt.
  - exists cnt. split; [cbn; rewrite Nat.add_0_r; reflexivity|].
    intros f. unfold missing_in. cbn [List.filter length].
    destruct (bool_decide (f ∈ fs)); rewrite Nat.add_0_r; tauto.
  - cbn [fold_left]. unfold row_step at 2.
    destruct (field_fold r fs Hnd true cnt) as (cnt1 & -> & Hl1).
    cbn [andb].
    destruct (IH (if forallb (fun f => negb (is_missing r f)) fs then c + 1 else c)%nat cnt1)
      as (cnt' & -> & Hl').
    exists cnt'. split.
    + f_equal. cbn [List.filter].
      destruct (forallb (fun f => negb (is_missing r f)) fs); cbn [length]; lia.
    + intros f. destruct (Hl' f) as (Hsum & Hnone). specialize (Hl1 f).
      unfold missing_in in *. cbn [List.filter].
      destruct (bool_decide (f ∈ fs)); cbn [andb] in Hl1.
      * destruct (is_missing r f); cbn [length].
        -- rewrite Hl1 in Hsum, Hnone. cbn [default from_option id] in Hsum.
           split; [lia|]. intros _ H0. lia.
        -- rewrite Hl1 in Hsum, Hnone. split; [lia | exact Hnone].
      * rewrite Hl1 in Hsum, Hnone. split; [lia | exact Hnone].
Qed.

Lemma all_fields_from (rows : list row) (acc : gset string) (f : string) :
  f ∈ fold_left (fun fields r => fields ∪ dom r) rows acc
  <-> f ∈ acc \/ exists r, In r rows /\ is_Some (r !! f).
Proof.
  revert acc. induction rows as [|r rows IH]; intros acc; cbn [fold_left].
  - split; [tauto | intros [H | (r & [] & _)]; exact H].
  - rewrite IH, elem_of_union, elem_of_dom. split.
    + intros [[H | H] | (r' & Hr' & H)]; [left; exact H | right | right].
      * exists r. split; [left; reflexivity | exact H].
      * exists r'. split; [right; exact Hr' | exact H].
    + intros [H | (r' & [<- | Hr'] & H)]; [left; left; exact H | left; right; exact H|].
      right. exists r'. split; assumption.
Qed.

Lemma all_fields_spec (data : list row) (f : string) :
  f ∈ all_fields data <-> exists r, In r data /\ is_Some (r !! f).
Proof.
  unfold all_fields. rewrite all_fields_from. split; [|tauto].
  intros [H | H]; [|exact H]. apply elem_of_empty in H. contradiction.
Qed.

Lemma filter_split_length {A} (p : A -> bool) (l : list A) :
  (length (List.filter p l) + length (List.filter (fun a => negb (p a)) l))%nat = length l.
Proof.
  induction l as [|a l IH]; cbn [List.filter length]; [reflexivity|].
  destruct (p a); cbn [negb length]; lia.
Qed.

Lemma ratio_one (n : Z) : 0 < n -> PyFloat.of_ratio false n n = PyFloat.of_Z 1.
Proof.
  intros Hn. unfold PyFloat.of_ratio.
  destruct (Z.eqb_spec n 0) as [->|_]; [lia|].
  replace (64 + Z.log2 n - Z.log2 n) with 64 by lia.
  change (Z.max 0 64) with 64. cbv zeta.
  rewrite (Z.mul_comm n), Z.div_mul, Z.mod_mul by lia.
  reflexivity.
Qed.

Lemma check_nonempty (data : list row) :
  data <> [] ->
  check_data_completeness data
  = let '(c, cnt) := fold_left (row_step (elements (all_fields data))) data (O, ∅) in
    Report (length data) c (Z.of_nat (length data) - Z.of_nat c)
           (round2 (PyFloat.mul (PyFloat.of_ratio false (Z.of_nat c) (Z.of_nat (length data)))
                                (PyFloat.of_Z 100)))
           cnt.
Proof. destruct data; [congruence | reflexivity]. Qed.

Lemma report_nonempty (data : list row) :
  data <> [] ->
  exists cnt,
    check_data_completeness data
    = Report (length data) (length (List.filter (is_complete data) data))
             (Z.of_nat (length data)
              - Z.of_nat (length (List.filter (is_complete data) data)))
             (round2 (PyFloat.mul
                        (PyFloat.of_ratio false
                           (Z.of_nat (length (List.filter (is_complete data) data)))
                           (Z.of_nat (length data)))
                        (PyFloat.of_Z 100)))
             cnt /\
    forall f, cnt !! f
              = if bool_decide (f ∈ all_fields data) && (0 <? missing_in data f)%nat
                then Some (missing_in data f) else None.
Proof.
  intros Hne. rewrite (check_nonempty data Hne).
  assert (Hnd : NoDup (elements (all_fields data))) by apply NoDup_elements.
  destruct (rows_fold (elements (all_fields data)) data Hnd O ∅) as (cnt & Hfold & Hl).
  rewrite Hfold. cbn [Nat.add]. exists cnt. split; [reflexivity|].
  intros f. destruct (Hl f) as (Hsum & Hnone).
  rewrite lookup_empty in Hsum, Hnone. cbn [default from_option id Nat.add] in Hsum.
  destruct (decide (f ∈ all_fields data)) as [Hin|Hout].
  - rewrite (bool_decide_eq_true_2 (f ∈ elements (all_fields data))) in Hsum
      by (apply elem_of_elements; exact Hin).
    rewrite (bool_decide_eq_true_2 (f ∈ all_fields data)) by exact Hin. cbn [andb].
    destruct (Nat.ltb_spec 0 (missing_in data f)) as [Hpos|Hz].
    + destruct (cnt !! f) as [n|]; cbn [default from_option id] in Hsum; [f_equal; lia | lia].
    + apply Hnone; [reflexivity | lia].
  - rewrite (bool_decide_eq_false_2 (f ∈ elements (all_fields data))) in Hsum
      by (rewrite elem_of_elements; exact Hout).
    rewrite (bool_decide_eq_false_2 (f ∈ all_fields data)) by exact Hout. cbn [andb].
    apply Hnone; [reflexivity | lia].
Qed.

End CompletenessReport.

(** X22: the completeness report counts what it says.  total_rows is
    the number of rows; complete_rows is the number of rows in which
    every field that is a key of some row is bound to a value other
    than None and the empty string, and incomplete_rows is the number of
    the other rows; missing_fields binds a field to the number of rows
    in which it is absent, None or empty, for the fields that are a key
    of some row and are missing in at least one row, and binds no other
    key; the rate is 100.0 when every row is complete and 0.0 when none
    is. *)
Theorem completeness_report (data : list row) :
  Completeness.total_rows (Completeness.check_data_completeness data) = length data /\
  Completeness.complete_rows (Completeness.check_data_completeness data)
  = length (List.filter (Completeness.is_complete data) data) /\
  Completeness.incomplete_rows (Completeness.check_data_completeness data)
  = Z.of_nat (length (List.filter (fun r => negb (Completeness.is_complete data r)) data)) /\
  (forall f, Completeness.missing_fields (Completeness.check_data_completeness data) !! f
             = if bool_decide (f ∈ Completeness.all_fields data)
                  && (0 <? Completeness.missing_in data f)%nat
               then Some (Completeness.missing_in data f) else None) /\
  (forall f, f ∈ Completeness.all_fields data <-> exists r, In r data /\ is_Some (r !! f)) /\
  (data <> [] ->
   Completeness.complete_rows (Completeness.check_data_completeness data) = length data ->
   Completeness.completeness_rate (Completeness.check_data_completeness data)
   = PyFloat.of_Z 100) /\
  (Completeness.complete_rows (Completeness.check_data_completeness data) = O ->
   Completeness.completeness_rate (Completeness.check_data_completeness data)
   = S754_zero false).
Proof.
  destruct data as [|r0 rows] eqn:Ed.
  { split; [reflexivity|]. split; [reflexivity|]. split; [reflexivity|].
    split; [intros f; cbn; rewrite lookup_empty, andb_false_r; reflexivity|].
    split; [exact (all_fields_spec [])|].
    split; [congruence | reflexivity]. }
  rewrite <- Ed. assert (Hne : data <> []) by (rewrite Ed; discriminate).
  destruct (report_nonempty data Hne) as (cnt & -> & Hm).
  cbn [Completeness.total_rows Completeness.complete_rows Completeness.incomplete_rows
       Completeness.missing_fields Completeness.completeness_rate].
  split; [reflexivity|]. split; [reflexivity|]. split.
  { pose proof (filter_split_length (Completeness.is_complete data) data) as Hs. lia. }
  split; [exact Hm|]. split; [exact (all_fields_spec data)|]. split.
  - intros _ Hall. rewrite Hall.
    rewrite ratio_one by (rewrite Ed; cbn [length]; lia).
    vm_compute. reflexivity.
  - intros Hz. rewrite Hz. reflexivity.
Qed.

Lemma completeness_report_witness :
  Completeness.completeness_rate (Completeness.check_data_completeness Completeness.sample)
  = PyFloat.of_Z 50 /\
  Completeness.missing_fields (Completeness.check_data_completeness Completeness.sample)
    !! "food"%string = Some 1%nat.
Proof.
  destruct (completeness_report Completeness.sample) as (_ & _ & _ & Hm & _).
  split; [vm_compute; reflexivity|]. rewrite Hm. vm_compute. reflexivity.
Defined.

(** ** Tabular extractor: what makes a header row *)

Section HeaderRow.

Import ExcelParser HeaderThreshold.

Lemma header_fold (r : list value) :
  forall kc nc : Z,
    fold_left (fun '(kc, nc) c =>
        if truthy c then
          if existsb (fun '(_, keywords) => has_keyword keywords (lower (Py.str c)))
                     COLUMN_KEYWORDS
          then (kc + 1, nc + 1)
          else (kc, nc + 1)
        else (kc, nc))
      r (kc, nc)
    = (kc + Z.of_nat (keyword_count r), nc + Z.of_nat (non_empty_count r)).
Proof.
  unfold keyword_count, non_empty_count, keyword_cell.
  induction r as [|c r IH]; intros kc nc.
  - cbn. rewrite !Z.add_0_r. reflexivity.
  - cbn [fold_left List.filter]. destruct (truthy c); cbn [andb].
    + destruct (existsb _ COLUMN_KEYWORDS); rewrite IH; cbn [length]; f_equal; lia.
    + apply IH.
Qed.

Lemma keyword_le_non_empty (r : list value) : (keyword_count r <= non_empty_count r)%nat.
Proof.
  unfold keyword_count, non_empty_count, keyword_cell.
  induction r as [|c r IH]; cbn [List.filter length]; [lia|].
  destruct (truthy c); cbn [andb]; [|exact IH].
  destruct (existsb _ COLUMN_KEYWORDS); cbn [length]; lia.
Qed.

Lemma table_256 : threshold_table 256 = true.
Proof. vm_compute. reflexivity. Qed.

Lemma table_lookup (n nc kc : nat) :
  threshold_table n = true -> (kc <= nc <= n)%nat ->
  SFleb (PyFloat.mul (PyFloat.of_Z (Z.of_nat nc)) (PyFloat.of_decimal false 4 1 (-1)))
        (PyFloat.of_Z (Z.of_nat kc))
  = (2 * Z.of_nat nc <=? 5 * Z.of_nat kc).
Proof.
  intros T H. unfold threshold_table in T. cbv zeta in T.
  rewrite forallb_forall in T. specialize (T nc ltac:(apply in_seq; lia)).
  rewrite forallb_forall in T. specialize (T kc ltac:(apply in_seq; lia)).
  apply Bool.eqb_prop in T. exact T.
Qed.

Lemma threshold_agrees (nc kc : nat) :
  (kc <= nc <= 256)%nat ->
  SFleb (PyFloat.mul (PyFloat.of_Z (Z.of_nat nc)) (PyFloat.of_decimal false 4 1 (-1)))
        (PyFloat.of_Z (Z.of_nat kc))
  = (2 * Z.of_nat nc <=? 5 * Z.of_nat kc).
Proof. exact (table_lookup 256 nc kc table_256). Qed.

End HeaderRow.

(** X23: a row of at most 256 non-empty cells is taken for the header
    row exactly when it has a non-empty cell and at least 40 % of its
    non-empty cells contain a keyword of some field (5 times the number
    of keyword cells is at least twice the number of non-empty cells):
    the comparison with the float 0.4 times the count decides as the
    exact comparison does.  Two keyword cells out of five are enough. *)
Theorem header_row_threshold (r : list value) :
  (HeaderThreshold.non_empty_count r <= 256)%nat ->
  ExcelParser._is_header_row r
  = (0 <? HeaderThreshold.non_empty_count r)%nat
    && (2 * HeaderThreshold.non_empty_count r <=? 5 * HeaderThreshold.keyword_count r)%nat.
Proof.
  intros Hn. unfold ExcelParser._is_header_row.
  destruct r as [|c0 r0] eqn:Er; [reflexivity|]. rewrite <- Er.
  rewrite <- Er in Hn. cbv zeta. rewrite (header_fold r 0 0), !Z.add_0_l.
  pose proof (keyword_le_non_empty r) as Hk.
  rewrite threshold_agrees by lia.
  assert (H1 : (0 <? Z.of_nat (HeaderThreshold.non_empty_count r))
               = (0 <? HeaderThreshold.non_empty_count r)%nat).
  { destruct (Z.ltb_spec 0 (Z.of_nat (HeaderThreshold.non_empty_count r))),
      (Nat.ltb_spec 0 (HeaderThreshold.non_empty_count r)); try reflexivity; lia. }
  assert (H2 : (2 * Z.of_nat (HeaderThreshold.non_empty_count r)
                <=? 5 * Z.of_nat (HeaderThreshold.keyword_count r))
               = (2 * HeaderThreshold.non_empty_count r
                  <=? 5 * HeaderThreshold.keyword_count r)%nat).
  { destruct (Z.leb_spec (2 * Z.of_nat (HeaderThreshold.non_empty_count r))
                         (5 * Z.of_nat (HeaderThreshold.keyword_count r))),
      (Nat.leb_spec (2 * HeaderThreshold.non_empty_count r)
                    (5 * HeaderThreshold.keyword_count r)); try reflexivity; lia. }
  rewrite H1, H2. reflexivity.
Qed.

Lemma header_row_threshold_witness :
  ExcelParser._is_header_row HeaderThreshold.two_of_five = true.
Proof.
  rewrite (header_row_threshold HeaderThreshold.two_of_five) by (vm_compute; lia).
  vm_compute. reflexivity.
Defined.

(** ** Validation of plan items *)

Section PlanItemsValidation.

Import PlanConverter DataValidator RowReport PlanValidation.

Lemma number_errors_field (f : string) (mx : Z) (prefix : string) (r : row) (i : nat)
    (l : list ValidationError) :
  In f checked_fields ->
  number_errors f mx prefix r i = Ok l -> Forall (on_row_field r) l.
Proof.
  intros Hf. unfold number_errors.
  destruct (dict_has r f) eqn:Eh; cbn [andb]; [|intros [= <-]; constructor].
  destruct (negb (is_none (dict_get r f))); [|intros [= <-]; constructor].
  destruct (_is_valid_number (dict_get r f) 0 mx) as [ok|x]; [|discriminate].
  destruct ok; cbn [mbind result_bind Py.bind negb]; intros [= <-]; [constructor|].
  constructor; [|constructor]. split; [exact Hf | left; exact Eh].
Qed.

Lemma row_errors_fields (r : row) (i : nat) (dt : string) (errs : list ValidationError) :
  row_errors r i dt = Ok errs -> Forall (on_row_field r) errs.
Proof.
  unfold row_errors.
  destruct (calories_errors r i) as [cal|x] eqn:Ecal; [|discriminate].
  destruct (duration_errors r i) as [dur|x] eqn:Edur; [|discriminate].
  cbn [mbind result_bind Py.bind]. intros [= <-].
  apply List.Forall_app. split.
  { rewrite required_errors_spec.
    destruct (BatchReport.requires_date dt && negb (truthy (dict_get r "date")));
      [|constructor].
    constructor; [|constructor]. split; [left; reflexivity | right; reflexivity]. }
  apply List.Forall_app. split.
  { unfold date_errors. destruct (dict_has r "date") eqn:Eh; cbn [andb]; [|constructor].
    destruct (truthy (dict_get r "date") && negb (_is_valid_date (dict_get r "date")));
      [|constructor].
    constructor; [|constructor]. split; [left; reflexivity | left; exact Eh]. }
  apply List.Forall_app. split.
  { apply (number_errors_field _ _ _ _ _ _ ltac:(right; left; reflexivity) Ecal). }
  apply List.Forall_app. split.
  { apply (number_errors_field _ _ _ _ _ _ ltac:(right; right; left; reflexivity) Edur). }
  unfold text_errors. apply flat_map_Forall. intros f Hf.
  destruct (dict_has r f) eqn:Eh; cbn [andb]; [|constructor].
  destruct (truthy (dict_get r f) && negb (_is_valid_text (dict_get r f) 500));
    [|constructor].
  constructor; [|constructor]. split; [|left; exact Eh].
  cbn [field]. unfold checked_fields. apply in_or_app. right. exact Hf.
Qed.

Lemma batch_errors_fields (rows : list row) (dt : string) :
  forall i errs,
    batch_errors rows i dt = Ok errs ->
    Forall (fun e => exists r, In r rows /\ on_row_field r e) errs.
Proof.
  induction rows as [|r rows IH]; intros i errs; cbn [batch_errors].
  - intros [= <-]. constructor.
  - destruct (row_errors r i dt) as [e|x] eqn:Er; [|discriminate].
    destruct (batch_errors rows (S i) dt) as [es|x] eqn:Eb; [|discriminate].
    cbn [mbind result_bind Py.bind]. intros [= <-]. apply List.Forall_app. split.
    + pose proof (row_errors_fields r i dt e Er) as H. revert H.
      apply List.Forall_impl. intros a Ha. exists r. split; [left; reflexivity | exact Ha].
    + pose proof (IH (S i) es Eb) as H. revert H.
      apply List.Forall_impl. intros a (r' & Hr' & Ha). exists r'.
      split; [right; exact Hr' | exact Ha].
Qed.

Lemma validated_fields (rows : list row) (dt : string) (res : ValidationResult)
    (e : ValidationError) :
  validate_parsed_data rows dt = Ok res -> In e (errors res) ->
  (rows = [] /\ error_type e = EMPTY_DATA /\ field e = "data"%string) \/
  exists r, In r rows /\ on_row_field r e.
Proof.
  destruct rows as [|r0 rows].
  - intros [= <-] [<- | []]. left. repeat split.
  - rewrite validate_batch_spec.
    destruct (batch_errors (r0 :: rows) 1 dt) as [es|x] eqn:Eb; [|discriminate].
    intros [= <-] He. right. cbn [errors] in He.
    pose proof (batch_errors_fields _ _ _ _ Eb) as H.
    rewrite List.Forall_forall in H. exact (H e He).
Qed.

Lemma meal_dict_has (m : MealEntry) (f : string) :
  dict_has (meal_dict m) f = true ->
  In f ["date"; "meal_time"; "food"; "calories"; "notes"]%string.
Proof.
  unfold dict_has, meal_dict. intros H. apply bool_decide_eq_true in H.
  destruct H as (v & H).
  repeat (apply lookup_insert_Some in H; destruct H as [(<- & _) | (_ & H)];
          [cbn [In]; tauto|]).
  apply lookup_singleton_Some in H. destruct H as (<- & _). cbn [In]. tauto.
Qed.

Lemma exercise_dict_has (x : ExerciseEntry) (f : string) :
  dict_has (exercise_dict x) f = true ->
  In f ["date"; "name"; "duration"; "calories_burned"; "notes"]%string.
Proof.
  unfold dict_has, exercise_dict. intros H. apply bool_decide_eq_true in H.
  destruct H as (v & H).
  repeat (apply lookup_insert_Some in H; destruct H as [(<- & _) | (_ & H)];
          [cbn [In]; tauto|]).
  apply lookup_singleton_Some in H. destruct H as (<- & _). cbn [In]. tauto.
Qed.

Lemma empty_invalid (dt : string) (res : ValidationResult) :
  validate_parsed_data [] dt = Ok res -> is_valid res = false.
Proof. intros [= <-]. reflexivity. Qed.

End PlanItemsValidation.

(** X24: validate_plan_items checks the meal entries with the kind
    'meal' and the exercise entries with the kind 'exercise'.  Every
    error of the meal result is on date, meal_time, food, calories or
    notes, and every error of the exercise result on date, name,
    duration or notes: the calories of an exercise, stored under
    calories_burned, are never checked.  An empty list of meals or of
    exercises makes its result invalid, with the error EMPTY_DATA on
    the field data. *)
Theorem plan_items_validation (items : PlanConverter.plan_items)
    (meal_result exercise_result : DataValidator.ValidationResult) :
  PlanValidation.validate_plan_items items = Ok (meal_result, exercise_result) ->
  (forall e, In e (DataValidator.errors meal_result) ->
     In (DataValidator.field e)
        ["data"; "date"; "meal_time"; "food"; "calories"; "notes"]%string) /\
  (forall e, In e (DataValidator.errors exercise_result) ->
     In (DataValidator.field e) ["data"; "date"; "name"; "duration"; "notes"]%string) /\
  (PlanConverter.meals items = [] -> DataValidator.is_valid meal_result = false) /\
  (PlanConverter.exercises items = [] -> DataValidator.is_valid exercise_result = false).
Proof.
  unfold PlanValidation.validate_plan_items, PlanValidation.validate_meal_data,
    PlanValidation.validate_exercise_data.
  destruct (DataValidator.validate_parsed_data (List.map PlanValidation.meal_dict _) "meal")
    as [mres|x] eqn:Em; [|discriminate].
  destruct (DataValidator.validate_parsed_data (List.map PlanValidation.exercise_dict _)
              "exercise") as [eres|x] eqn:Ee; [|discriminate].
  cbn [mbind result_bind Py.bind]. intros [= <- <-].
  split; [|split; [|split]].
  - intros e He. destruct (validated_fields _ _ _ e Em He) as [(_ & _ & ->) | (r & Hr & Hc & Hk)].
    { left. reflexivity. }
    right. destruct Hk as [Hk | ->]; [|left; reflexivity].
    apply in_map_iff in Hr. destruct Hr as (m & <- & _).
    exact (meal_dict_has m _ Hk).
  - intros e He. destruct (validated_fields _ _ _ e Ee He) as [(_ & _ & ->) | (r & Hr & Hc & Hk)].
    { left. reflexivity. }
    right. destruct Hk as [Hk | ->]; [|left; reflexivity].
    apply in_map_iff in Hr. destruct Hr as (x & <- & _).
    pose proof (exercise_dict_has x _ Hk) as Hin.
    cbn [In] in Hin.
    destruct Hin as [<- | [<- | [<- | [Hb | [<- | []]]]]]; cbn [In]; try tauto.
    exfalso. rewrite <- Hb in Hc. vm_compute in Hc.
    repeat (destruct Hc as [Hc | Hc]; [discriminate|]). exact Hc.
  - intros Hm. rewrite Hm in Em. exact (empty_invalid _ _ Em).
  - intros Hx. rewrite Hx in Ee. exact (empty_invalid _ _ Ee).
Qed.

Lemma plan_items_validation_witness :
  exists meal_result exercise_result,
    PlanValidation.validate_plan_items PlanValidation.burning
    = Ok (meal_result, exercise_result) /\
    DataValidator.is_valid meal_result = false /\
    DataValidator.is_valid exercise_result = true.
Proof.
  assert (H : exists mr er,
             PlanValidation.validate_plan_items PlanValidation.burning = Ok (mr, er) /\
             DataValidator.is_valid er = true).
  { eexists. eexists. split; vm_compute; reflexivity. }
  destruct H as (mr & er & H & Hv).
  destruct (plan_items_validation PlanValidation.burning mr er H) as (_ & _ & Hm & _).
  exists mr, er. split; [exact H|]. split; [exact (Hm eq_refl) | exact Hv].
Defined.

(** X25: the extension test of the upload endpoint and the tables of
    the file validator agree: the list written in upload_file is
    get_supported_extensions(), an extension passes the endpoint's test
    exactly when the validator detects a type for it, and that type is
    one of get_supported_types(), excel or pdf. *)
Theorem extension_lists_agree (ext : pystr) :
  FileHelpers.get_supported_extensions = Upload.supported_extensions /\
  FileHelpers.get_supported_types = ["excel"; "pdf"]%string /\
  (PlanValidation.endpoint_accepts ext = true <->
   exists t, FileValidator._detect_type_by_extension ext = Some t) /\
  (forall t, FileValidator._detect_type_by_extension ext = Some t ->
             In t FileHelpers.get_supported_types).
Proof.
  split; [reflexivity|]. split; [reflexivity|].
  unfold PlanValidation.endpoint_accepts, PlanConverter.str_in, Upload.supported_extensions,
    FileValidator._detect_type_by_extension, FileValidator.SUPPORTED_TYPES.
  cbn [existsb List.find FileValidator.extensions].
  destruct (str_eqb ext (utf8 ".xlsx")); cbn [orb].
  { split; [split; [intros _; eexists; reflexivity | reflexivity]|].
    intros t [= <-]. left. reflexivity. }
  destruct (str_eqb ext (utf8 ".xls")); cbn [orb].
  { split; [split; [intros _; eexists; reflexivity | reflexivity]|].
    intros t [= <-]. left. reflexivity. }
  destruct (str_eqb ext (utf8 ".pdf")); cbn [orb].
  { split; [split; [intros _; eexists; reflexivity | reflexivity]|].
    intros t [= <-]. right. left. reflexivity. }
  split; [split; [discriminate | intros (t & H); discriminate] | discriminate].
Qed.
